(** * FTPVita: the session engine of [libftpvita/ftpvita.c]

    A shallow embedding of the FTP server of xerpi/FTPVita.  C strings are
    [string]s (the bytes before the terminating NUL), C integers are [Z]
    with the conversions the source performs written out, a [const char *]
    that may be NULL is an [option string].  Calls into the platform
    (sockets, storage, threads) append an [Event] to the trace of the
    [World]; a result the program looks at comes from the [Platform] or from
    the scripts held in the [World].  The fixed-size buffers of the source
    ([PATH_MAX], 512) are taken to be large enough for the strings at hand. *)

From Stdlib Require Import ZArith List Ascii String Bool Lia DecimalString
  DecimalPos DecimalN.
Import ListNotations.
Open Scope Z_scope.

(** ** C strings *)

Definition nl : string := String (ascii_of_nat 10) EmptyString.
Definition cr : string := String (ascii_of_nat 13) EmptyString.
Definition dquote : string := String (ascii_of_nat 34) EmptyString.

Definition strlen (s : string) : nat := String.length s.

Definition strcat (a b : string) : string := String.append a b.

(** [strcmp(a, b) == 0] *)
Definition strcmp_eq (a b : string) : bool := String.eqb a b.

(** [strrchr(s, c)]: the offset of the last [c] in [s]; [None] is NULL. *)
Fixpoint strrchr (s : string) (c : ascii) : option nat :=
  match s with
  | EmptyString => None
  | String a r =>
      match strrchr r c with
      | Some i => Some (S i)
      | None => if Ascii.eqb a c then Some O else None
      end
  end.

(** [memset(s + off, 0, strlen(s) - off)]: the string ends at [off]. *)
Definition cut_at (off : nat) (s : string) : string := substring 0 off s.

(** [isspace] of the C locale. *)
Definition isspace (c : ascii) : bool :=
  let n := nat_of_ascii c in
  (Nat.eqb n 32 || (Nat.leb 9 n && Nat.leb n 13))%bool.

(** Unsigned and signed decimal conversions of [printf]. *)
Definition fmt_u (z : Z) : string := NilZero.string_of_uint (N.to_uint (Z.to_N z)).
Definition fmt_d (z : Z) : string := NilZero.string_of_int (Z.to_int z).

Fixpoint repeat_char (c : ascii) (n : nat) : string :=
  match n with
  | O => EmptyString
  | S k => String c (repeat_char c k)
  end.

(** [%-2d] and [%02d]. *)
Definition fmt_d_left (w : nat) (z : Z) : string :=
  let s := fmt_d z in
  String.append s (repeat_char " "%char (w - String.length s)).

Definition fmt_d_zero (w : nat) (z : Z) : string :=
  if z <? 0 then
    let s := fmt_u (- z) in
    String.append "-" (String.append (repeat_char "0"%char (w - 1 - String.length s)) s)
  else
    let s := fmt_u z in
    String.append (repeat_char "0"%char (w - String.length s)) s.

(** Conversions between the integer types of the source. *)
Definition to_uint8 (z : Z) : Z := z mod 2 ^ 8.
Definition to_uint16 (z : Z) : Z := z mod 2 ^ 16.
Definition to_uint32 (z : Z) : Z := z mod 2 ^ 32.
Definition to_int32 (z : Z) : Z :=
  let u := z mod 2 ^ 32 in if u <? 2 ^ 31 then u else u - 2 ^ 32.

(** ** Constants of the source *)

Definition FTP_PORT : Z := 1337.
Definition FILE_BUF_SIZE : Z := 4 * 1024 * 1024.
Definition FTP_DEFAULT_PATH : string := "/".
Definition MAX_DEVICES : nat := 16.

(** ** Path translation *)

(** PSVita paths are [<device>:<file>]; the client sees [/<device>:<file>]. *)
Definition get_vita_path (path : string) : option string :=
  if (1 <? strlen path)%nat then
    match path with
    | String _ rest => Some rest
    | EmptyString => None
    end
  else None.

Definition path_is_at_root (path : string) : bool :=
  match strrchr path "/" with
  | Some i => Nat.eqb i (strlen path - 1)
  | None => false
  end.

(** [dir_up] rewrites the buffer in place; [None] is the dereference of the
    NULL that [strrchr] returns for a path without a slash. *)
Definition dir_up (path : string) : option string :=
  let len_in := strlen path in
  if Nat.eqb len_in 1 then Some "/"%string
  else if path_is_at_root path then Some "/"%string
  else
    match strrchr path "/" with
    | None => None
    | Some pch =>
        let path' := cut_at pch path in
        match strrchr path' "/" with
        | Some O => Some (strcat path' "/")
        | _ => Some path'
        end
    end.

(** ** The mount table *)

Record Device := mkDevice { name : string; valid : Z }.

Fixpoint array_set {A : Type} (i : nat) (x : A) (l : list A) : list A :=
  match l, i with
  | [], _ => []
  | _ :: t, O => x :: t
  | h :: t, S k => h :: array_set k x t
  end.

(** The [for (i = 0; i < MAX_DEVICES; i++)] loops, with [n] slots to go. *)
Fixpoint add_device_from (n i : nat) (devname : string) (dl : list Device)
  : Z * list Device :=
  match n with
  | O => (0, dl)
  | S n' =>
      match nth_error dl i with
      | Some d =>
          if valid d =? 0
          then (1, array_set i (mkDevice devname 1) dl)
          else add_device_from n' (S i) devname dl
      | None => (0, dl)
      end
  end.

Definition ftpvita_add_device (devname : string) (dl : list Device)
  : Z * list Device :=
  add_device_from MAX_DEVICES 0 devname dl.

Fixpoint del_device_from (n i : nat) (devname : string) (dl : list Device)
  : Z * list Device :=
  match n with
  | O => (0, dl)
  | S n' =>
      match nth_error dl i with
      | Some d =>
          if strcmp_eq devname (name d)
          then (1, array_set i (mkDevice (name d) 0) dl)
          else del_device_from n' (S i) devname dl
      | None => (0, dl)
      end
  end.

Definition ftpvita_del_device (devname : string) (dl : list Device)
  : Z * list Device :=
  del_device_from MAX_DEVICES 0 devname dl.

(** The table as [ftpvita_init] leaves it: static storage, every slot
    invalid. *)
Definition device_list_init : list Device :=
  repeat (mkDevice EmptyString 0) MAX_DEVICES.

(** ** [sscanf] with the formats of the source *)

Fixpoint skip_space (s : string) : string :=
  match s with
  | String c r => if isspace c then skip_space r else s
  | EmptyString => EmptyString
  end.

(** The longest prefix whose characters satisfy [p], and what follows. *)
Fixpoint span (p : ascii -> bool) (s : string) : string * string :=
  match s with
  | String c r =>
      if p c then let (a, b) := span p r in (String c a, b)
      else (EmptyString, s)
  | EmptyString => (EmptyString, EmptyString)
  end.

Definition is_empty (s : string) : bool :=
  match s with EmptyString => true | _ => false end.

(** Membership in the scan set of [%[^\r\n\t]]. *)
Definition in_line_set (c : ascii) : bool :=
  let n := nat_of_ascii c in
  negb (Nat.eqb n 13 || Nat.eqb n 10 || Nat.eqb n 9)%bool.

Definition not_blank (c : ascii) : bool := negb (Ascii.eqb c " ").

(** The directives [" %[^\r\n\t]"]: [Some] when the conversion assigns. *)
Definition scan_line_arg (s : string) : option string :=
  let (a, _) := span in_line_set (skip_space s) in
  if is_empty a then None else Some a.

(** [sscanf(buf, "%*s %[^\r\n\t]", out)]: [Some out] when it returns 1. *)
Definition sscanf_word_line (buf : string) : option string :=
  let (w, r) := span (fun c => negb (isspace c)) (skip_space buf) in
  if is_empty w then None else scan_line_arg r.

(** [sscanf(buf, "%*[^ ] %[^\r\n\t]", out)]: [Some out] when [out] is
    assigned, [None] when it is left as it was. *)
Definition sscanf_nonblank_line (buf : string) : option string :=
  let (w, r) := span not_blank buf in
  if is_empty w then None else scan_line_arg r.

(** [sscanf(buf, "%*s %c %s", &c, fmt)]: [Some c] when it returns more
    than 0. *)
Definition sscanf_word_char (buf : string) : option ascii :=
  let (w, r) := span (fun c => negb (isspace c)) (skip_space buf) in
  if is_empty w then None
  else match skip_space r with
       | String c _ => Some c
       | EmptyString => None
       end.

Definition is_digit (c : ascii) : bool :=
  let n := nat_of_ascii c in (Nat.leb 48 n && Nat.leb n 57)%bool.

Fixpoint digits_value (acc : Z) (s : string) : Z :=
  match s with
  | String c r => digits_value (10 * acc + Z.of_nat (nat_of_ascii c - 48)) r
  | EmptyString => acc
  end.

(** One [%d] stored through an [unsigned int *], and the input after it. *)
Definition scan_d (s : string) : option (Z * string) :=
  let s0 := skip_space s in
  let (neg, s1) :=
    match s0 with
    | String "-"%char r => (true, r)
    | String "+"%char r => (false, r)
    | _ => (false, s0)
    end in
  let (ds, rest) := span is_digit s1 in
  if is_empty ds then None
  else Some (to_uint32 (if neg then - digits_value 0 ds else digits_value 0 ds), rest).

Definition scan_comma (s : string) : option string :=
  match s with
  | String ","%char r => Some r
  | _ => None
  end.

(** [count] conversions [%d] separated by commas. *)
Fixpoint scan_d_list (count : nat) (s : string) : option (list Z) :=
  match count with
  | O => Some []
  | S k =>
      match scan_d s with
      | None => None
      | Some (v, r) =>
          match k with
          | O => Some [v]
          | S _ =>
              match scan_comma r with
              | None => None
              | Some r' =>
                  match scan_d_list k r' with
                  | Some vs => Some (v :: vs)
                  | None => None
                  end
              end
          end
      end
  end.

(** [sscanf(buf, "%*s %d,%d,%d,%d,%d,%d", ...)]: the six values when all
    six are assigned. *)
Definition sscanf_word_six (buf : string) : option (list Z) :=
  let (w, r) := span (fun c => negb (isspace c)) (skip_space buf) in
  if is_empty w then None else scan_d_list 6 r.

(** ** Data of the session engine *)

Inductive DataConnectionType :=
| FTP_DATA_CONNECTION_NONE
| FTP_DATA_CONNECTION_ACTIVE
| FTP_DATA_CONNECTION_PASSIVE.

Record SceNetSockaddrIn := mkSockaddr {
  sin_family : Z;
  sin_port : Z;
  sin_addr : Z
}.

Record ClientInfo := mkClient {
  num : Z;
  thid : Z;
  ctrl_sockfd : Z;
  data_sockfd : Z;
  data_con_type : DataConnectionType;
  data_sockaddr : SceNetSockaddrIn;
  pasv_sockfd : Z;
  recv_buffer : string;
  cur_path : string;
  rename_path : string
}.

Definition set_data_sockfd (v : Z) (c : ClientInfo) : ClientInfo :=
  mkClient (num c) (thid c) (ctrl_sockfd c) v (data_con_type c)
    (data_sockaddr c) (pasv_sockfd c) (recv_buffer c) (cur_path c)
    (rename_path c).

Definition set_data_con_type (v : DataConnectionType) (c : ClientInfo)
  : ClientInfo :=
  mkClient (num c) (thid c) (ctrl_sockfd c) (data_sockfd c) v
    (data_sockaddr c) (pasv_sockfd c) (recv_buffer c) (cur_path c)
    (rename_path c).

Definition set_data_sockaddr (v : SceNetSockaddrIn) (c : ClientInfo)
  : ClientInfo :=
  mkClient (num c) (thid c) (ctrl_sockfd c) (data_sockfd c) (data_con_type c)
    v (pasv_sockfd c) (recv_buffer c) (cur_path c) (rename_path c).

Definition set_pasv_sockfd (v : Z) (c : ClientInfo) : ClientInfo :=
  mkClient (num c) (thid c) (ctrl_sockfd c) (data_sockfd c) (data_con_type c)
    (data_sockaddr c) v (recv_buffer c) (cur_path c) (rename_path c).

Definition set_recv_buffer (v : string) (c : ClientInfo) : ClientInfo :=
  mkClient (num c) (thid c) (ctrl_sockfd c) (data_sockfd c) (data_con_type c)
    (data_sockaddr c) (pasv_sockfd c) v (cur_path c) (rename_path c).

Definition set_cur_path (v : string) (c : ClientInfo) : ClientInfo :=
  mkClient (num c) (thid c) (ctrl_sockfd c) (data_sockfd c) (data_con_type c)
    (data_sockaddr c) (pasv_sockfd c) (recv_buffer c) v (rename_path c).

Definition set_rename_path (v : string) (c : ClientInfo) : ClientInfo :=
  mkClient (num c) (thid c) (ctrl_sockfd c) (data_sockfd c) (data_con_type c)
    (data_sockaddr c) (pasv_sockfd c) (recv_buffer c) (cur_path c) v.

Record SceDateTime := mkDateTime {
  dt_month : Z;
  dt_day : Z;
  dt_hour : Z;
  dt_minute : Z
}.

Record SceIoStat := mkStat {
  st_mode : Z;
  st_size : Z;
  st_ctime : SceDateTime;
  st_mtime : SceDateTime
}.

Record SceIoDirent := mkDirent {
  d_stat : SceIoStat;
  d_name : string
}.

(** The globals of the translation unit. *)
Record Globals := mkGlobals {
  ftp_initialized : Z;
  vita_addr : Z;
  server_thid : Z;
  server_sockfd : Z;
  number_clients : Z;
  client_list : list ClientInfo;
  device_list : list Device;
  netctl_init : Z;
  net_init : Z;
  net_memory : bool
}.

(** ** The platform *)

(** One call into the platform, with the arguments the engine passed and,
    where the engine reads it, the result. *)
Inductive Event :=
| NetSend (fd : Z) (msg : string)
| NetSendRaw (fd : Z) (len : Z)
| NetRecv (fd : Z) (ret : Z)
| NetSocket (sockname : string) (ret : Z)
| NetBind (fd : Z) (addr : SceNetSockaddrIn)
| NetListen (fd : Z) (backlog : Z)
| NetGetsockname (fd : Z) (port : Z)
| NetConnect (fd : Z) (addr : SceNetSockaddrIn)
| NetAccept (fd : Z) (ret : Z)
| NetSocketClose (fd : Z)
| NetSocketAbort (fd : Z) (flags : Z)
| IoOpen (path : option string) (flags : Z) (ret : Z)
| IoClose (fd : Z)
| IoRead (fd : Z) (ret : Z)
| IoWrite (fd : Z) (len : Z)
| IoLseek (fd : Z)
| IoRemove (path : option string) (ret : Z)
| IoRmdir (path : option string) (ret : Z)
| IoMkdir (path : option string) (ret : Z)
| IoRename (src : string) (dst : option string) (ret : Z)
| IoGetstat (path : option string) (ret : Z)
| IoDopen (path : option string) (ret : Z)
| IoDread (dir : Z) (ret : Z)
| IoDclose (dir : Z)
| Malloc (size : Z) (ok : bool)
| Free
| KernelLockMutex
| KernelUnlockMutex
| KernelDeleteMutex
| KernelWaitThreadEnd (th : Z)
| NetCtlTerm
| NetTerm.

(** What the platform headers define and what its storage answers.  The
    constants and macros of the SDK are not part of the repository; they are
    fields here, so that nothing depends on their values. *)
Record Platform := mkPlatform {
  SCE_O_RDONLY : Z;
  SCE_O_WRONLY : Z;
  SCE_O_CREAT : Z;
  SCE_O_TRUNC : Z;
  SCE_NET_AF_INET : Z;
  SCE_NET_INADDR_ANY : Z;
  SCE_NET_SOCKET_ABORT_FLAG_RCV_PRESERVATION : Z;
  SCE_NET_SOCKET_ABORT_FLAG_SND_PRESERVATION : Z;
  SCE_S_ISDIR : Z -> bool;
  sceNetHtons : Z -> Z;
  sceNetHtonl : Z -> Z;
  io_open : option string -> Z -> Z;
  io_dopen : option string -> Z;
  io_remove : option string -> Z;
  io_rmdir : option string -> Z;
  io_mkdir : option string -> Z;
  io_rename : string -> option string -> Z;
  io_getstat : option string -> Z * SceIoStat;
  malloc_ok : Z -> bool;
  sockname_port : Z -> Z;
  inet_pton : string -> Z;
  (** the bytes an index of [num_to_month] outside 0..11 reads *)
  month_out_of_range : Z -> string
}.

(** The part of the platform that changes as the engine runs. *)
Record World := mkWorld {
  w_trace : list Event;      (* the calls so far, oldest first *)
  w_socks : list Z;          (* the socket descriptors that are open *)
  w_threads : list Z;        (* the threads that have not ended *)
  w_new_fds : list Z;        (* what the next sceNetSocket/sceNetAccept return *)
  w_data_in : list Z;        (* what the next sceNetRecv on a data socket return *)
  w_file_in : list Z;        (* what the next sceIoRead return *)
  w_dirents : list (Z * SceIoDirent)   (* what the next sceIoDread deliver *)
}.

Record State := mkState {
  client : ClientInfo;       (* the session of the running thread *)
  globals : Globals;
  world : World
}.

(** ** The monad: state, with [None] for behaviour the C source leaves
    undefined. *)

Definition M (A : Type) : Type := State -> option (A * State).

Definition ret {A : Type} (a : A) : M A := fun s => Some (a, s).

Definition bind {A B : Type} (m : M A) (k : A -> M B) : M B :=
  fun s => match m s with
           | Some (a, s') => k a s'
           | None => None
           end.

Definition undefined {A : Type} : M A := fun _ => None.

Notation "x <- m ;; k" := (bind m (fun x => k))
  (at level 61, m at next level, right associativity).
Notation "m ;; k" := (bind m (fun _ => k))
  (at level 61, right associativity).

Definition get_client : M ClientInfo := fun s => Some (client s, s).
Definition get_globals : M Globals := fun s => Some (globals s, s).
Definition get_world : M World := fun s => Some (world s, s).

Definition modify_client (f : ClientInfo -> ClientInfo) : M unit :=
  fun s => Some (tt, mkState (f (client s)) (globals s) (world s)).

Definition modify_globals (f : Globals -> Globals) : M unit :=
  fun s => Some (tt, mkState (client s) (f (globals s)) (world s)).

Definition modify_world (f : World -> World) : M unit :=
  fun s => Some (tt, mkState (client s) (globals s) (f (world s))).

Definition log (e : Event) (w : World) : World :=
  mkWorld (w_trace w ++ [e]) (w_socks w) (w_threads w) (w_new_fds w)
    (w_data_in w) (w_file_in w) (w_dirents w).

Definition emit (e : Event) : M unit := modify_world (log e).

Definition remove_Z (x : Z) (l : list Z) : list Z :=
  filter (fun y => negb (y =? x)) l.

(** ** Calls into the platform *)

Definition pop_Z (dflt : Z) (l : list Z) : Z * list Z :=
  match l with
  | [] => (dflt, [])
  | x :: r => (x, r)
  end.

Definition open_sock (fd : Z) (l : list Z) : list Z :=
  if 0 <=? fd then fd :: l else l.

Definition sceNetSend (fd : Z) (msg : string) : M unit := emit (NetSend fd msg).

Definition sceNetSendRaw (fd len : Z) : M unit := emit (NetSendRaw fd len).

(** A new descriptor comes from the script of the world (an error, [-1],
    once the script is used up) and is open from then on. *)
Definition sceNetSocket (sockname : string) : M Z :=
  w <- get_world ;;
  let (fd, rest) := pop_Z (-1) (w_new_fds w) in
  modify_world (fun w =>
    mkWorld (w_trace w ++ [NetSocket sockname fd]) (open_sock fd (w_socks w))
      (w_threads w) rest (w_data_in w) (w_file_in w) (w_dirents w)) ;;
  ret fd.

Definition sceNetAccept (lfd : Z) : M Z :=
  w <- get_world ;;
  let (fd, rest) := pop_Z (-1) (w_new_fds w) in
  modify_world (fun w =>
    mkWorld (w_trace w ++ [NetAccept lfd fd]) (open_sock fd (w_socks w))
      (w_threads w) rest (w_data_in w) (w_file_in w) (w_dirents w)) ;;
  ret fd.

Definition sceNetSocketClose (fd : Z) : M unit :=
  modify_world (fun w =>
    mkWorld (w_trace w ++ [NetSocketClose fd]) (remove_Z fd (w_socks w))
      (w_threads w) (w_new_fds w) (w_data_in w) (w_file_in w) (w_dirents w)).

Definition sceNetSocketAbort (fd flags : Z) : M unit :=
  emit (NetSocketAbort fd flags).

Definition sceNetBind (fd : Z) (a : SceNetSockaddrIn) : M unit :=
  emit (NetBind fd a).

Definition sceNetListen (fd backlog : Z) : M unit := emit (NetListen fd backlog).

Definition sceNetConnect (fd : Z) (a : SceNetSockaddrIn) : M unit :=
  emit (NetConnect fd a).

(** A receive on a data socket: the next entry of the script, end of stream
    (0) once the script is used up. *)
Definition sceNetRecv (fd : Z) : M Z :=
  w <- get_world ;;
  let (r, rest) := pop_Z 0 (w_data_in w) in
  modify_world (fun w =>
    mkWorld (w_trace w ++ [NetRecv fd r]) (w_socks w) (w_threads w)
      (w_new_fds w) rest (w_file_in w) (w_dirents w)) ;;
  ret r.

Definition sceIoRead (fd : Z) : M Z :=
  w <- get_world ;;
  let (r, rest) := pop_Z 0 (w_file_in w) in
  modify_world (fun w =>
    mkWorld (w_trace w ++ [IoRead fd r]) (w_socks w) (w_threads w)
      (w_new_fds w) (w_data_in w) rest (w_dirents w)) ;;
  ret r.

Definition dirent_zero : SceIoDirent :=
  mkDirent (mkStat 0 0 (mkDateTime 0 0 0 0) (mkDateTime 0 0 0 0)) EmptyString.

Definition sceIoDread (dir : Z) : M (Z * SceIoDirent) :=
  w <- get_world ;;
  let (r, rest) :=
    match w_dirents w with
    | [] => ((0, dirent_zero), [])
    | x :: t => (x, t)
    end in
  modify_world (fun w =>
    mkWorld (w_trace w ++ [IoDread dir (fst r)]) (w_socks w) (w_threads w)
      (w_new_fds w) (w_data_in w) (w_file_in w) rest) ;;
  ret r.

Definition sceIoWrite (fd len : Z) : M unit := emit (IoWrite fd len).
Definition sceIoClose (fd : Z) : M unit := emit (IoClose fd).
Definition sceIoLseek_end (fd : Z) : M unit := emit (IoLseek fd).
Definition sceIoDclose (dir : Z) : M unit := emit (IoDclose dir).
Definition free : M unit := emit Free.

(** The thread is over when the wait returns. *)
Definition sceKernelWaitThreadEnd (th : Z) : M unit :=
  modify_world (fun w =>
    mkWorld (w_trace w ++ [KernelWaitThreadEnd th]) (w_socks w)
      (remove_Z th (w_threads w)) (w_new_fds w) (w_data_in w) (w_file_in w)
      (w_dirents w)).

Section Engine.

Variable P : Platform.

Definition sceNetGetsockname (fd : Z) : M Z :=
  let port := to_uint16 (sockname_port P fd) in
  emit (NetGetsockname fd port) ;; ret port.

Definition sceIoOpen (path : option string) (flags : Z) : M Z :=
  let r := io_open P path flags in
  emit (IoOpen path flags r) ;; ret r.

Definition sceIoDopen (path : option string) : M Z :=
  let r := io_dopen P path in
  emit (IoDopen path r) ;; ret r.

Definition sceIoRemove (path : option string) : M Z :=
  let r := io_remove P path in
  emit (IoRemove path r) ;; ret r.

Definition sceIoRmdir (path : option string) : M Z :=
  let r := io_rmdir P path in
  emit (IoRmdir path r) ;; ret r.

Definition sceIoMkdir (path : option string) : M Z :=
  let r := io_mkdir P path in
  emit (IoMkdir path r) ;; ret r.

Definition sceIoRename (src : string) (dst : option string) : M Z :=
  let r := io_rename P src dst in
  emit (IoRename src dst r) ;; ret r.

Definition sceIoGetstat (path : option string) : M (Z * SceIoStat) :=
  let r := io_getstat P path in
  emit (IoGetstat path (fst r)) ;; ret r.

Definition malloc (size : Z) : M bool :=
  let ok := malloc_ok P size in
  emit (Malloc size ok) ;; ret ok.

(** ** The engine *)

Definition client_send_ctrl_msg (str : string) : M unit :=
  c <- get_client ;; sceNetSend (ctrl_sockfd c) str.

Definition client_send_data_msg (str : string) : M unit :=
  c <- get_client ;;
  match data_con_type c with
  | FTP_DATA_CONNECTION_ACTIVE => sceNetSend (data_sockfd c) str
  | _ => sceNetSend (pasv_sockfd c) str
  end.

Definition client_recv_data_raw : M Z :=
  c <- get_client ;;
  match data_con_type c with
  | FTP_DATA_CONNECTION_ACTIVE => sceNetRecv (data_sockfd c)
  | _ => sceNetRecv (pasv_sockfd c)
  end.

Definition client_send_data_raw (len : Z) : M unit :=
  c <- get_client ;;
  match data_con_type c with
  | FTP_DATA_CONNECTION_ACTIVE => sceNetSendRaw (data_sockfd c) len
  | _ => sceNetSendRaw (pasv_sockfd c) len
  end.

Definition cmd_NOOP_func : M unit :=
  client_send_ctrl_msg ("200 No operation ;)" ++ nl).

Definition cmd_USER_func : M unit :=
  client_send_ctrl_msg ("331 Username OK, need password b0ss." ++ nl).

Definition cmd_PASS_func : M unit :=
  client_send_ctrl_msg ("230 User logged in!" ++ nl).

Definition cmd_QUIT_func : M unit :=
  client_send_ctrl_msg ("221 Goodbye senpai :'(" ++ nl).

Definition cmd_SYST_func : M unit :=
  client_send_ctrl_msg ("215 UNIX Type: L8" ++ nl).

Definition data_socket_name (c : ClientInfo) : string :=
  "FTPVita_client_" ++ fmt_d (num c) ++ "_data_socket".

(** The six [%hhu] fields of the 227 reply. *)
Definition pasv_fields (s_addr port : Z) : list Z :=
  [ to_uint8 (Z.land (Z.shiftr s_addr 0) 255);
    to_uint8 (Z.land (Z.shiftr s_addr 8) 255);
    to_uint8 (Z.land (Z.shiftr s_addr 16) 255);
    to_uint8 (Z.land (Z.shiftr s_addr 24) 255);
    to_uint8 (Z.land (Z.shiftr port 0) 255);
    to_uint8 (Z.land (Z.shiftr port 8) 255) ].

Definition pasv_reply (s_addr port : Z) : string :=
  "227 Entering Passive Mode ("
  ++ String.concat "," (map fmt_u (pasv_fields s_addr port)) ++ ")" ++ nl.

Definition cmd_PASV_func : M unit :=
  c <- get_client ;;
  fd <- sceNetSocket (data_socket_name c) ;;
  modify_client (set_data_sockfd fd) ;;
  let a := mkSockaddr (SCE_NET_AF_INET P)
             (sceNetHtons P 0) (sceNetHtonl P (SCE_NET_INADDR_ANY P)) in
  modify_client (set_data_sockaddr a) ;;
  sceNetBind fd a ;;
  sceNetListen fd 128 ;;
  port <- sceNetGetsockname fd ;;
  g <- get_globals ;;
  client_send_ctrl_msg (pasv_reply (vita_addr g) port) ;;
  modify_client (set_data_con_type FTP_DATA_CONNECTION_PASSIVE).

(** The locals that [sscanf] fills are not initialised: with fewer than six
    numbers on the line what [cmd_PORT_func] computes is not defined. *)
Definition cmd_PORT_func : M unit :=
  c <- get_client ;;
  match sscanf_word_six (recv_buffer c) with
  | Some [ip0; ip1; ip2; ip3; porthi; portlo] =>
      let data_port := to_uint16 (portlo + porthi * 256) in
      let ip_str :=
        String.concat "." (map (fun v => fmt_d (to_int32 v)) [ip0; ip1; ip2; ip3]) in
      let data_addr := inet_pton P ip_str in
      fd <- sceNetSocket (data_socket_name c) ;;
      modify_client (set_data_sockfd fd) ;;
      modify_client
        (set_data_sockaddr
           (mkSockaddr (SCE_NET_AF_INET P) (sceNetHtons P data_port) data_addr)) ;;
      modify_client (set_data_con_type FTP_DATA_CONNECTION_ACTIVE) ;;
      client_send_ctrl_msg ("200 PORT command successful!" ++ nl)
  | _ => undefined
  end.

Definition client_open_data_connection : M unit :=
  c <- get_client ;;
  match data_con_type c with
  | FTP_DATA_CONNECTION_ACTIVE =>
      sceNetConnect (data_sockfd c) (data_sockaddr c)
  | _ =>
      fd <- sceNetAccept (data_sockfd c) ;;
      modify_client (set_pasv_sockfd fd)
  end.

Definition client_close_data_connection : M unit :=
  c <- get_client ;;
  sceNetSocketClose (data_sockfd c) ;;
  match data_con_type c with
  | FTP_DATA_CONNECTION_PASSIVE => sceNetSocketClose (pasv_sockfd c)
  | _ => ret tt
  end ;;
  modify_client (set_data_con_type FTP_DATA_CONNECTION_NONE).

Definition num_to_month : list string :=
  ["Jan"; "Feb"; "Mar"; "Apr"; "May"; "Jun";
   "Jul"; "Aug"; "Sep"; "Oct"; "Nov"; "Dec"]%string.

Definition month_name (month_n : Z) : string :=
  let i := Z.rem (month_n - 1) 12 in
  if (0 <=? i) && (i <? 12)
  then nth (Z.to_nat i) num_to_month EmptyString
  else month_out_of_range P i.

(** [snprintf(out, n, ...)] keeps at most [n - 1] characters. *)
Definition gen_list_format (n : nat) (dir : bool) (file_size : Z)
  (month_n day_n hour minute : Z) (filename : string) : string :=
  substring 0 (n - 1)
    ((if dir then "d" else "-") ++ (if dir then "rwxr-xr-x" else "rw-r--r--")
     ++ " 1 vita vita " ++ fmt_d (to_int32 file_size) ++ " "
     ++ month_name month_n ++ " " ++ fmt_d_left 2 day_n ++ " "
     ++ fmt_d_zero 2 hour ++ ":" ++ fmt_d_zero 2 minute ++ " "
     ++ filename ++ cr ++ nl).

(** The loop over the mount table of [send_LIST]. *)
Fixpoint send_LIST_devices (dl : list Device) : M unit :=
  match dl with
  | [] => ret tt
  | d :: rest =>
      (if negb (valid d =? 0) then
         let devname := name d in
         r <- sceIoGetstat (Some devname) ;;
         let st := snd r in
         client_send_data_msg
           (gen_list_format 512 true (to_uint32 (st_size st))
              (dt_month (st_mtime st)) (dt_day (st_mtime st))
              (dt_hour (st_mtime st)) (dt_minute (st_mtime st)) devname)
       else ret tt) ;;
      send_LIST_devices rest
  end.

(** The [while (sceIoDread(dir, &dirent) > 0)] loop.  Every turn takes one
    entry of the script, so the length of the script is fuel enough. *)
Fixpoint send_LIST_entries (fuel : nat) (dir : Z) : M unit :=
  r <- sceIoDread dir ;;
  if 0 <? fst r then
    match fuel with
    | O => undefined
    | S k =>
        let st := d_stat (snd r) in
        client_send_data_msg
          (gen_list_format 512 (SCE_S_ISDIR P (st_mode st))
             (to_uint32 (st_size st))
             (dt_month (st_ctime st)) (dt_day (st_ctime st))
             (dt_hour (st_ctime st)) (dt_minute (st_ctime st))
             (d_name (snd r))) ;;
        send_LIST_entries k dir
    end
  else ret tt.

Definition send_LIST_transfer (devices : bool) (dir : Z) : M unit :=
  client_send_ctrl_msg ("150 Opening ASCII mode data transfer for LIST." ++ nl) ;;
  client_open_data_connection ;;
  (if devices then
     g <- get_globals ;;
     send_LIST_devices (firstn MAX_DEVICES (device_list g))
   else
     w <- get_world ;;
     send_LIST_entries (List.length (w_dirents w)) dir ;;
     sceIoDclose dir) ;;
  client_close_data_connection ;;
  client_send_ctrl_msg ("226 Transfer complete." ++ nl).

Definition send_LIST (path : string) : M unit :=
  if strcmp_eq path "/" then send_LIST_transfer true 0
  else
    dir <- sceIoDopen (get_vita_path path) ;;
    if dir <? 0 then client_send_ctrl_msg ("550 Invalid directory." ++ nl)
    else send_LIST_transfer false dir.

Definition cmd_LIST_func : M unit :=
  c <- get_client ;;
  match sscanf_word_line (recv_buffer c) with
  | Some list_path => send_LIST list_path
  | None => send_LIST (cur_path c)
  end.

Definition cmd_PWD_func : M unit :=
  c <- get_client ;;
  client_send_ctrl_msg
    ("257 " ++ dquote ++ cur_path c ++ dquote ++ " is the current directory." ++ nl).

Definition client_dir_up : M unit :=
  c <- get_client ;;
  match dir_up (cur_path c) with
  | Some p => modify_client (set_cur_path p)
  | None => undefined
  end.

(** The path a [CWD] with the argument [cmd_path] asks for: [tmp_path]
    once the slash after a bare [/foo:] has been added. *)
Definition cwd_tmp_path (cur cmd_path : string) : string :=
  let tmp_path :=
    match cmd_path with
    | String "/"%char _ => cmd_path
    | _ =>
        if path_is_at_root cur
        then (cur ++ cmd_path)%string
        else (cur ++ "/" ++ cmd_path)%string
    end in
  match strrchr tmp_path "/" with
  | Some O => strcat tmp_path "/"
  | _ => tmp_path
  end.

Definition cmd_CWD_func : M unit :=
  c <- get_client ;;
  match sscanf_word_line (recv_buffer c) with
  | None =>
      client_send_ctrl_msg ("500 Syntax error, command unrecognized." ++ nl)
  | Some cmd_path =>
      let done :=
        client_send_ctrl_msg ("250 Requested file action okay, completed." ++ nl) in
      if strcmp_eq cmd_path "/" then
        modify_client (set_cur_path cmd_path) ;; done
      else if strcmp_eq cmd_path ".." then
        client_dir_up ;; done
      else
        let tmp_path := cwd_tmp_path (cur_path c) cmd_path in
        if negb (strcmp_eq tmp_path "/") then
          pd <- sceIoDopen (get_vita_path tmp_path) ;;
          if pd <? 0 then client_send_ctrl_msg ("550 Invalid directory." ++ nl)
          else
            sceIoDclose pd ;;
            modify_client (set_cur_path tmp_path) ;; done
        else
          modify_client (set_cur_path tmp_path) ;; done
  end.

Definition cmd_TYPE_func : M unit :=
  c <- get_client ;;
  match sscanf_word_char (recv_buffer c) with
  | Some data_type =>
      if (Ascii.eqb data_type "A" || Ascii.eqb data_type "I")%bool
      then client_send_ctrl_msg ("200 Okay" ++ nl)
      else client_send_ctrl_msg ("504 Error: bad parameters?" ++ nl)
  | None => client_send_ctrl_msg ("504 Error: bad parameters?" ++ nl)
  end.

Definition cmd_CDUP_func : M unit :=
  client_dir_up ;;
  client_send_ctrl_msg ("200 Command okay." ++ nl).

(** The [while ((bytes_read = sceIoRead(...)) > 0)] loop; [bytes_read] is
    an [unsigned int]. *)
Fixpoint send_file_loop (fuel : nat) (fd : Z) : M unit :=
  r <- sceIoRead fd ;;
  let bytes_read := to_uint32 r in
  if 0 <? bytes_read then
    match fuel with
    | O => undefined
    | S k => client_send_data_raw bytes_read ;; send_file_loop k fd
    end
  else ret tt.

Definition send_file (path : option string) : M unit :=
  fd <- sceIoOpen path (SCE_O_RDONLY P) ;;
  if 0 <=? fd then
    ok <- malloc FILE_BUF_SIZE ;;
    if negb ok then
      client_send_ctrl_msg ("550 Could not allocate memory." ++ nl)
    else
      client_open_data_connection ;;
      client_send_ctrl_msg ("150 Opening Image mode data transfer." ++ nl) ;;
      w <- get_world ;;
      send_file_loop (List.length (w_file_in w)) fd ;;
      sceIoClose fd ;;
      free ;;
      client_send_ctrl_msg ("226 Transfer completed." ++ nl) ;;
      client_close_data_connection
  else client_send_ctrl_msg ("550 File not found." ++ nl).

(** The path [gen_filepath] writes to [dest_path] for the argument
    [cmd_path]. *)
Definition dest_path_of (cur cmd_path : string) : string :=
  match cmd_path with
  | String "/"%char _ => cmd_path
  | _ => (cur ++ "/" ++ cmd_path)%string
  end.

(** [cmd_path] is a local buffer that nothing initialises: when the
    conversion does not assign, what [gen_filepath] reads is not defined. *)
Definition gen_filepath : M string :=
  c <- get_client ;;
  match sscanf_nonblank_line (recv_buffer c) with
  | None => undefined
  | Some cmd_path => ret (dest_path_of (cur_path c) cmd_path)
  end.

Definition cmd_RETR_func : M unit :=
  dest_path <- gen_filepath ;;
  send_file (get_vita_path dest_path).

(** The [while ((bytes_recv = client_recv_data_raw(...)) > 0)] loop; the
    value it ends with is the last [bytes_recv]. *)
Fixpoint receive_loop (fuel : nat) (fd : Z) : M Z :=
  bytes_recv <- client_recv_data_raw ;;
  if 0 <? bytes_recv then
    match fuel with
    | O => undefined
    | S k => sceIoWrite fd bytes_recv ;; receive_loop k fd
    end
  else ret bytes_recv.

(** What [receive_file] and [append_file] share once the file is open. *)
Definition receive_into (path : option string) (fd : Z) : M unit :=
  ok <- malloc FILE_BUF_SIZE ;;
  if negb ok then
    client_send_ctrl_msg ("550 Could not allocate memory." ++ nl)
  else
    client_open_data_connection ;;
    client_send_ctrl_msg ("150 Opening Image mode data transfer." ++ nl) ;;
    w <- get_world ;;
    bytes_recv <- receive_loop (List.length (w_data_in w)) fd ;;
    sceIoClose fd ;;
    free ;;
    (if bytes_recv =? 0 then
       client_send_ctrl_msg ("226 Transfer completed." ++ nl)
     else
       sceIoRemove path ;;
       client_send_ctrl_msg ("426 Connection closed; transfer aborted." ++ nl)) ;;
    client_close_data_connection.

Definition receive_file (path : option string) : M unit :=
  fd <- sceIoOpen path
          (Z.lor (Z.lor (SCE_O_CREAT P) (SCE_O_WRONLY P)) (SCE_O_TRUNC P)) ;;
  if 0 <=? fd then receive_into path fd
  else client_send_ctrl_msg ("550 File not found." ++ nl).

Definition append_file (path : option string) : M unit :=
  fd <- sceIoOpen path (Z.lor (SCE_O_WRONLY P) (SCE_O_CREAT P)) ;;
  if 0 <=? fd then
    sceIoLseek_end fd ;;
    receive_into path fd
  else client_send_ctrl_msg ("550 File not found." ++ nl).

Definition cmd_STOR_func : M unit :=
  dest_path <- gen_filepath ;;
  receive_file (get_vita_path dest_path).

Definition cmd_APPE_func : M unit :=
  dest_path <- gen_filepath ;;
  append_file (get_vita_path dest_path).

Definition delete_file (path : option string) : M unit :=
  r <- sceIoRemove path ;;
  if 0 <=? r then client_send_ctrl_msg ("226 File deleted." ++ nl)
  else client_send_ctrl_msg ("550 Could not delete the file." ++ nl).

Definition cmd_DELE_func : M unit :=
  dest_path <- gen_filepath ;;
  delete_file (get_vita_path dest_path).

(** [ret == 0x8001005A] compares the [int] as an [unsigned int]. *)
Definition delete_dir (path : option string) : M unit :=
  r <- sceIoRmdir path ;;
  if 0 <=? r then client_send_ctrl_msg ("226 Directory deleted." ++ nl)
  else if to_uint32 r =? 0x8001005A
  then client_send_ctrl_msg ("550 Directory is not empty." ++ nl)
  else client_send_ctrl_msg ("550 Could not delete the directory." ++ nl).

Definition cmd_RMD_func : M unit :=
  dest_path <- gen_filepath ;;
  delete_dir (get_vita_path dest_path).

Definition create_dir (path : option string) : M unit :=
  r <- sceIoMkdir path ;;
  if 0 <=? r then client_send_ctrl_msg ("226 Directory created." ++ nl)
  else client_send_ctrl_msg ("550 Could not create the directory." ++ nl).

Definition cmd_MKD_func : M unit :=
  dest_path <- gen_filepath ;;
  create_dir (get_vita_path dest_path).

Definition file_exists (path : option string) : M bool :=
  r <- sceIoGetstat path ;;
  ret (0 <=? fst r).

(** [strcpy(client->rename_path, NULL)] is not defined. *)
Definition cmd_RNFR_func : M unit :=
  path_src <- gen_filepath ;;
  let vita_path_src := get_vita_path path_src in
  ex <- file_exists vita_path_src ;;
  if negb ex then client_send_ctrl_msg ("550 The file doesn't exist." ++ nl)
  else
    match vita_path_src with
    | None => undefined
    | Some p =>
        modify_client (set_rename_path p) ;;
        client_send_ctrl_msg ("250 I need the destination name b0ss." ++ nl)
    end.

Definition cmd_RNTO_func : M unit :=
  path_dst <- gen_filepath ;;
  let vita_path_dst := get_vita_path path_dst in
  c <- get_client ;;
  r <- sceIoRename (rename_path c) vita_path_dst ;;
  (if r <? 0 then client_send_ctrl_msg ("550 Error renaming the file." ++ nl)
   else ret tt) ;;
  client_send_ctrl_msg ("226 Rename completed." ++ nl).

Definition cmd_SIZE_func : M unit :=
  path <- gen_filepath ;;
  r <- sceIoGetstat (get_vita_path path) ;;
  if fst r <? 0 then client_send_ctrl_msg ("550 The file doesn't exist." ++ nl)
  else client_send_ctrl_msg ("213: " ++ fmt_d (st_size (snd r)) ++ nl).

(** ** The registry and the shutdown *)

Definition data_abort_flags : Z :=
  Z.lor (SCE_NET_SOCKET_ABORT_FLAG_RCV_PRESERVATION P)
        (SCE_NET_SOCKET_ABORT_FLAG_SND_PRESERVATION P).

(** One turn of the loop of [client_list_thread_end], on the session [it]. *)
Definition client_abort_and_wait (it : ClientInfo) : M unit :=
  sceNetSocketAbort (ctrl_sockfd it)
    (SCE_NET_SOCKET_ABORT_FLAG_RCV_PRESERVATION P) ;;
  match data_con_type it with
  | FTP_DATA_CONNECTION_NONE => ret tt
  | FTP_DATA_CONNECTION_ACTIVE =>
      sceNetSocketAbort (data_sockfd it) data_abort_flags
  | FTP_DATA_CONNECTION_PASSIVE =>
      sceNetSocketAbort (data_sockfd it) data_abort_flags ;;
      sceNetSocketAbort (pasv_sockfd it) data_abort_flags
  end ;;
  sceKernelWaitThreadEnd (thid it).

(** The walk along the [next] pointers; the registry is the list of the
    sessions in that order. *)
Fixpoint client_list_walk (l : list ClientInfo) : M unit :=
  match l with
  | [] => ret tt
  | it :: next => client_abort_and_wait it ;; client_list_walk next
  end.

Definition client_list_thread_end : M unit :=
  emit KernelLockMutex ;;
  g <- get_globals ;;
  client_list_walk (client_list g) ;;
  emit KernelUnlockMutex.

Definition ftpvita_fini : M unit :=
  g <- get_globals ;;
  if negb (ftp_initialized g =? 0) then
    sceNetSocketClose (server_sockfd g) ;;
    sceKernelWaitThreadEnd (server_thid g) ;;
    client_list_thread_end ;;
    emit KernelDeleteMutex ;;
    modify_globals (fun g =>
      mkGlobals (ftp_initialized g) (vita_addr g) (server_thid g)
        (server_sockfd g) 0 [] (device_list g) (netctl_init g) (net_init g)
        (net_memory g)) ;;
    (if netctl_init g =? 0 then emit NetCtlTerm else ret tt) ;;
    (if net_init g =? 0 then emit NetTerm else ret tt) ;;
    (if net_memory g then free else ret tt) ;;
    modify_globals (fun g =>
      mkGlobals 0 (vita_addr g) (server_thid g) (server_sockfd g)
        (number_clients g) (client_list g) (device_list g) (-1) (-1) false)
  else ret tt.

(** ** Dispatch *)

Definition cmd_dispatch_table : list (string * M unit) :=
  [ ("NOOP", cmd_NOOP_func); ("USER", cmd_USER_func); ("PASS", cmd_PASS_func);
    ("QUIT", cmd_QUIT_func); ("SYST", cmd_SYST_func); ("PASV", cmd_PASV_func);
    ("PORT", cmd_PORT_func); ("LIST", cmd_LIST_func); ("PWD", cmd_PWD_func);
    ("CWD", cmd_CWD_func); ("TYPE", cmd_TYPE_func); ("CDUP", cmd_CDUP_func);
    ("RETR", cmd_RETR_func); ("STOR", cmd_STOR_func); ("APPE", cmd_APPE_func);
    ("DELE", cmd_DELE_func); ("RMD", cmd_RMD_func); ("MKD", cmd_MKD_func);
    ("RNFR", cmd_RNFR_func); ("RNTO", cmd_RNTO_func); ("SIZE", cmd_SIZE_func) ]%string.

Fixpoint lookup_cmd (cmd : string) (t : list (string * M unit))
  : option (M unit) :=
  match t with
  | [] => None
  | (c, f) :: r => if strcmp_eq cmd c then Some f else lookup_cmd cmd r
  end.

Definition get_dispatch_func (cmd : string) : option (M unit) :=
  lookup_cmd cmd cmd_dispatch_table.

(** [sscanf(buf, "%s", cmd)]: the first word of the line. *)
Definition sscanf_word (buf : string) : option string :=
  let (w, _) := span (fun c => negb (isspace c)) (skip_space buf) in
  if is_empty w then None else Some w.

(** One turn of the loop of [client_thread] that received the bytes [line]
    ([n_recv > 0]).  [cmd] is a local of the thread that the first turn
    finds uninitialised and a later turn finds as the turn before left it:
    the model leaves the dispatch of a line of white space only
    undefined. *)
Definition client_command (line : string) : M unit :=
  modify_client (set_recv_buffer line) ;;
  match sscanf_word line with
  | None => undefined
  | Some cmd =>
      match get_dispatch_func cmd with
      | Some dispatch_func => dispatch_func
      | None =>
          client_send_ctrl_msg ("502 Sorry, command not implemented. :(" ++ nl)
      end
  end.

(** The turns for the lines of a session, one after the other. *)
Fixpoint client_commands (lines : list string) : M unit :=
  match lines with
  | [] => ret tt
  | l :: r => client_command l ;; client_commands r
  end.

End Engine.

(** ** Reading a trace *)

(** The events of [s'] that [s] did not have yet. *)
Definition new_events (s s' : State) : list Event :=
  skipn (List.length (w_trace (world s))) (w_trace (world s')).

(** The reply lines among the events: what was sent on the socket [fd]. *)
Fixpoint sent_on (fd : Z) (tr : list Event) : list string :=
  match tr with
  | [] => []
  | NetSend fd' msg :: r =>
      if fd' =? fd then msg :: sent_on fd r else sent_on fd r
  | _ :: r => sent_on fd r
  end.

(** The steps of a data transfer, in the order a transfer is expected to
    take them. *)
Inductive Step :=
| Validate
| Reply150
| OpenData
| Stream
| CloseFile
| CloseData
| FinalStatus.

Definition step_rank (st : Step) : nat :=
  match st with
  | Validate => 0
  | Reply150 => 1
  | OpenData => 2
  | Stream => 3
  | CloseFile => 4
  | CloseData => 5
  | FinalStatus => 6
  end.

(** The step an event belongs to.  A line sent is told by its reply code;
    allocation, seek and the removal of a partial file belong to none. *)
Definition step_of (e : Event) : option Step :=
  match e with
  | IoOpen _ _ _ | IoDopen _ _ => Some Validate
  | NetSend _ msg =>
      if prefix "150 " msg then Some Reply150
      else if (prefix "226 " msg || prefix "426 " msg || prefix "550 " msg)%bool
      then Some FinalStatus
      else Some Stream
  | NetConnect _ _ | NetAccept _ _ => Some OpenData
  | NetSendRaw _ _ | NetRecv _ _ | IoRead _ _ | IoWrite _ _
  | IoDread _ _ | IoGetstat _ _ => Some Stream
  | IoClose _ | IoDclose _ => Some CloseFile
  | NetSocketClose _ => Some CloseData
  | _ => None
  end.

Fixpoint steps (tr : list Event) : list Step :=
  match tr with
  | [] => []
  | e :: r =>
      match step_of e with
      | Some st => st :: steps r
      | None => steps r
      end
  end.

(** No step comes before a step of lower rank. *)
Fixpoint in_step_order (l : list Step) : bool :=
  match l with
  | [] => true
  | a :: r =>
      match r with
      | [] => true
      | b :: _ => (Nat.leb (step_rank a) (step_rank b) && in_step_order r)%bool
      end
  end.

(** The closes of [client_close_data_connection] for a connection type. *)
Definition close_steps (t : DataConnectionType) : list Step :=
  match t with
  | FTP_DATA_CONNECTION_PASSIVE => [CloseData; CloseData]
  | _ => [CloseData]
  end.

(** The value the receive loop ends with on a script: its first entry that
    is not positive, end of stream after the last one. *)
Fixpoint recv_end (script : list Z) : Z :=
  match script with
  | [] => 0
  | r :: rest => if 0 <? r then recv_end rest else r
  end.

Definition is_remove (e : Event) : bool :=
  match e with IoRemove _ _ => true | _ => false end.

Definition is_socket_close (e : Event) : bool :=
  match e with NetSocketClose _ => true | _ => false end.

Definition is_probe (e : Event) : bool :=
  match e with IoDopen _ _ => true | _ => false end.

(** What [client_list_thread_end] does to one registered session. *)
Definition session_shutdown (P : Platform) (c : ClientInfo) : list Event :=
  [NetSocketAbort (ctrl_sockfd c) (SCE_NET_SOCKET_ABORT_FLAG_RCV_PRESERVATION P)]
  ++ match data_con_type c with
     | FTP_DATA_CONNECTION_NONE => []
     | FTP_DATA_CONNECTION_ACTIVE =>
         [NetSocketAbort (data_sockfd c) (data_abort_flags P)]
     | FTP_DATA_CONNECTION_PASSIVE =>
         [NetSocketAbort (data_sockfd c) (data_abort_flags P);
          NetSocketAbort (pasv_sockfd c) (data_abort_flags P)]
     end
  ++ [KernelWaitThreadEnd (thid c)].

(** A [CWD] line for the directory [d], and the lines that go up. *)
Definition CWD_line (d : string) : string := ("CWD " ++ d ++ cr ++ nl)%string.
Definition CDUP_line : string := ("CDUP" ++ cr ++ nl)%string.
Definition is_up_line (l : string) : bool :=
  (String.eqb l CDUP_line || String.eqb l (CWD_line ".."))%bool.

Fixpoint string_forallb (p : ascii -> bool) (s : string) : bool :=
  match s with
  | EmptyString => true
  | String c r => (p c && string_forallb p r)%bool
  end.

(** A directory name of one component: not empty, no slash, not [..],
    and made of characters a command line gives back as they are. *)
Definition simple_name (d : string) : bool :=
  (negb (is_empty d)
   && string_forallb (fun c => in_line_set c && negb (Ascii.eqb c "/")) d
   && match d with String c _ => negb (isspace c) | EmptyString => false end
   && negb (String.eqb d ".."))%bool.

(** The directories a chain of descents visits from [cur]. *)
Fixpoint cwd_chain (cur : string) (names : list string) : list string :=
  match names with
  | [] => []
  | d :: r => let t := cwd_tmp_path cur d in t :: cwd_chain t r
  end.

(** ** A platform and a session for the examples *)

Definition stat0 : SceIoStat :=
  mkStat 0x1000 4096 (mkDateTime 3 14 15 9) (mkDateTime 3 14 15 9).

(** Every path names something; a null path is an error. *)
Definition vita : Platform :=
  mkPlatform 1 2 0x200 0x400 2 0 1 2
    (fun m => Z.land m 0xF000 =? 0x1000)
    (fun x => x) (fun x => x)
    (fun p _ => match p with Some _ => 3 | None => -1 end)
    (fun p => match p with Some _ => 4 | None => -1 end)
    (fun p => match p with Some _ => 0 | None => -1 end)
    (fun p => match p with Some _ => 0 | None => -1 end)
    (fun p => match p with Some _ => 0 | None => -1 end)
    (fun _ d => match d with Some _ => 0 | None => -1 end)
    (fun p => match p with Some _ => (0, stat0) | None => (-1, stat0) end)
    (fun _ => true)
    (fun _ => 0x3905)
    (fun _ => 0x0100007F)
    (fun _ => "???"%string).

(** The same storage, where no rename succeeds. *)
Definition vita_no_rename : Platform :=
  mkPlatform 1 2 0x200 0x400 2 0 1 2
    (SCE_S_ISDIR vita) (sceNetHtons vita) (sceNetHtonl vita) (io_open vita)
    (io_dopen vita) (io_remove vita) (io_rmdir vita) (io_mkdir vita)
    (fun _ _ => -1) (io_getstat vita) (malloc_ok vita) (sockname_port vita)
    (inet_pton vita) (month_out_of_range vita).

Definition client0 : ClientInfo :=
  mkClient 0 100 5 (-1) FTP_DATA_CONNECTION_NONE (mkSockaddr 0 0 0) (-1)
    EmptyString "/" EmptyString.

Definition client1 : ClientInfo :=
  mkClient 1 101 6 9 FTP_DATA_CONNECTION_PASSIVE (mkSockaddr 2 0 0) 10
    EmptyString "/ux0:/" EmptyString.

Definition globals0 : Globals :=
  mkGlobals 1 0x0501A8C0 50 4 2 [client1; client0] device_list_init 0 0 true.

Definition world0 : World :=
  mkWorld [] [4; 5; 6; 9; 10] [50; 100; 101] [7; 8] [] [] [].

Definition state0 : State := mkState client0 globals0 world0.

Definition with_line (line : string) (s : State) : State :=
  mkState (set_recv_buffer line (client s)) (globals s) (world s).

Definition with_cur_path (p : string) (s : State) : State :=
  mkState (set_cur_path p (client s)) (globals s) (world s).

Definition with_data_in (script : list Z) (s : State) : State :=
  mkState (client s) (globals s)
    (mkWorld (w_trace (world s)) (w_socks (world s)) (w_threads (world s))
       (w_new_fds (world s)) script (w_file_in (world s))
       (w_dirents (world s))).

Definition state_after (m : M unit) (s : State) : State :=
  match m s with
  | Some (_, s') => s'
  | None => s
  end.

(** The session of [state0] once it has asked for a passive channel. *)
Definition state_pasv : State :=
  state_after (client_command vita ("PASV" ++ cr ++ nl)) state0.

(** The session of [state0] two levels down a mount, asked to go up. *)
Definition state_cwd_up : State :=
  with_line (CWD_line "..") (with_cur_path "/ux0:/a/b" state0).

(** A PASV on a session that holds a pending passive channel leaves the
    listening socket of that channel closed. *)
Definition pasv_releases_previous (P : Platform) (s : State) : Prop :=
  forall s',
    cmd_PASV_func P s = Some (tt, s') ->
    data_con_type (client s) = FTP_DATA_CONNECTION_PASSIVE ->
    data_sockfd (client s') <> data_sockfd (client s) ->
    ~ In (data_sockfd (client s)) (w_socks (world s')).

(** A CWD that moves the session to a path that is neither [/] nor the
    root of a mount has probed a directory. *)
Definition cwd_probes_before_commit (P : Platform) (s : State) : Prop :=
  forall s',
    cmd_CWD_func P s = Some (tt, s') ->
    cur_path (client s') <> cur_path (client s) ->
    cur_path (client s') <> "/"%string ->
    path_is_at_root (cur_path (client s')) = false ->
    existsb is_probe (new_events s s') = true.

(** The working directories [n] descents of one component below [/]. *)
Inductive at_level : nat -> string -> Prop :=
| at_level_root : at_level 0 "/"
| at_level_mount m :
    simple_name m = true -> at_level 1 ("/" ++ m ++ "/")
| at_level_first m d :
    simple_name m = true -> simple_name d = true ->
    at_level 2 ("/" ++ m ++ "/" ++ d)
| at_level_deeper n p d :
    at_level (2 + n) p -> simple_name d = true ->
    at_level (3 + n) (p ++ "/" ++ d).

Definition no_slash (d : string) : Prop := strrchr d "/" = None.

(** The socket the data of a transfer goes through. *)
Definition data_fd (c : ClientInfo) : Z :=
  match data_con_type c with
  | FTP_DATA_CONNECTION_ACTIVE => data_sockfd c
  | _ => pasv_sockfd c
  end.

Definition with_file_in (script : list Z) (s : State) : State :=
  mkState (client s) (globals s)
    (mkWorld (w_trace (world s)) (w_socks (world s)) (w_threads (world s))
       (w_new_fds (world s)) (w_data_in (world s)) script
       (w_dirents (world s))).

(** The passive session of [state_pasv], asked for a file of one block. *)
Definition state_retr : State :=
  with_line ("RETR /ux0:/a.bin" ++ cr ++ nl) (with_file_in [4096] state_pasv).

(** The session of [state0], sent two blocks and then cut off. *)
Definition state_stor_abort : State := with_data_in [5; 3; -1] state0.

(** The session of [state0], asked to delete the bare root. *)
Definition state_dele_root : State :=
  with_line ("DELE /" ++ cr ++ nl) state0.

Definition is_storage_call (e : Event) : bool :=
  match e with
  | IoOpen _ _ _ | IoRemove _ _ | IoRmdir _ _ | IoMkdir _ _
  | IoRename _ _ _ | IoGetstat _ _ | IoDopen _ _ => true
  | _ => false
  end.

(** A DELE whose resolved path is the bare root calls no storage
    operation. *)
Definition bare_root_kept_from_storage (P : Platform) (s : State) : Prop :=
  forall dest s',
    gen_filepath s = Some (dest, s) ->
    (strlen dest <= 1)%nat ->
    cmd_DELE_func P s = Some (tt, s') ->
    existsb is_storage_call (new_events s s') = false.

(** ** Measures used by the properties of the mount table *)

Definition is_valid (d : Device) : bool := negb (valid d =? 0).

Definition count_valid (dl : list Device) : nat :=
  List.length (filter is_valid dl).

(** The line [send_LIST] sends for the mount [d]. *)
Definition device_line (P : Platform) (d : Device) : string :=
  let st := snd (io_getstat P (Some (name d))) in
  gen_list_format P 512 true (to_uint32 (st_size st))
    (dt_month (st_mtime st)) (dt_day (st_mtime st))
    (dt_hour (st_mtime st)) (dt_minute (st_mtime st)) (name d).

(** The texts sent, on whatever socket, in the order they were sent. *)
Fixpoint sent_lines (tr : list Event) : list string :=
  match tr with
  | [] => []
  | NetSend _ msg :: r => msg :: sent_lines r
  | _ :: r => sent_lines r
  end.

(** ** Notions used by the properties of navigation and dispatch *)

(** The shape the current path keeps: [/] itself, or a path that starts
    with a slash and has another slash further on. *)
Definition nav_ok (p : string) : bool :=
  match p with
  | String "/"%char EmptyString => true
  | String "/"%char _ =>
      match strrchr p "/" with
      | Some (S _) => true
      | _ => false
      end
  | _ => false
  end.


(** The reply of the verbs that answer with a fixed line. *)
Definition fixed_reply (verb : string) : option string :=
  if String.eqb verb "NOOP" then Some ("200 No operation ;)" ++ nl)%string
  else if String.eqb verb "USER"
  then Some ("331 Username OK, need password b0ss." ++ nl)%string
  else if String.eqb verb "PASS" then Some ("230 User logged in!" ++ nl)%string
  else if String.eqb verb "QUIT" then Some ("221 Goodbye senpai :'(" ++ nl)%string
  else if String.eqb verb "SYST" then Some ("215 UNIX Type: L8" ++ nl)%string
  else None.

(** The state after a turn that received [line] and did nothing but send
    [msg] on the control socket. *)
Definition replied (line msg : string) (s : State) : State :=
  mkState (set_recv_buffer line (client s)) (globals s)
    (log (NetSend (ctrl_sockfd (client s)) msg) (world s)).

(** ** Notions used by the properties of the transfers *)

(** The state with more calls in the trace and nothing else changed. *)
Definition logged (evs : list Event) (s : State) : State :=
  mkState (client s) (globals s)
    (mkWorld (w_trace (world s) ++ evs) (w_socks (world s))
       (w_threads (world s)) (w_new_fds (world s)) (w_data_in (world s))
       (w_file_in (world s)) (w_dirents (world s))).

(** The results a loop [while (f() > 0)] takes from a script before it
    stops, and the script it leaves; [pos] tells a result that keeps the
    loop going. *)
Fixpoint loop_taken (pos : Z -> bool) (script : list Z) : list Z :=
  match script with
  | [] => []
  | r :: rest => if pos r then r :: loop_taken pos rest else []
  end.

Fixpoint loop_left (pos : Z -> bool) (script : list Z) : list Z :=
  match script with
  | [] => []
  | r :: rest => if pos r then loop_left pos rest else rest
  end.

(** The result the loop stops on: the first that does not keep it going,
    0 at the end of the script. *)
Fixpoint loop_last (pos : Z -> bool) (script : list Z) : Z :=
  match script with
  | [] => 0
  | r :: rest => if pos r then loop_last pos rest else r
  end.

Definition recv_positive (r : Z) : bool := 0 <? r.
Definition read_positive (r : Z) : bool := 0 <? to_uint32 r.

(** The calls of the loop of [send_file] on a script of reads. *)
Definition read_events (fd dfd : Z) (script : list Z) : list Event :=
  flat_map (fun r => [IoRead fd r; NetSendRaw dfd (to_uint32 r)])
    (loop_taken read_positive script)
  ++ [IoRead fd (loop_last read_positive script)].

(** The calls of the loop of [receive_file] on a script of receives. *)
Definition recv_events (fd dfd : Z) (script : list Z) : list Event :=
  flat_map (fun r => [NetRecv dfd r; IoWrite fd r])
    (loop_taken recv_positive script)
  ++ [NetRecv dfd (loop_last recv_positive script)].

Definition after_read_loop (fd : Z) (s : State) : State :=
  mkState (client s) (globals s)
    (mkWorld
       (w_trace (world s)
        ++ read_events fd (data_fd (client s)) (w_file_in (world s)))
       (w_socks (world s)) (w_threads (world s)) (w_new_fds (world s))
       (w_data_in (world s)) (loop_left read_positive (w_file_in (world s)))
       (w_dirents (world s))).

Definition after_recv_loop (fd : Z) (s : State) : State :=
  mkState (client s) (globals s)
    (mkWorld
       (w_trace (world s)
        ++ recv_events fd (data_fd (client s)) (w_data_in (world s)))
       (w_socks (world s)) (w_threads (world s)) (w_new_fds (world s))
       (loop_left recv_positive (w_data_in (world s))) (w_file_in (world s))
       (w_dirents (world s))).

(** The lengths written to a file, and the lengths sent as raw data. *)
Fixpoint written (tr : list Event) : list Z :=
  match tr with
  | [] => []
  | IoWrite _ len :: r => len :: written r
  | _ :: r => written r
  end.

Fixpoint sent_raw (tr : list Event) : list Z :=
  match tr with
  | [] => []
  | NetSendRaw _ len :: r => len :: sent_raw r
  | _ :: r => sent_raw r
  end.

(** The state a retrieval of an open file with a buffer ends in. *)
Definition after_send_file (P : Platform) (path : option string) (s : State)
  : State :=
  let fd := io_open P path (SCE_O_RDONLY P) in
  let s1 := logged [IoOpen path (SCE_O_RDONLY P) fd; Malloc FILE_BUF_SIZE true] s in
  let s2 := state_after client_open_data_connection s1 in
  let s3 := logged [NetSend (ctrl_sockfd (client s2))
                      ("150 Opening Image mode data transfer." ++ nl)] s2 in
  let s4 := after_read_loop fd s3 in
  let s5 := logged [IoClose fd; Free;
                    NetSend (ctrl_sockfd (client s4))
                      ("226 Transfer completed." ++ nl)] s4 in
  state_after client_close_data_connection s5.

(** The state a store into the open file [fd] with a buffer ends in. *)
Definition after_receive_into (P : Platform) (path : option string) (fd : Z)
  (s : State) : State :=
  let s1 := logged [Malloc FILE_BUF_SIZE true] s in
  let s2 := state_after client_open_data_connection s1 in
  let s3 := logged [NetSend (ctrl_sockfd (client s2))
                      ("150 Opening Image mode data transfer." ++ nl)] s2 in
  let s4 := after_recv_loop fd s3 in
  let ending :=
    if loop_last recv_positive (w_data_in (world s3)) =? 0
    then [NetSend (ctrl_sockfd (client s4)) ("226 Transfer completed." ++ nl)]
    else [IoRemove path (io_remove P path);
          NetSend (ctrl_sockfd (client s4))
            ("426 Connection closed; transfer aborted." ++ nl)] in
  let s5 := logged ([IoClose fd; Free] ++ ending) s4 in
  state_after client_close_data_connection s5.

(** The example platform with no memory left for a transfer buffer. *)
Definition vita_no_memory : Platform :=
  mkPlatform 1 2 0x200 0x400 2 0 1 2
    (SCE_S_ISDIR vita) (sceNetHtons vita) (sceNetHtonl vita) (io_open vita)
    (io_dopen vita) (io_remove vita) (io_rmdir vita) (io_mkdir vita)
    (io_rename vita) (io_getstat vita) (fun _ => false) (sockname_port vita)
    (inet_pton vita) (month_out_of_range vita).

(** The socket the data of the next transfer of [s] goes through: the
    data socket of an active channel, else the socket the accept returns. *)
Definition transfer_fd (s : State) : Z :=
  data_fd (client (state_after client_open_data_connection s)).

Definition is_data_open (e : Event) : bool :=
  match e with
  | NetConnect _ _ | NetAccept _ _ => true
  | _ => false
  end.

(** ** Start-up *)

Definition NET_CTL_ERROR_NOT_TERMINATED : Z := 0x80412102.
Definition NET_INIT_SIZE : Z := 1 * 1024 * 1024.

(** One call of [ftpvita_init] into the platform, with the arguments it
    passed and, where it reads it, the result. *)
Inductive InitCall :=
| CallNetShowNetstat (ret : Z)
| CallMalloc (size : Z) (ok : bool)
| CallNetInit (memory : bool) (size : Z) (ret : Z)
| CallNetCtlInit (ret : Z)
| CallNetCtlInetGetInfo (ret : Z)
| CallNetInetPton (ip : string)
| CallKernelCreateThread (thname : string) (ret : Z)
| CallKernelCreateMutex (mtxname : string)
| CallKernelStartThread (th : Z)
| CallNetCtlTerm
| CallNetTerm
| CallFree.

(** What the platform answers to the calls of [ftpvita_init], and the error
    code of the SDK that the source compares with. *)
Record InitAnswers := mkInitAnswers {
  SCE_NET_ERROR_ENOTINIT : Z;
  net_show_netstat : Z;
  net_malloc : bool;          (* [malloc(NET_INIT_SIZE)] is not NULL *)
  net_init_ret : Z;
  netctl_init_ret : Z;
  netctl_getinfo_ret : Z;
  info_ip_address : string;
  create_thread_ret : Z
}.

(** What a call of [ftpvita_init] leaves: the value returned, what was
    written through [vita_ip] and [vita_port] (nothing, or both), the
    globals and the calls made. *)
Record InitResult := mkInitResult {
  init_ret : Z;
  init_out : option (string * Z);
  init_globals : Globals;
  init_calls : list InitCall
}.

Definition set_netctl_init (v : Z) (g : Globals) : Globals :=
  mkGlobals (ftp_initialized g) (vita_addr g) (server_thid g)
    (server_sockfd g) (number_clients g) (client_list g) (device_list g)
    v (net_init g) (net_memory g).

Definition set_net_init (v : Z) (g : Globals) : Globals :=
  mkGlobals (ftp_initialized g) (vita_addr g) (server_thid g)
    (server_sockfd g) (number_clients g) (client_list g) (device_list g)
    (netctl_init g) v (net_memory g).

Definition set_net_memory (v : bool) (g : Globals) : Globals :=
  mkGlobals (ftp_initialized g) (vita_addr g) (server_thid g)
    (server_sockfd g) (number_clients g) (client_list g) (device_list g)
    (netctl_init g) (net_init g) v.

(** The labels at the end of [ftpvita_init]; each falls through to the
    next. *)
Definition error_netstat (ret : Z) (g : Globals) (calls : list InitCall)
  : InitResult :=
  mkInitResult ret None g calls.

Definition error_netinit (ret : Z) (g : Globals) (calls : list InitCall)
  : InitResult :=
  if net_memory g
  then error_netstat ret (set_net_memory false g) (calls ++ [CallFree])
  else error_netstat ret g calls.

Definition error_netctlinit (ret : Z) (g : Globals) (calls : list InitCall)
  : InitResult :=
  if net_init g =? 0
  then error_netinit ret (set_net_init (-1) g) (calls ++ [CallNetTerm])
  else error_netinit ret g calls.

Definition error_netctlgetinfo (ret : Z) (g : Globals) (calls : list InitCall)
  : InitResult :=
  if netctl_init g =? 0
  then error_netctlinit ret (set_netctl_init (-1) g) (calls ++ [CallNetCtlTerm])
  else error_netctlinit ret g calls.

(** [for (i = 0; i < MAX_DEVICES; i++) device_list[i].valid = 0], with [n]
    slots to go. *)
Fixpoint clear_devices_from (n i : nat) (dl : list Device) : list Device :=
  match n with
  | O => dl
  | S n' =>
      match nth_error dl i with
      | Some d => clear_devices_from n' (S i) (array_set i (mkDevice (name d) 0) dl)
      | None => dl
      end
  end.

(** [ftpvita_init] from [sceNetCtlInit] on. *)
Definition init_netctl (P : Platform) (A : InitAnswers) (g : Globals)
  (calls : list InitCall) : InitResult :=
  let r := netctl_init_ret A in
  let g1 := set_netctl_init r g in
  let c1 := calls ++ [CallNetCtlInit r] in
  if ((r <? 0) && negb (to_uint32 r =? NET_CTL_ERROR_NOT_TERMINATED))%bool
  then error_netctlinit r g1 c1
  else
    let r2 := netctl_getinfo_ret A in
    let c2 := c1 ++ [CallNetCtlInetGetInfo r2] in
    if r2 <? 0 then error_netctlgetinfo r2 g1 c2
    else
      let th := create_thread_ret A in
      mkInitResult 0 (Some (info_ip_address A, FTP_PORT))
        (mkGlobals 1 (inet_pton P (info_ip_address A)) th (server_sockfd g1)
           (number_clients g1) (client_list g1)
           (clear_devices_from MAX_DEVICES 0 (device_list g1))
           (netctl_init g1) (net_init g1) (net_memory g1))
        (c2 ++ [CallNetInetPton (info_ip_address A);
                CallKernelCreateThread "FTPVita_server_thread" th;
                CallKernelCreateMutex "FTPVita_client_list_mutex";
                CallKernelStartThread th]).

(** The comparison with the error code of the SDK is on 32 bits, whichever
    of [int] and [unsigned int] the SDK gives the constant. *)
Definition ftpvita_init (P : Platform) (A : InitAnswers) (g : Globals)
  : InitResult :=
  if negb (ftp_initialized g =? 0) then mkInitResult (-1) None g []
  else
    let ret := net_show_netstat A in
    let c0 := [CallNetShowNetstat ret] in
    if ret =? 0 then init_netctl P A (set_net_init (-1) g) c0
    else if to_uint32 ret =? to_uint32 (SCE_NET_ERROR_ENOTINIT A) then
      let g1 := set_net_memory (net_malloc A) g in
      let r := net_init_ret A in
      let g2 := set_net_init r g1 in
      let c1 := c0 ++ [CallMalloc NET_INIT_SIZE (net_malloc A);
                       CallNetInit (net_malloc A) NET_INIT_SIZE r] in
      if r <? 0 then error_netinit r g2 c1
      else init_netctl P A g2 c1
    else error_netstat ret g c0.

Definition ftpvita_is_initialized (g : Globals) : Z := ftp_initialized g.

(** Nothing is held that a shutdown or a failed start-up would have to
    release. *)
Definition idle (g : Globals) : Prop :=
  ftp_initialized g = 0 /\ net_memory g = false
  /\ net_init g <> 0 /\ netctl_init g <> 0.

(** The globals as the static initialisers of the source give them, with
    the mount table [dl]. *)
Definition globals_static (dl : list Device) : Globals :=
  mkGlobals 0 0 0 0 0 [] dl (-1) (-1) false.

(** A network that is not initialised yet and then answers without error;
    the address is 192.168.1.5. *)
Definition answers_ok : InitAnswers :=
  mkInitAnswers 0x804101C8 (-2143223352) true 0 0 0 "192.168.1.5" 50.

(** The same network, where the address cannot be read. *)
Definition answers_no_address : InitAnswers :=
  mkInitAnswers 0x804101C8 (-2143223352) true 0 0 (-1) "" 50.

(** The releases a start-up owes for what it acquired, in the order of the
    acquisitions; the releases among the events of a shutdown; the releases
    among the calls of a start-up. *)
Definition acquired (calls : list InitCall) : list InitCall :=
  flat_map (fun c => match c with
                     | CallMalloc _ ok => if ok then [CallFree] else []
                     | CallNetInit _ _ r => if r =? 0 then [CallNetTerm] else []
                     | CallNetCtlInit r => if r =? 0 then [CallNetCtlTerm] else []
                     | _ => []
                     end) calls.

Definition released (evs : list Event) : list InitCall :=
  flat_map (fun e => match e with
                     | NetCtlTerm => [CallNetCtlTerm]
                     | NetTerm => [CallNetTerm]
                     | Free => [CallFree]
                     | _ => []
                     end) evs.

Definition undone (calls : list InitCall) : list InitCall :=
  filter (fun c => match c with
                   | CallNetCtlTerm | CallNetTerm | CallFree => true
                   | _ => false
                   end) calls.

(** ** Byte order *)

(** The two bytes of a 16-bit value and the four bytes of a 32-bit value
    in the opposite order: [sceNetHtons] and [sceNetHtonl] on a
    little-endian machine, which the PSVita is. *)
Definition swap16 (x : Z) : Z := (x mod 256) * 256 + (x / 256) mod 256.

Definition swap32 (x : Z) : Z :=
  (x mod 256) * 2 ^ 24 + ((x / 2 ^ 8) mod 256) * 2 ^ 16
  + ((x / 2 ^ 16) mod 256) * 2 ^ 8 + (x / 2 ^ 24) mod 256.

Definition little_endian (P : Platform) : Prop :=
  forall x, 0 <= x < 2 ^ 16 -> sceNetHtons P x = swap16 x.

(** The port [p] is bound on the socket [fd]: the [sin_port] that
    [sceNetGetsockname] fills in for [fd] is [p] in network byte order, the
    order in which the source fills in every [sin_port] it writes itself
    ([sceNetHtons] in [cmd_PASV_func], [cmd_PORT_func] and
    [server_thread]). *)
Definition bound_port (P : Platform) (fd p : Z) : Prop :=
  0 <= p < 2 ^ 16 /\ to_uint16 (sockname_port P fd) = sceNetHtons P p.

(** The number a field of decimal digits denotes. *)
Definition read_u (s : string) : option Z :=
  option_map (fun d => Z.of_N (N.of_uint d)) (NilZero.uint_of_string s).

(** The 227 line with the six fields [fields]. *)
Definition pasv_line (fields : list Z) : string :=
  "227 Entering Passive Mode (" ++ String.concat "," (map fmt_u fields)
  ++ ")" ++ nl.

(** The four octets of an address, from its lowest byte up. *)
Definition octets (ip : Z) : list Z :=
  [ip mod 256; (ip / 2 ^ 8) mod 256; (ip / 2 ^ 16) mod 256;
   (ip / 2 ^ 24) mod 256].

(** The 227 line of a PASV reports, after the octets of the address, the
    low byte and then the high byte of the port that is bound on the
    listening socket. *)
Definition pasv_reports_low_then_high (P : Platform) (s : State) : Prop :=
  forall s' p,
    cmd_PASV_func P s = Some (tt, s') ->
    bound_port P (fst (pop_Z (-1) (w_new_fds (world s)))) p ->
    sent_on (ctrl_sockfd (client s)) (new_events s s')
    = [pasv_line (octets (vita_addr (globals s)) ++ [p mod 256; p / 256])].

(** The example platform with the byte order of the PSVita; the listening
    socket of a PASV is bound to port 1337. *)
Definition vita_le : Platform :=
  mkPlatform 1 2 0x200 0x400 2 0 1 2
    (SCE_S_ISDIR vita) swap16 swap32 (io_open vita)
    (io_dopen vita) (io_remove vita) (io_rmdir vita) (io_mkdir vita)
    (io_rename vita) (io_getstat vita) (malloc_ok vita)
    (fun _ => swap16 1337)
    (inet_pton vita) (month_out_of_range vita).

(** ** The registry as the source links it *)

Module Linked.

(** The [next] and [prev] pointers of a session record.  A pointer is the
    address of a record; NULL is [None]. *)
Record Links := mkLinks { next : option Z; prev : option Z }.

(** The memory the registry functions work on: the links of the record at
    each address, the head pointer [client_list] and [number_clients]. *)
Record Registry := mkRegistry {
  links : Z -> Links;
  client_list : option Z;
  number_clients : Z
}.

Definition store (a : Z) (l : Links) (m : Z -> Links) : Z -> Links :=
  fun x => if x =? a then l else m x.

(** The writes are made one after the other, each reading the memory the
    one before left, as the assignments of the source do. *)
Definition client_list_add (client : Z) (r : Registry)
  : list Event * Registry :=
  let m := links r in
  let r' :=
    match client_list r with
    | None =>
        let m1 := store client (mkLinks (next (m client)) None) m in
        let m2 := store client (mkLinks None (prev (m1 client))) m1 in
        mkRegistry m2 (Some client) (number_clients r + 1)
    | Some h =>
        let m1 := store client (mkLinks (Some h) (prev (m client))) m in
        let m2 := store h (mkLinks (next (m1 h)) (Some client)) m1 in
        let m3 := store client (mkLinks (next (m2 client)) None) m2 in
        mkRegistry m3 (Some client) (number_clients r + 1)
    end in
  ([KernelLockMutex; KernelUnlockMutex], r').

Definition client_list_delete (client : Z) (r : Registry)
  : list Event * Registry :=
  let m := links r in
  let m1 :=
    match prev (m client) with
    | Some p => store p (mkLinks (next (m client)) (prev (m p))) m
    | None => m
    end in
  let m2 :=
    match next (m1 client) with
    | Some n => store n (mkLinks (next (m1 n)) (prev (m1 client))) m1
    | None => m1
    end in
  let h :=
    match client_list r with
    | Some h => if h =? client then next (m2 client) else Some h
    | None => None
    end in
  ([KernelLockMutex; KernelUnlockMutex],
   mkRegistry m2 h (number_clients r - 1)).

(** The records the loop of [client_list_thread_end] visits from [it] on,
    in the order of the visits; [None] when [fuel] turns do not reach
    NULL. *)
Fixpoint walk (fuel : nat) (m : Z -> Links) (it : option Z)
  : option (list Z) :=
  match it with
  | None => Some []
  | Some a =>
      match fuel with
      | O => None
      | S k => option_map (cons a) (walk k m (next (m a)))
      end
  end.

(** The records [l], in this order, are linked both ways between the
    pointer [from] before them and NULL after them, and [first] points at
    the first. *)
Fixpoint chain (m : Z -> Links) (from : option Z) (l : list Z)
  (first : option Z) : Prop :=
  match l with
  | [] => first = None
  | a :: rest =>
      first = Some a /\ prev (m a) = from
      /\ chain m (Some a) rest (next (m a))
  end.

(** The registry holds the sessions [l], newest first. *)
Definition holds (r : Registry) (l : list Z) : Prop :=
  NoDup l /\ chain (links r) None l (client_list r)
  /\ number_clients r = Z.of_nat (List.length l).

(** An empty registry, as the static initialisers give it. *)
Definition empty (m : Z -> Links) : Registry := mkRegistry m None 0.

End Linked.

(** * Properties *)

(** ** Strings *)

Lemma string_app_assoc (a b c : string) :
  ((a ++ b) ++ c = a ++ (b ++ c))%string.
Proof. induction a as [|x a IH]; simpl; [reflexivity | now rewrite IH]. Qed.

Lemma string_app_nil_r (a : string) : (a ++ "" = a)%string.
Proof. induction a as [|x a IH]; simpl; [reflexivity | now rewrite IH]. Qed.

Lemma string_app_length (a b : string) :
  String.length (a ++ b) = (String.length a + String.length b)%nat.
Proof. induction a as [|x a IH]; simpl; [reflexivity | now rewrite IH]. Qed.

(** ** The mount table *)

Lemma array_set_length {A : Type} (i : nat) (x : A) (l : list A) :
  List.length (array_set i x l) = List.length l.
Proof.
  revert i; induction l as [|h t IH]; intros [|i]; simpl; auto.
Qed.

Lemma add_device_from_hit (devname : string) (dl : list Device) :
  forall n i k d,
    (i <= k < i + n)%nat ->
    nth_error dl k = Some d -> valid d = 0 ->
    (forall j dj, (i <= j < k)%nat -> nth_error dl j = Some dj -> valid dj <> 0) ->
    add_device_from n i devname dl = (1, array_set k (mkDevice devname 1) dl).
Proof.
  induction n as [|n IH]; intros i k d Hk Hd Hv Hbefore; [lia|].
  simpl. destruct (Nat.eq_dec i k) as [->|Hne].
  - rewrite Hd, Hv. reflexivity.
  - destruct (nth_error dl i) as [di|] eqn:Hi.
    + assert (Hdi : valid di <> 0) by (apply (Hbefore i); [lia | exact Hi]).
      apply Z.eqb_neq in Hdi. rewrite Hdi.
      apply (IH (S i) k d); auto; try lia.
      intros j dj Hj. apply Hbefore. lia.
    + exfalso. apply nth_error_None in Hi.
      assert (k < List.length dl)%nat by (apply nth_error_Some; congruence).
      lia.
Qed.

Lemma add_device_from_full (devname : string) (dl : list Device) :
  forall n i,
    (forall j dj, (i <= j)%nat -> nth_error dl j = Some dj -> valid dj <> 0) ->
    add_device_from n i devname dl = (0, dl).
Proof.
  induction n as [|n IH]; intros i Hall; simpl; [reflexivity|].
  destruct (nth_error dl i) as [di|] eqn:Hi; [|reflexivity].
  assert (Hdi : valid di <> 0) by (apply (Hall i); [lia | exact Hi]).
  apply Z.eqb_neq in Hdi. rewrite Hdi.
  apply IH. intros j dj Hj. apply Hall. lia.
Qed.

Lemma del_device_from_hit (devname : string) (dl : list Device) :
  forall n i k d,
    (i <= k < i + n)%nat ->
    nth_error dl k = Some d -> name d = devname ->
    (forall j dj, (i <= j < k)%nat -> nth_error dl j = Some dj -> name dj <> devname) ->
    del_device_from n i devname dl = (1, array_set k (mkDevice (name d) 0) dl).
Proof.
  induction n as [|n IH]; intros i k d Hk Hd Hn Hbefore; [lia|].
  simpl. destruct (Nat.eq_dec i k) as [->|Hne].
  - rewrite Hd, Hn. unfold strcmp_eq. rewrite String.eqb_refl. reflexivity.
  - destruct (nth_error dl i) as [di|] eqn:Hi.
    + assert (Hdi : name di <> devname) by (apply (Hbefore i); [lia | exact Hi]).
      unfold strcmp_eq.
      destruct (String.eqb devname (name di)) eqn:E.
      * apply String.eqb_eq in E. congruence.
      * apply (IH (S i) k d); auto; try lia.
        intros j dj Hj. apply Hbefore. lia.
    + exfalso. apply nth_error_None in Hi.
      assert (k < List.length dl)%nat by (apply nth_error_Some; congruence).
      lia.
Qed.

Lemma del_device_from_miss (devname : string) (dl : list Device) :
  forall n i,
    (forall j dj, (i <= j)%nat -> nth_error dl j = Some dj -> name dj <> devname) ->
    del_device_from n i devname dl = (0, dl).
Proof.
  induction n as [|n IH]; intros i Hall; simpl; [reflexivity|].
  destruct (nth_error dl i) as [di|] eqn:Hi; [|reflexivity].
  assert (Hdi : name di <> devname) by (apply (Hall i); [lia | exact Hi]).
  unfold strcmp_eq. destruct (String.eqb devname (name di)) eqn:E.
  - apply String.eqb_eq in E. congruence.
  - apply IH. intros j dj Hj. apply Hall. lia.
Qed.

Lemma nth_error_array_set_same {A : Type} (l : list A) :
  forall i x, (i < List.length l)%nat -> nth_error (array_set i x l) i = Some x.
Proof.
  induction l as [|h t IH]; intros [|i] x Hi; simpl in *; try lia; auto.
  apply IH. lia.
Qed.

Lemma nth_error_array_set_other {A : Type} (l : list A) :
  forall i j x, i <> j -> nth_error (array_set i x l) j = nth_error l j.
Proof.
  induction l as [|h t IH]; intros [|i] [|j] x Hij; simpl; auto; try lia.
Qed.

(** C10: the mount table has 16 slots and keeps 16.
    [ftpvita_add_device] returns 1 when some slot has flag 0: afterwards
    the first such slot holds the name with flag 1 and every other slot is
    as it was.  When no slot has flag 0 it returns 0 and the table is as
    before.  [ftpvita_del_device] looks at the names only: it returns 1 when
    some slot holds the name, whatever the flag of that slot (so also for a
    slot that is invalid already); afterwards the first such slot holds the
    same name with flag 0 and every other slot is as it was.  When no slot
    holds the name it returns 0 and the table is as before. *)
Theorem device_table_add_del (devname : string) (dl : list Device)
  (Hlen : List.length dl = MAX_DEVICES) :
  (forall i d,
      nth_error dl i = Some d -> valid d = 0 ->
      (forall j dj, (j < i)%nat -> nth_error dl j = Some dj -> valid dj <> 0) ->
      fst (ftpvita_add_device devname dl) = 1
      /\ nth_error (snd (ftpvita_add_device devname dl)) i
         = Some (mkDevice devname 1)
      /\ forall j, j <> i ->
           nth_error (snd (ftpvita_add_device devname dl)) j = nth_error dl j)
  /\ ((forall d, In d dl -> valid d <> 0) ->
      ftpvita_add_device devname dl = (0, dl))
  /\ (forall i d,
      nth_error dl i = Some d -> name d = devname ->
      (forall j dj, (j < i)%nat -> nth_error dl j = Some dj -> name dj <> devname) ->
      fst (ftpvita_del_device devname dl) = 1
      /\ nth_error (snd (ftpvita_del_device devname dl)) i
         = Some (mkDevice devname 0)
      /\ forall j, j <> i ->
           nth_error (snd (ftpvita_del_device devname dl)) j = nth_error dl j)
  /\ ((forall d, In d dl -> name d <> devname) ->
      ftpvita_del_device devname dl = (0, dl))
  /\ List.length (snd (ftpvita_add_device devname dl)) = MAX_DEVICES
  /\ List.length (snd (ftpvita_del_device devname dl)) = MAX_DEVICES.
Proof.
  assert (Hadd : forall i d,
      nth_error dl i = Some d -> valid d = 0 ->
      (forall j dj, (j < i)%nat -> nth_error dl j = Some dj -> valid dj <> 0) ->
      ftpvita_add_device devname dl
      = (1, array_set i (mkDevice devname 1) dl)).
  { intros i d Hd Hv Hb. unfold ftpvita_add_device.
    apply (add_device_from_hit devname dl MAX_DEVICES 0 i d); auto.
    - assert (i < List.length dl)%nat by (apply nth_error_Some; congruence). lia.
    - intros j dj Hj. apply Hb. lia. }
  assert (Hdel : forall i d,
      nth_error dl i = Some d -> name d = devname ->
      (forall j dj, (j < i)%nat -> nth_error dl j = Some dj -> name dj <> devname) ->
      ftpvita_del_device devname dl
      = (1, array_set i (mkDevice (name d) 0) dl)).
  { intros i d Hd Hn Hb. unfold ftpvita_del_device.
    apply (del_device_from_hit devname dl MAX_DEVICES 0 i d); auto.
    - assert (i < List.length dl)%nat by (apply nth_error_Some; congruence). lia.
    - intros j dj Hj. apply Hb. lia. }
  split; [|split; [|split; [|split; [|split]]]].
  - intros i d Hd Hv Hb. rewrite (Hadd i d Hd Hv Hb). simpl.
    split; [reflexivity|]. split.
    + apply nth_error_array_set_same. apply nth_error_Some. congruence.
    + intros j Hj. apply nth_error_array_set_other. auto.
  - intros Hall. unfold ftpvita_add_device. apply add_device_from_full.
    intros j dj _ Hj. apply Hall. eapply nth_error_In; eauto.
  - intros i d Hd Hn Hb. rewrite (Hdel i d Hd Hn Hb). simpl.
    split; [reflexivity|]. split.
    + rewrite Hn. apply nth_error_array_set_same. apply nth_error_Some.
      congruence.
    + intros j Hj. apply nth_error_array_set_other. auto.
  - intros Hall. unfold ftpvita_del_device. apply del_device_from_miss.
    intros j dj _ Hj. apply Hall. eapply nth_error_In; eauto.
  - unfold ftpvita_add_device.
    assert (G : forall n i, List.length (snd (add_device_from n i devname dl))
                            = List.length dl).
    { induction n as [|n IH]; intros i; simpl; auto.
      destruct (nth_error dl i); auto.
      destruct (valid d =? 0); simpl; auto using array_set_length. }
    rewrite G. exact Hlen.
  - unfold ftpvita_del_device.
    assert (G : forall n i, List.length (snd (del_device_from n i devname dl))
                            = List.length dl).
    { induction n as [|n IH]; intros i; simpl; auto.
      destruct (nth_error dl i); auto.
      destruct (strcmp_eq devname (name d)); simpl; auto using array_set_length. }
    rewrite G. exact Hlen.
Qed.

(** A table whose first two slots are taken, the second by a mount that
    was dropped again: [ftpvita_add_device] fills the second slot, and
    [ftpvita_del_device] of the dropped mount reports success once more and
    leaves the slot as it is. *)
Lemma device_table_add_del_witness :
  let dl := mkDevice "ux0:" 1 :: mkDevice "ur0:" 0
            :: repeat (mkDevice EmptyString 0) 14 in
  List.length dl = MAX_DEVICES
  /\ fst (ftpvita_add_device "uma0:" dl) = 1
  /\ nth_error (snd (ftpvita_add_device "uma0:" dl)) 1
     = Some (mkDevice "uma0:" 1)
  /\ ftpvita_add_device "uma0:" dl
     = (1, mkDevice "ux0:" 1 :: mkDevice "uma0:" 1
           :: repeat (mkDevice EmptyString 0) 14)
  /\ fst (ftpvita_del_device "ur0:" dl) = 1
  /\ nth_error (snd (ftpvita_del_device "ur0:" dl)) 1
     = Some (mkDevice "ur0:" 0).
Proof.
  intros dl.
  destruct (device_table_add_del "uma0:" dl eq_refl) as [Hadd _].
  destruct (device_table_add_del "ur0:" dl eq_refl) as [_ [_ [Hdel _]]].
  destruct (Hadd 1%nat (mkDevice "ur0:" 0) eq_refl eq_refl) as [Ha1 [Ha2 Ha3]].
  { intros [|j] dj Hj Hdj; [|lia]. inversion Hdj. discriminate. }
  destruct (Hdel 1%nat (mkDevice "ur0:" 0) eq_refl eq_refl) as [Hd1 [Hd2 _]].
  { intros [|j] dj Hj Hdj; [|lia]. inversion Hdj. discriminate. }
  split; [reflexivity|]. split; [exact Ha1|]. split; [exact Ha2|].
  split; [reflexivity|]. split; [exact Hd1 | exact Hd2].
Defined.

(** ** Running the engine *)

Ltac unfold_platform :=
  unfold sceIoOpen, sceIoDopen, sceIoRemove, sceIoRmdir, sceIoMkdir,
    sceIoRename, sceIoGetstat, malloc, sceNetGetsockname, sceNetSocket,
    sceNetAccept, sceNetSocketClose, sceNetSocketAbort, sceNetBind,
    sceNetListen, sceNetConnect, sceNetRecv, sceIoRead, sceIoDread,
    sceIoWrite, sceIoClose, sceIoLseek_end, sceIoDclose, free,
    sceKernelWaitThreadEnd, sceNetSend, sceNetSendRaw.

Ltac unfold_monad :=
  unfold bind, ret, undefined, emit, get_client, get_globals, get_world,
    modify_client, modify_globals, modify_world, log.

Ltac run := unfold_platform; unfold_monad; simpl.

Arguments cwd_tmp_path : simpl never.
Arguments dest_path_of : simpl never.
Arguments get_vita_path : simpl never.
Arguments pasv_reply : simpl never.

Lemma gen_filepath_runs (s : State) (arg : string) :
  sscanf_nonblank_line (recv_buffer (client s)) = Some arg ->
  gen_filepath s = Some (dest_path_of (cur_path (client s)) arg, s).
Proof.
  intros H. unfold gen_filepath. run. rewrite H. reflexivity.
Qed.

(** ** RNTO *)

(** C4: an RNTO whose line carries an argument renames the staged source to
    the resolved target and always sends the 226 line last; when the rename
    returns an error the 550 line is sent just before it, and nothing else
    goes out on the control connection. *)
Theorem rnto_replies (P : Platform) (s : State) (arg : string)
  (Harg : sscanf_nonblank_line (recv_buffer (client s)) = Some arg) :
  let dst := get_vita_path (dest_path_of (cur_path (client s)) arg) in
  let r := io_rename P (rename_path (client s)) dst in
  exists s',
    cmd_RNTO_func P s = Some (tt, s')
    /\ client s' = client s
    /\ w_trace (world s')
       = w_trace (world s)
         ++ [IoRename (rename_path (client s)) dst r]
         ++ (if r <? 0
             then [NetSend (ctrl_sockfd (client s))
                     ("550 Error renaming the file." ++ nl)]
             else [])
         ++ [NetSend (ctrl_sockfd (client s)) ("226 Rename completed." ++ nl)].
Proof.
  intros dst r. unfold cmd_RNTO_func.
  unfold bind at 1. rewrite (gen_filepath_runs s arg Harg).
  unfold client_send_ctrl_msg. run. fold dst. fold r.
  destruct (r <? 0); simpl; eexists; repeat split;
    simpl; rewrite <- ?app_assoc; reflexivity.
Qed.

(** A rename that fails: both lines go out, the 550 first. *)
Lemma rnto_replies_witness :
  exists s',
    cmd_RNTO_func vita_no_rename (with_line ("RNTO b.txt" ++ cr ++ nl) state0)
    = Some (tt, s')
    /\ sent_on 5 (w_trace (world s'))
       = [("550 Error renaming the file." ++ nl)%string;
          ("226 Rename completed." ++ nl)%string].
Proof.
  destruct (rnto_replies vita_no_rename
              (with_line ("RNTO b.txt" ++ cr ++ nl) state0) "b.txt" eq_refl)
    as [s' [Hrun [_ Htr]]].
  exists s'. split; [exact Hrun|]. rewrite Htr. reflexivity.
Defined.

(** ** PASV *)

Lemma byte_field (x : Z) (k : Z) :
  0 <= k -> to_uint8 (Z.land (Z.shiftr x k) 255) = (x / 2 ^ k) mod 256.
Proof.
  intros Hk. unfold to_uint8.
  change 255 with (Z.ones 8). rewrite Z.land_ones by lia.
  rewrite Z.shiftr_div_pow2 by lia.
  change (2 ^ 8) with 256. apply Z.mod_mod. lia.
Qed.

Lemma pasv_fields_bytes (s_addr port : Z) :
  0 <= port < 2 ^ 16 ->
  pasv_fields s_addr port
  = [ s_addr mod 256; (s_addr / 2 ^ 8) mod 256; (s_addr / 2 ^ 16) mod 256;
      (s_addr / 2 ^ 24) mod 256; port mod 256; port / 256 ].
Proof.
  intros Hp. unfold pasv_fields. rewrite !byte_field by lia.
  rewrite !Z.pow_0_r, !Z.div_1_r.
  change (2 ^ 8) with 256.
  rewrite (Z.mod_small (port / 256) 256); [reflexivity|].
  split.
  - apply Z.div_pos; lia.
  - apply Z.div_lt_upper_bound; lia.
Qed.

Lemma to_uint16_range (z : Z) : 0 <= to_uint16 z < 2 ^ 16.
Proof. unfold to_uint16. apply Z.mod_pos_bound. lia. Qed.

(** What [cmd_PASV_func] does in any state: the calls it makes, in order,
    and the session it leaves. *)
Lemma cmd_PASV_func_runs (P : Platform) (s : State) :
  let c := client s in
  let fd := fst (pop_Z (-1) (w_new_fds (world s))) in
  let port := to_uint16 (sockname_port P fd) in
  let a := mkSockaddr (SCE_NET_AF_INET P) (sceNetHtons P 0)
             (sceNetHtonl P (SCE_NET_INADDR_ANY P)) in
  exists s',
    cmd_PASV_func P s = Some (tt, s')
    /\ client s'
       = set_data_con_type FTP_DATA_CONNECTION_PASSIVE
           (set_data_sockaddr a (set_data_sockfd fd c))
    /\ globals s' = globals s
    /\ w_socks (world s') = open_sock fd (w_socks (world s))
    /\ w_new_fds (world s') = snd (pop_Z (-1) (w_new_fds (world s)))
    /\ w_trace (world s')
       = w_trace (world s)
         ++ [NetSocket (data_socket_name c) fd; NetBind fd a; NetListen fd 128;
             NetGetsockname fd port;
             NetSend (ctrl_sockfd c) (pasv_reply (vita_addr (globals s)) port)].
Proof.
  intros c fd port a. subst c fd port a.
  unfold cmd_PASV_func, client_send_ctrl_msg. run.
  destruct (w_new_fds (world s)) as [|fd rest]; simpl;
    eexists; repeat split; simpl; rewrite <- ?app_assoc; reflexivity.
Qed.

Lemma new_events_app (s s' : State) (evs : list Event) :
  w_trace (world s') = w_trace (world s) ++ evs -> new_events s s' = evs.
Proof.
  intros H. unfold new_events. rewrite H. clear H.
  induction (w_trace (world s)) as [|e tr IH]; simpl; auto.
Qed.

(** A decimal field reads back as the number it was printed from. *)
Lemma read_u_fmt_u (z : Z) : 0 <= z -> read_u (fmt_u z) = Some z.
Proof.
  intros Hz. unfold read_u, fmt_u.
  assert (Hn : N.to_uint (Z.to_N z) <> Decimal.Nil).
  { destruct (Z.to_N z) as [|q]; simpl; [discriminate|].
    apply DecimalPos.Unsigned.to_uint_nonnil. }
  rewrite (NilZero.usu _ Hn). simpl.
  rewrite DecimalN.Unsigned.of_to. rewrite Z2N.id by exact Hz. reflexivity.
Qed.

Lemma swap16_bytes (p : Z) :
  0 <= p < 2 ^ 16 ->
  swap16 p mod 256 = p / 256 /\ swap16 p / 256 = p mod 256.
Proof.
  intros Hp. unfold swap16.
  assert (H1 : 0 <= p mod 256 < 256) by (apply Z.mod_pos_bound; lia).
  assert (H2 : 0 <= p / 256 < 256).
  { split; [apply Z.div_pos; lia | apply Z.div_lt_upper_bound; lia]. }
  rewrite (Z.mod_small (p / 256) 256) by exact H2.
  split.
  - rewrite Z.add_comm, Z.mod_add by lia. apply Z.mod_small. exact H2.
  - rewrite Z.add_comm, Z.div_add by lia.
    rewrite (Z.div_small (p / 256) 256) by exact H2. reflexivity.
Qed.

(** C9: the 227 line of every PASV carries six decimal fields: the four
    octets of the server address from the lowest byte of [vita_addr] up,
    then the low byte and the high byte of the [sin_port] field that
    [sceNetGetsockname] fills in for the listening socket, taken as the
    16-bit number the machine reads there.  That field holds the port in
    network byte order, so with the byte order of the PSVita the two fields
    are the high byte ([port / 256]) and then the low byte ([port mod 256])
    of the port that is bound on the socket: the order of RFC 959. *)
Theorem pasv_reply_fields (P : Platform) (s : State) :
  let fd := fst (pop_Z (-1) (w_new_fds (world s))) in
  let raw := to_uint16 (sockname_port P fd) in
  let ip := vita_addr (globals s) in
  let ctrl := ctrl_sockfd (client s) in
  let fields := octets ip ++ [raw mod 256; raw / 256] in
  exists s' before,
    cmd_PASV_func P s = Some (tt, s')
    /\ w_trace (world s')
       = w_trace (world s) ++ before
         ++ [NetGetsockname fd raw; NetSend ctrl (pasv_line fields)]
    /\ sent_on ctrl (new_events s s') = [pasv_line fields]
    /\ Forall (fun v => 0 <= v < 256 /\ read_u (fmt_u v) = Some v) fields
    /\ forall p,
         little_endian P -> bound_port P fd p ->
         raw mod 256 = p / 256 /\ raw / 256 = p mod 256
         /\ sent_on ctrl (new_events s s')
            = [pasv_line (octets ip ++ [p / 256; p mod 256])].
Proof.
  intros fd raw ip ctrl fields.
  destruct (cmd_PASV_func_runs P s) as [s' [Hrun [_ [_ [_ [_ Htr]]]]]].
  fold fd in Htr. fold raw in Htr. fold ip in Htr. fold ctrl in Htr.
  assert (Hline : pasv_reply ip raw = pasv_line fields).
  { unfold pasv_reply, pasv_line, fields, octets.
    rewrite (pasv_fields_bytes ip raw (to_uint16_range _)). reflexivity. }
  rewrite Hline in Htr.
  assert (Hsent : sent_on ctrl (new_events s s') = [pasv_line fields]).
  { rewrite (new_events_app s s' _ Htr). simpl.
    rewrite Z.eqb_refl. reflexivity. }
  assert (Hraw : 0 <= raw < 2 ^ 16) by apply to_uint16_range.
  exists s'.
  exists [NetSocket (data_socket_name (client s)) fd;
          NetBind fd (mkSockaddr (SCE_NET_AF_INET P) (sceNetHtons P 0)
                        (sceNetHtonl P (SCE_NET_INADDR_ANY P)));
          NetListen fd 128].
  split; [exact Hrun|]. split; [exact Htr|]. split; [exact Hsent|]. split.
  - assert (Hb : forall x, 0 <= x mod 256 < 256)
      by (intros x; apply Z.mod_pos_bound; lia).
    assert (Hh : 0 <= raw / 256 < 256).
    { split; [apply Z.div_pos; lia | apply Z.div_lt_upper_bound; lia]. }
    unfold fields, octets. simpl.
    repeat (apply Forall_cons; [split; [|apply read_u_fmt_u]|]);
      try apply Forall_nil; try apply Hb; try exact Hh;
      try (apply Z.mod_pos_bound; lia); try (apply Hh).
  - intros p Hle [Hp Hbound].
    fold raw in Hbound. rewrite (Hle p Hp) in Hbound.
    destruct (swap16_bytes p Hp) as [E1 E2].
    rewrite <- Hbound in E1, E2.
    split; [exact E1|]. split; [exact E2|].
    rewrite Hsent. unfold fields. rewrite E1, E2. reflexivity.
Qed.

(** The session of [state0] on a PSVita whose listening socket is bound to
    port 1337: the line carries 5 and then 57, the high byte first. *)
Lemma pasv_reply_fields_witness :
  little_endian vita_le /\ bound_port vita_le 7 1337
  /\ exists s',
       cmd_PASV_func vita_le state0 = Some (tt, s')
       /\ sent_on 5 (new_events state0 s')
          = [("227 Entering Passive Mode (192,168,1,5,5,57)" ++ nl)%string].
Proof.
  assert (Hle : little_endian vita_le) by (intros x _; reflexivity).
  assert (Hb : bound_port vita_le 7 1337).
  { split; [split; [discriminate | reflexivity] | reflexivity]. }
  split; [exact Hle|]. split; [exact Hb|].
  destruct (pasv_reply_fields vita_le state0)
    as [s' [before [Hrun [_ [_ [_ Hp]]]]]].
  destruct (Hp 1337 Hle Hb) as [_ [_ Hsent]].
  exists s'. split; [exact Hrun|]. exact Hsent.
Defined.

(** C9, as stated, fails: on the same session the port bound on the
    listening socket is 1337, whose low byte is 57 and whose high byte is
    5, and the line carries them as 5,57. *)
Lemma pasv_port_high_byte_first :
  bound_port vita_le 7 1337
  /\ exists s',
       cmd_PASV_func vita_le state0 = Some (tt, s')
       /\ sent_on 5 (new_events state0 s')
          = [("227 Entering Passive Mode (192,168,1,5,5,57)" ++ nl)%string]
       /\ 1337 mod 256 = 57 /\ 1337 / 256 = 5
       /\ ~ pasv_reports_low_then_high vita_le state0.
Proof.
  assert (Hb : bound_port vita_le 7 1337).
  { split; [split; [discriminate | reflexivity] | reflexivity]. }
  split; [exact Hb|].
  exists (state_after (cmd_PASV_func vita_le) state0).
  split; [reflexivity|]. split; [reflexivity|].
  split; [reflexivity|]. split; [reflexivity|].
  intros H.
  specialize (H (state_after (cmd_PASV_func vita_le) state0) 1337
                eq_refl Hb).
  vm_compute in H. discriminate.
Qed.

Lemma open_sock_keeps (fd x : Z) (l : list Z) :
  In x l -> In x (open_sock fd l).
Proof.
  unfold open_sock. destruct (0 <=? fd); simpl; auto.
Qed.

(** C7, as stated, fails: the session of [state0] sends PASV twice.  The
    first PASV listens on descriptor 7, the second on 8, and 7 is still
    open afterwards. *)
Lemma pasv_twice_leaks_listener :
  data_con_type (client state_pasv) = FTP_DATA_CONNECTION_PASSIVE
  /\ data_sockfd (client state_pasv) = 7
  /\ In 7 (w_socks (world state_pasv))
  /\ ~ pasv_releases_previous vita state_pasv.
Proof.
  split; [reflexivity|]. split; [reflexivity|].
  split; [vm_compute; auto|].
  intros H.
  apply (H (state_after (cmd_PASV_func vita) state_pasv)).
  - vm_compute. reflexivity.
  - reflexivity.
  - vm_compute. discriminate.
  - vm_compute. auto.
Qed.

(** C7, amended: the session record holds one data-channel descriptor and
    one mode.  A PASV puts the new listening socket and the mode Passive
    there, whatever the record held before, and closes no socket: every
    descriptor that was open before the command is open after it. *)
Theorem pasv_installs_and_closes_nothing (P : Platform) (s : State) :
  let fd := fst (pop_Z (-1) (w_new_fds (world s))) in
  exists s' evs,
    cmd_PASV_func P s = Some (tt, s')
    /\ data_sockfd (client s') = fd
    /\ data_con_type (client s') = FTP_DATA_CONNECTION_PASSIVE
    /\ w_trace (world s') = w_trace (world s) ++ evs
    /\ existsb is_socket_close evs = false
    /\ (forall x, In x (w_socks (world s)) -> In x (w_socks (world s'))).
Proof.
  intros fd.
  destruct (cmd_PASV_func_runs P s) as [s' [Hrun [Hc [_ [Hs [_ Htr]]]]]].
  exists s'. eexists. split; [exact Hrun|].
  rewrite Hc, Hs. split; [reflexivity|]. split; [reflexivity|].
  split; [exact Htr|]. split; [reflexivity|].
  intros x Hx. apply open_sock_keeps. exact Hx.
Qed.

(** ** CWD *)

Lemma strcmp_eq_false (a b : string) : a <> b -> strcmp_eq a b = false.
Proof.
  intros H. unfold strcmp_eq. destruct (String.eqb a b) eqn:E; auto.
  apply String.eqb_eq in E. contradiction.
Qed.

(** C3, as stated, fails: the session is in [/ux0:/a/b] and sends [CWD ..].
    It ends in [/ux0:/a], which is neither [/] nor the root of a mount, and
    no directory was probed. *)
Lemma cwd_dotdot_commits_without_probe :
  cur_path (client (state_after (cmd_CWD_func vita) state_cwd_up))
  = "/ux0:/a"%string
  /\ ~ cwd_probes_before_commit vita state_cwd_up.
Proof.
  split; [reflexivity|].
  intros H.
  specialize (H (state_after (cmd_CWD_func vita) state_cwd_up)).
  assert (F : existsb is_probe
                (new_events state_cwd_up
                   (state_after (cmd_CWD_func vita) state_cwd_up)) = false)
    by reflexivity.
  rewrite H in F; [discriminate| | | |].
  - vm_compute. reflexivity.
  - vm_compute. discriminate.
  - vm_compute. discriminate.
  - reflexivity.
Qed.

(** A CWD to a directory that is named: the probe and what follows it. *)
Lemma cmd_CWD_func_runs (P : Platform) (s : State) (arg : string)
  (Harg : sscanf_word_line (recv_buffer (client s)) = Some arg)
  (Hroot : arg <> "/"%string) (Hup : arg <> ".."%string)
  (Htmp : cwd_tmp_path (cur_path (client s)) arg <> "/"%string) :
  let tmp_path := cwd_tmp_path (cur_path (client s)) arg in
  let pd := io_dopen P (get_vita_path tmp_path) in
  let ctrl := ctrl_sockfd (client s) in
  exists s',
    cmd_CWD_func P s = Some (tt, s')
    /\ (pd < 0 ->
        client s' = client s
        /\ w_trace (world s')
           = w_trace (world s)
             ++ [IoDopen (get_vita_path tmp_path) pd;
                 NetSend ctrl ("550 Invalid directory." ++ nl)])
    /\ (0 <= pd ->
        client s' = set_cur_path tmp_path (client s)
        /\ w_trace (world s')
           = w_trace (world s)
             ++ [IoDopen (get_vita_path tmp_path) pd; IoDclose pd;
                 NetSend ctrl
                   ("250 Requested file action okay, completed." ++ nl)]).
Proof.
  intros tmp_path pd ctrl.
  unfold cmd_CWD_func, client_send_ctrl_msg. run. rewrite Harg.
  rewrite (strcmp_eq_false _ _ Hroot), (strcmp_eq_false _ _ Hup).
  rewrite (strcmp_eq_false _ _ Htmp). simpl.
  fold tmp_path. fold pd. destruct (pd <? 0) eqn:E; simpl.
  - apply Z.ltb_lt in E. eexists. split; [reflexivity|]. split.
    + intros _. simpl. rewrite <- app_assoc. split; reflexivity.
    + intros Hpd. lia.
  - apply Z.ltb_ge in E. eexists. split; [reflexivity|]. split.
    + intros Hpd. lia.
    + intros _. simpl. rewrite <- !app_assoc. split; reflexivity.
Qed.

(** C3, amended: a CWD whose argument is neither [/] nor [..] and whose
    target is not [/] opens the target directory (the root of a mount
    included) before anything else.  When the open fails it replies 550 and
    the session is as it was; when it succeeds the directory is closed, the
    target becomes the current path and the reply is 250. *)
Theorem cwd_probe_then_commit (P : Platform) (s : State) (arg : string)
  (Harg : sscanf_word_line (recv_buffer (client s)) = Some arg)
  (Hroot : arg <> "/"%string) (Hup : arg <> ".."%string)
  (Htmp : cwd_tmp_path (cur_path (client s)) arg <> "/"%string) :
  let tmp_path := cwd_tmp_path (cur_path (client s)) arg in
  let pd := io_dopen P (get_vita_path tmp_path) in
  let ctrl := ctrl_sockfd (client s) in
  exists s',
    cmd_CWD_func P s = Some (tt, s')
    /\ (pd < 0 ->
        client s' = client s
        /\ w_trace (world s')
           = w_trace (world s)
             ++ [IoDopen (get_vita_path tmp_path) pd;
                 NetSend ctrl ("550 Invalid directory." ++ nl)])
    /\ (0 <= pd ->
        client s' = set_cur_path tmp_path (client s)
        /\ w_trace (world s')
           = w_trace (world s)
             ++ [IoDopen (get_vita_path tmp_path) pd; IoDclose pd;
                 NetSend ctrl
                   ("250 Requested file action okay, completed." ++ nl)]).
Proof.
  exact (cmd_CWD_func_runs P s arg Harg Hroot Hup Htmp).
Qed.

(** The session of [state0] asks for [/ux0:/data], which exists. *)
Lemma cwd_probe_then_commit_witness :
  exists s',
    cmd_CWD_func vita (with_line (CWD_line "/ux0:/data") state0) = Some (tt, s')
    /\ cur_path (client s') = "/ux0:/data"%string.
Proof.
  destruct (cwd_probe_then_commit vita
              (with_line (CWD_line "/ux0:/data") state0) "/ux0:/data"
              eq_refl ltac:(discriminate) ltac:(discriminate)
              ltac:(vm_compute; discriminate))
    as [s' [Hrun [_ Hok]]].
  exists s'. split; [exact Hrun|].
  destruct (Hok ltac:(vm_compute; discriminate)) as [Hc _].
  rewrite Hc. reflexivity.
Defined.

(** ** Going down and up *)

Lemma strrchr_app_slash (a d : string) :
  no_slash d -> strrchr (a ++ String "/" d) "/" = Some (String.length a).
Proof.
  intros Hd. induction a as [|x a IH]; simpl.
  - unfold no_slash in Hd. rewrite Hd. reflexivity.
  - rewrite IH. reflexivity.
Qed.

Lemma cut_at_app (a b : string) : cut_at (String.length a) (a ++ b) = a.
Proof.
  unfold cut_at. induction a as [|x a IH]; simpl.
  - destruct b; reflexivity.
  - rewrite IH. reflexivity.
Qed.

Lemma forallb_no_slash (d : string) :
  string_forallb (fun c => in_line_set c && negb (Ascii.eqb c "/")) d = true ->
  no_slash d.
Proof.
  unfold no_slash. induction d as [|c d IH]; simpl; [reflexivity|].
  intros H. apply andb_true_iff in H. destruct H as [Hc Hd].
  apply andb_true_iff in Hc. destruct Hc as [_ Hc].
  rewrite (IH Hd). apply negb_true_iff in Hc. rewrite Hc. reflexivity.
Qed.

Lemma forallb_line_set (d : string) :
  string_forallb (fun c => in_line_set c && negb (Ascii.eqb c "/")) d = true ->
  string_forallb in_line_set d = true.
Proof.
  induction d as [|c d IH]; simpl; [reflexivity|].
  intros H. apply andb_true_iff in H. destruct H as [Hc Hd].
  apply andb_true_iff in Hc. destruct Hc as [Hc _].
  rewrite Hc, (IH Hd). reflexivity.
Qed.

(** What [simple_name] says of a name. *)
Lemma simple_name_inv (d : string) :
  simple_name d = true ->
  exists c r,
    d = String c r /\ isspace c = false /\ c <> "/"%char
    /\ no_slash d /\ string_forallb in_line_set d = true.
Proof.
  unfold simple_name. intros H.
  apply andb_true_iff in H. destruct H as [H _].
  apply andb_true_iff in H. destruct H as [H Hsp].
  apply andb_true_iff in H. destruct H as [_ Hall].
  destruct d as [|c r]; [discriminate|].
  exists c, r. split; [reflexivity|]. split.
  - apply negb_true_iff in Hsp. exact Hsp.
  - split.
    + simpl in Hall. apply andb_true_iff in Hall. destruct Hall as [Hc _].
      apply andb_true_iff in Hc. destruct Hc as [_ Hc].
      apply negb_true_iff in Hc. apply Ascii.eqb_neq in Hc. exact Hc.
    + split; [apply forallb_no_slash | apply forallb_line_set]; exact Hall.
Qed.

(** A relative argument: the branch of [cwd_tmp_path] that appends. *)
Lemma cwd_tmp_path_relative (cur : string) (c : ascii) (r : string) :
  c <> "/"%char ->
  cwd_tmp_path cur (String c r)
  = let t := if path_is_at_root cur
             then (cur ++ String c r)%string
             else (cur ++ "/" ++ String c r)%string in
    match strrchr t "/" with
    | Some O => strcat t "/"
    | _ => t
    end.
Proof.
  intros Hc. unfold cwd_tmp_path.
  destruct c as [[] [] [] [] [] [] [] []]; try reflexivity.
  exfalso. apply Hc. reflexivity.
Qed.

Lemma at_root_slash_end (a : string) :
  path_is_at_root (a ++ "/") = true.
Proof.
  unfold path_is_at_root.
  rewrite (strrchr_app_slash a EmptyString) by reflexivity.
  unfold strlen. rewrite string_app_length. simpl.
  apply Nat.eqb_eq. lia.
Qed.

Lemma not_at_root_name_end (a d : string) :
  no_slash d -> d <> EmptyString ->
  path_is_at_root (a ++ String "/" d) = false.
Proof.
  intros Hd Hne. unfold path_is_at_root.
  rewrite (strrchr_app_slash a d Hd).
  unfold strlen. rewrite string_app_length. simpl.
  destruct d as [|c d]; [contradiction|]. simpl.
  apply Nat.eqb_neq. lia.
Qed.

Lemma at_level_not_empty (n : nat) (p : string) :
  at_level n p -> p <> EmptyString.
Proof.
  intros H. destruct H; try discriminate.
  destruct p; discriminate.
Qed.

(** The paths two or more levels down end in a slash and a name. *)
Lemma at_level_deep_form (n : nat) (p : string) :
  at_level (2 + n) p ->
  exists q e,
    p = (q ++ String "/" e)%string /\ no_slash e /\ e <> EmptyString
    /\ q <> EmptyString.
Proof.
  intros H. inversion H as [| | m d Hm Hd | k p' d Hp Hd]; subst.
  - destruct (simple_name_inv d Hd) as [c [r [-> [_ [_ [Hns _]]]]]].
    exists ("/" ++ m)%string, (String c r).
    repeat split; auto; discriminate.
  - destruct (simple_name_inv d Hd) as [c [r [-> [_ [_ [Hns _]]]]]].
    exists p', (String c r).
    repeat split; auto; try discriminate.
    exact (at_level_not_empty _ _ Hp).
Qed.

(** One descent from a directory [n] levels down leads [n + 1] levels
    down, and [dir_up] leads back. *)
Lemma descend_and_back (n : nat) (p d : string) :
  at_level n p -> simple_name d = true ->
  at_level (S n) (cwd_tmp_path p d)
  /\ dir_up (cwd_tmp_path p d) = Some p
  /\ cwd_tmp_path p d <> "/"%string.
Proof.
  intros Hp Hd.
  destruct (simple_name_inv d Hd) as [c [r [Ed [_ [Hc [Hns _]]]]]].
  assert (Hne : d <> EmptyString) by (rewrite Ed; discriminate).
  rewrite Ed at 1 2 3. rewrite (cwd_tmp_path_relative p c r Hc).
  rewrite <- Ed. cbv zeta.
  destruct n as [|[|n]].
  - (* from [/] *)
    inversion Hp; subst p.
    change (path_is_at_root "/") with true. cbv iota.
    change ("/" ++ d)%string with (String "/" d).
    assert (E : strrchr (String "/" d) "/" = Some O).
    { simpl. unfold no_slash in Hns. rewrite Hns. reflexivity. }
    rewrite E. unfold strcat.
    change (String "/" d ++ "/")%string with ("/" ++ d ++ "/")%string.
    split; [constructor; exact Hd|]. split.
    + unfold dir_up.
      change ("/" ++ d ++ "/")%string with (("/" ++ d) ++ "/")%string at 2.
      rewrite at_root_slash_end.
      unfold strlen. simpl. rewrite string_app_length. simpl.
      destruct (String.length d + 1)%nat eqn:L; [lia|reflexivity].
    + rewrite Ed. discriminate.
  - (* from the root of a mount *)
    inversion Hp as [|m Hm| |]; subst p.
    change ("/" ++ m ++ "/")%string with (("/" ++ m) ++ "/")%string.
    rewrite at_root_slash_end.
    rewrite string_app_assoc.
    change ("/" ++ d)%string with (String "/" d).
    rewrite (strrchr_app_slash ("/" ++ m) d Hns). simpl (String.length _).
    split; [apply (at_level_first m d Hm Hd)|]. split.
    + unfold dir_up. rewrite (not_at_root_name_end _ d Hns Hne).
      rewrite (strrchr_app_slash ("/" ++ m) d Hns).
      rewrite cut_at_app.
      assert (L : Nat.eqb (strlen (("/" ++ m) ++ String "/" d)) 1 = false).
      { unfold strlen. rewrite string_app_length. simpl.
        apply Nat.eqb_neq. lia. }
      rewrite L.
      destruct (simple_name_inv m Hm) as [_ [_ [_ [_ [_ [Hms _]]]]]].
      assert (E : strrchr ("/" ++ m) "/" = Some O).
      { simpl. unfold no_slash in Hms. rewrite Hms. reflexivity. }
      rewrite E. unfold strcat. rewrite string_app_assoc. reflexivity.
    + simpl. intros F. inversion F as [F']. destruct m; discriminate.
  - (* from deeper down *)
    destruct (at_level_deep_form n p Hp) as [q [e [Ep [He [Hene Hq]]]]].
    assert (Hroot : path_is_at_root p = false)
      by (rewrite Ep; apply not_at_root_name_end; assumption).
    rewrite Hroot.
    change (p ++ "/" ++ d)%string with (p ++ String "/" d)%string.
    rewrite (strrchr_app_slash p d Hns).
    assert (Lp : exists k, String.length p = S k).
    { rewrite Ep, string_app_length. destruct q; [contradiction|].
      simpl. eexists. reflexivity. }
    destruct Lp as [k Lp]. rewrite Lp.
    split; [apply (at_level_deeper n p d Hp Hd)|]. split.
    + unfold dir_up. rewrite (not_at_root_name_end p d Hns Hne).
      rewrite (strrchr_app_slash p d Hns), cut_at_app.
      assert (L : Nat.eqb (strlen (p ++ String "/" d)) 1 = false).
      { unfold strlen. rewrite string_app_length, Lp. simpl.
        apply Nat.eqb_neq. lia. }
      rewrite L. rewrite Ep at 1. rewrite (strrchr_app_slash q e He).
      destruct q; [contradiction|]. reflexivity.
    + destruct p; [discriminate|]. simpl. intros F. inversion F.
      destruct p; discriminate.
Qed.

Lemma span_app_stop (p : ascii -> bool) (d : string) (c : ascii) (r : string) :
  string_forallb p d = true -> p c = false ->
  span p (d ++ String c r) = (d, String c r).
Proof.
  intros Hd Hc. induction d as [|x d IH]; simpl.
  - rewrite Hc. reflexivity.
  - simpl in Hd. apply andb_true_iff in Hd. destruct Hd as [Hx Hd].
    rewrite Hx, (IH Hd). reflexivity.
Qed.

(** The argument a [CWD] line gives back. *)
Lemma sscanf_CWD_line (d : string) :
  simple_name d = true -> sscanf_word_line (CWD_line d) = Some d.
Proof.
  intros Hd.
  destruct (simple_name_inv d Hd) as [c [r [Ed [Hsp [_ [_ Hall]]]]]].
  unfold sscanf_word_line, CWD_line. simpl.
  unfold scan_line_arg. simpl. rewrite Ed. simpl. rewrite Hsp.
  change (String c (r ++ String (ascii_of_nat 13) nl))%string
    with (String c r ++ String (ascii_of_nat 13) nl)%string.
  rewrite span_app_stop; [reflexivity | rewrite <- Ed; exact Hall | reflexivity].
Qed.

Lemma client_command_CWD (P : Platform) (d : string) (s : State) :
  client_command P (CWD_line d) s
  = cmd_CWD_func P (with_line (CWD_line d) s).
Proof. reflexivity. Qed.

Lemma client_command_CDUP (P : Platform) (s : State) :
  client_command P CDUP_line s = cmd_CDUP_func (with_line CDUP_line s).
Proof. reflexivity. Qed.

(** A descent whose probe succeeds. *)
Lemma descend_runs (P : Platform) (n : nat) (s : State) (d : string) :
  at_level n (cur_path (client s)) -> simple_name d = true ->
  0 <= io_dopen P (get_vita_path (cwd_tmp_path (cur_path (client s)) d)) ->
  exists s',
    client_command P (CWD_line d) s = Some (tt, s')
    /\ cur_path (client s') = cwd_tmp_path (cur_path (client s)) d.
Proof.
  intros Hlvl Hd Hpd.
  destruct (descend_and_back n _ d Hlvl Hd) as [_ [_ Hne]].
  destruct (simple_name_inv d Hd) as [c [r [Ed [_ [Hc _]]]]].
  rewrite client_command_CWD.
  destruct (cmd_CWD_func_runs P (with_line (CWD_line d) s) d) as [s' [Hrun [_ Hok]]].
  - simpl. apply sscanf_CWD_line. exact Hd.
  - rewrite Ed. intros F. inversion F. contradiction.
  - intros F. rewrite F in Hd. vm_compute in Hd. discriminate.
  - exact Hne.
  - exists s'. split; [exact Hrun|].
    destruct (Hok Hpd) as [Hcl _]. rewrite Hcl. reflexivity.
Qed.

(** A line that goes up, where [dir_up] is defined. *)
Lemma up_runs (P : Platform) (s : State) (u p' : string) :
  is_up_line u = true -> dir_up (cur_path (client s)) = Some p' ->
  exists s', client_command P u s = Some (tt, s') /\ cur_path (client s') = p'.
Proof.
  intros Hu Hp. unfold is_up_line in Hu. apply orb_true_iff in Hu.
  destruct Hu as [Hu|Hu]; apply String.eqb_eq in Hu; subst u.
  - rewrite client_command_CDUP.
    unfold cmd_CDUP_func, client_dir_up, client_send_ctrl_msg. run.
    rewrite Hp. eexists. split; reflexivity.
  - rewrite client_command_CWD.
    unfold cmd_CWD_func, client_dir_up, client_send_ctrl_msg. run.
    rewrite Hp. eexists. split; reflexivity.
Qed.

Lemma client_commands_app (P : Platform) (l1 l2 : list string) (s : State) :
  client_commands P (l1 ++ l2) s
  = match client_commands P l1 s with
    | Some (_, s1) => client_commands P l2 s1
    | None => None
    end.
Proof.
  revert s. induction l1 as [|l l1 IH]; intros s; simpl; [reflexivity|].
  unfold bind. destruct (client_command P l s) as [[[] s1]|]; [|reflexivity].
  apply IH.
Qed.

(** Descents of one component with good probes, then as many lines up, end
    where they started. *)
Lemma descend_then_up (P : Platform) (names : list string) :
  forall (n : nat) (s : State) (ups : list string),
    at_level n (cur_path (client s)) ->
    Forall (fun d => simple_name d = true) names ->
    Forall (fun t => 0 <= io_dopen P (get_vita_path t))
      (cwd_chain (cur_path (client s)) names) ->
    List.length ups = List.length names ->
    Forall (fun u => is_up_line u = true) ups ->
    exists s',
      client_commands P (map CWD_line names ++ ups) s = Some (tt, s')
      /\ cur_path (client s') = cur_path (client s).
Proof.
  induction names as [|d names IH]; intros n s ups Hlvl Hnames Hprobes Hlen Hups.
  - destruct ups; [|discriminate]. exists s. split; reflexivity.
  - inversion Hnames as [|? ? Hd Hrest]; subst.
    simpl in Hprobes. inversion Hprobes as [|? ? Hpd Hchain]; subst.
    destruct (descend_runs P n s d Hlvl Hd Hpd) as [s1 [Hrun1 Hcur1]].
    destruct (descend_and_back n _ d Hlvl Hd) as [Hlvl1 [Hback _]].
    assert (Hsplit : exists ups' u, ups = ups' ++ [u]).
    { destruct (exists_last (l := ups)) as [ups' [u E]].
      - intros F. subst ups. discriminate.
      - exists ups', u. exact E. }
    destruct Hsplit as [ups' [u Eu]]. subst ups.
    rewrite length_app in Hlen. simpl in Hlen.
    apply Forall_app in Hups. destruct Hups as [Hups' Hu].
    inversion Hu as [|? ? Hu1 _]; subst.
    destruct (IH (S n) s1 ups') as [s2 [Hrun2 Hcur2]].
    + rewrite Hcur1. exact Hlvl1.
    + exact Hrest.
    + rewrite Hcur1. exact Hchain.
    + lia.
    + exact Hups'.
    + destruct (up_runs P s2 u (cur_path (client s))) as [s3 [Hrun3 Hcur3]].
      * exact Hu1.
      * rewrite Hcur2, Hcur1. exact Hback.
      * exists s3. split; [|exact Hcur3].
        simpl. unfold bind. rewrite Hrun1.
        rewrite app_assoc, client_commands_app, Hrun2.
        simpl. unfold bind. rewrite Hrun3. reflexivity.
Qed.

(** C8, as stated, fails: from [/] one descent, [CWD ux0:/data], and one
    CDUP leave the session in [/ux0:/]. *)
Lemma one_descent_one_cdup_not_root :
  exists s',
    client_commands vita [CWD_line "ux0:/data"; CDUP_line] state0 = Some (tt, s')
    /\ cur_path (client s') = "/ux0:/"%string
    /\ cur_path (client s') <> "/"%string.
Proof.
  eexists. split; [vm_compute; reflexivity|].
  split; [reflexivity | discriminate].
Qed.

(** C8, amended: from [/], descents by CWD that each name one component
    (no slash in the argument) and whose probes succeed, followed by as many
    CDUP or [CWD ..] lines, bring the current path back to [/]; and a
    [CWD ..] in [/] leaves it [/]. *)
Theorem cwd_down_and_up_returns_to_root (P : Platform) (s : State)
  (Hroot : cur_path (client s) = "/"%string) :
  (forall names ups,
      Forall (fun d => simple_name d = true) names ->
      Forall (fun t => 0 <= io_dopen P (get_vita_path t)) (cwd_chain "/" names) ->
      List.length ups = List.length names ->
      Forall (fun u => is_up_line u = true) ups ->
      exists s',
        client_commands P (map CWD_line names ++ ups) s = Some (tt, s')
        /\ cur_path (client s') = "/"%string)
  /\ (exists s',
        client_command P (CWD_line "..") s = Some (tt, s')
        /\ cur_path (client s') = "/"%string).
Proof.
  split.
  - intros names ups Hnames Hprobes Hlen Hups.
    destruct (descend_then_up P names 0 s ups) as [s' [Hrun Hcur]]; auto.
    + rewrite Hroot. constructor.
    + rewrite Hroot. exact Hprobes.
    + exists s'. split; [exact Hrun|]. rewrite Hcur. exact Hroot.
  - apply up_runs; [reflexivity|]. rewrite Hroot. reflexivity.
Qed.

(** Into [ux0:], [data] and [app], then up three times. *)
Lemma cwd_down_and_up_returns_to_root_witness :
  exists s',
    client_commands vita
      (map CWD_line ["ux0:"; "data"; "app"]%string
       ++ [CDUP_line; CWD_line ".."; CDUP_line]) state0 = Some (tt, s')
    /\ cur_path (client s') = "/"%string.
Proof.
  apply (proj1 (cwd_down_and_up_returns_to_root vita state0 eq_refl)).
  - repeat constructor.
  - repeat constructor; vm_compute; discriminate.
  - reflexivity.
  - repeat constructor.
Defined.

(** ** Data transfers *)

Lemma receive_loop_unfold (fuel : nat) (fd : Z) :
  receive_loop fuel fd
  = (bytes_recv <- client_recv_data_raw ;;
     if 0 <? bytes_recv then
       match fuel with
       | O => undefined
       | S k => sceIoWrite fd bytes_recv ;; receive_loop k fd
       end
     else ret bytes_recv).
Proof. destruct fuel; reflexivity. Qed.

Lemma recv_end_not_positive (script : list Z) : recv_end script <= 0.
Proof.
  induction script as [|r rest IH]; simpl; [lia|].
  destruct (0 <? r) eqn:E; [exact IH|]. apply Z.ltb_ge in E. exact E.
Qed.

(** The receive loop comes to its end on every script: it returns the
    first result that is not positive, and all it does is receive and
    write. *)
Lemma client_recv_data_raw_runs (s : State) :
  client_recv_data_raw s
  = Some (fst (pop_Z 0 (w_data_in (world s))),
          mkState (client s) (globals s)
            (mkWorld
               (w_trace (world s)
                ++ [NetRecv (data_fd (client s))
                      (fst (pop_Z 0 (w_data_in (world s))))])
               (w_socks (world s)) (w_threads (world s)) (w_new_fds (world s))
               (snd (pop_Z 0 (w_data_in (world s)))) (w_file_in (world s))
               (w_dirents (world s)))).
Proof.
  unfold client_recv_data_raw, data_fd. run.
  destruct (data_con_type (client s)); run;
    destruct (w_data_in (world s)); reflexivity.
Qed.

Lemma receive_loop_runs (fd : Z) (script : list Z) :
  forall (fuel : nat) (s : State),
    w_data_in (world s) = script ->
    (List.length script <= fuel)%nat ->
    exists s' evs,
      receive_loop fuel fd s = Some (recv_end script, s')
      /\ client s' = client s
      /\ globals s' = globals s
      /\ w_socks (world s') = w_socks (world s)
      /\ w_trace (world s') = w_trace (world s) ++ evs
      /\ Forall (fun e => step_of e = Some Stream) evs.
Proof.
  induction script as [|r rest IH]; intros fuel s Hs Hfuel;
    rewrite receive_loop_unfold; unfold bind at 1;
    rewrite client_recv_data_raw_runs, Hs; simpl.
  - eexists; eexists; repeat split; simpl; repeat constructor.
  - destruct (0 <? r) eqn:E.
    + destruct fuel as [|k]; [simpl in Hfuel; lia|].
      run.
      match goal with
      | |- context [receive_loop k fd ?st] =>
          destruct (IH k st eq_refl) as [s' [evs [Hrun [Hc [Hg [Hk [Htr Hall]]]]]]];
            [simpl in Hfuel; lia|]
      end.
      simpl in Hc, Hg, Hk, Htr.
      exists s', (NetRecv (data_fd (client s)) r :: IoWrite fd r :: evs).
      split; [exact Hrun|].
      repeat split; auto.
      rewrite Htr, <- !app_assoc. simpl. reflexivity.
    + eexists; eexists; repeat split; simpl; repeat constructor.
Qed.

Lemma bind_runs {A B : Type} (m : M A) (k : A -> M B) (s s1 : State) (a : A) :
  m s = Some (a, s1) -> bind m k s = k a s1.
Proof. intros H. unfold bind. rewrite H. reflexivity. Qed.

(** The data connection is opened by one call; the session keeps its
    connection type and the scripts of the transfer are not touched. *)
Lemma client_open_data_connection_runs (s : State) :
  exists s' e,
    client_open_data_connection s = Some (tt, s')
    /\ step_of e = Some OpenData
    /\ w_trace (world s') = w_trace (world s) ++ [e]
    /\ data_con_type (client s') = data_con_type (client s)
    /\ ctrl_sockfd (client s') = ctrl_sockfd (client s)
    /\ globals s' = globals s
    /\ w_data_in (world s') = w_data_in (world s)
    /\ w_file_in (world s') = w_file_in (world s)
    /\ w_dirents (world s') = w_dirents (world s).
Proof.
  unfold client_open_data_connection. run.
  destruct (data_con_type (client s)) eqn:T; run;
    try destruct (w_new_fds (world s)); simpl;
    eexists; eexists; (split; [reflexivity|]); simpl; rewrite ?T;
    repeat split; reflexivity.
Qed.

(** Closing the data connection closes sockets and nothing else, and
    leaves the connection type [NONE]. *)
Lemma client_close_data_connection_runs (s : State) :
  exists s' evs,
    client_close_data_connection s = Some (tt, s')
    /\ steps evs = close_steps (data_con_type (client s))
    /\ forallb is_socket_close evs = true
    /\ w_trace (world s') = w_trace (world s) ++ evs
    /\ data_con_type (client s') = FTP_DATA_CONNECTION_NONE
    /\ ctrl_sockfd (client s') = ctrl_sockfd (client s).
Proof.
  unfold client_close_data_connection. run.
  destruct (data_con_type (client s)) eqn:T; run;
    eexists; eexists; (split; [reflexivity|]); simpl;
    rewrite <- ?app_assoc; simpl.
  - split; [|split; [|split; [reflexivity|split; reflexivity]]]; reflexivity.
  - split; [|split; [|split; [reflexivity|split; reflexivity]]]; reflexivity.
  - split; [|split; [|split; [reflexivity|split; reflexivity]]]; reflexivity.
Qed.

(** What a store does once the file is open and the buffer allocated. *)
Lemma receive_into_runs (P : Platform) (s : State) (path : option string)
  (fd : Z) :
  malloc_ok P FILE_BUF_SIZE = true ->
  let r := recv_end (w_data_in (world s)) in
  let ctrl := ctrl_sockfd (client s) in
  exists s' e_open loop closes,
    receive_into P path fd s = Some (tt, s')
    /\ w_trace (world s')
       = w_trace (world s)
         ++ [Malloc FILE_BUF_SIZE true; e_open;
             NetSend ctrl ("150 Opening Image mode data transfer." ++ nl)]
         ++ loop
         ++ [IoClose fd; Free]
         ++ (if r =? 0
             then [NetSend ctrl ("226 Transfer completed." ++ nl)]
             else [IoRemove path (io_remove P path);
                   NetSend ctrl
                     ("426 Connection closed; transfer aborted." ++ nl)])
         ++ closes
    /\ step_of e_open = Some OpenData
    /\ Forall (fun e => step_of e = Some Stream) loop
    /\ steps closes = close_steps (data_con_type (client s))
    /\ forallb is_socket_close closes = true
    /\ data_con_type (client s') = FTP_DATA_CONNECTION_NONE.
Proof.
  intros Hm r ctrl. unfold receive_into, malloc, client_send_ctrl_msg.
  run. rewrite Hm. simpl.
  match goal with
  | |- context [client_open_data_connection ?st] =>
      destruct (client_open_data_connection_runs st)
        as [s1 [e_open [Hopen [Hstep [Htr1 [Ht1 [Hc1 [_ [Hd1 _]]]]]]]]]
  end.
  rewrite Hopen. simpl in Htr1, Ht1, Hc1, Hd1.
  match goal with
  | |- context [receive_loop ?k fd ?st] =>
      destruct (receive_loop_runs fd (w_data_in (world s)) k st)
        as [s2 [loop [Hloop [Hc2 [_ [_ [Htr2 Hstream]]]]]]];
        [simpl; exact Hd1 | simpl; rewrite Hd1; lia |]
  end.
  rewrite Hloop. simpl in Hc2, Htr2. fold r.
  destruct (r =? 0) eqn:Er; simpl.
  - match goal with
    | |- context [client_close_data_connection ?st] =>
        destruct (client_close_data_connection_runs st)
          as [s3 [closes [Hclose [Hsteps [Hcl [Htr3 [Ht3 _]]]]]]]
    end.
    rewrite Hclose. simpl in Hsteps, Htr3.
    exists s3, e_open, loop, closes. split; [reflexivity|].
    rewrite Htr3, Htr2, Htr1, Hc2, Hc1. rewrite Hc2, Ht1 in Hsteps.
    repeat split; auto.
    rewrite <- !app_assoc. reflexivity.
  - match goal with
    | |- context [client_close_data_connection ?st] =>
        destruct (client_close_data_connection_runs st)
          as [s3 [closes [Hclose [Hsteps [Hcl [Htr3 [Ht3 _]]]]]]]
    end.
    rewrite Hclose. simpl in Hsteps, Htr3.
    exists s3, e_open, loop, closes. split; [reflexivity|].
    rewrite Htr3, Htr2, Htr1, Hc2, Hc1. rewrite Hc2, Ht1 in Hsteps.
    repeat split; auto.
    rewrite <- !app_assoc. reflexivity.
Qed.

Lemma step_not_remove (e : Event) (st : Step) :
  step_of e = Some st -> is_remove e = false.
Proof. destruct e; simpl; intros H; try reflexivity; discriminate. Qed.

Lemma stream_events_clean (loop : list Event) :
  Forall (fun e => step_of e = Some Stream) loop ->
  Forall (fun e => is_remove e = false /\ step_of e <> Some FinalStatus) loop.
Proof.
  intros H. induction H as [|e l He Hl IH]; constructor; auto.
  split; [exact (step_not_remove e Stream He)|]. rewrite He. discriminate.
Qed.

Lemma open_event_clean (e : Event) :
  step_of e = Some OpenData ->
  is_remove e = false /\ step_of e <> Some FinalStatus.
Proof.
  intros He. split; [exact (step_not_remove e OpenData He)|].
  rewrite He. discriminate.
Qed.

(** C5: a STOR or an APPE whose file is open and whose buffer is allocated
    receives until a result [r] that is not positive.  When [r] is 0 the 226
    line is sent and no file is removed; when [r] is an error the
    destination is removed first and the 426 line is sent in place of the
    226 line.  Before that point no file is removed and no final status
    goes out; after it the data connection is closed and nothing else
    happens. *)
Theorem store_end_of_transfer (P : Platform) (s : State)
  (path : option string)
  (Hmalloc : malloc_ok P FILE_BUF_SIZE = true) :
  let r := recv_end (w_data_in (world s)) in
  let ctrl := ctrl_sockfd (client s) in
  let ending :=
    if r =? 0
    then [NetSend ctrl ("226 Transfer completed." ++ nl)]
    else [IoRemove path (io_remove P path);
          NetSend ctrl ("426 Connection closed; transfer aborted." ++ nl)] in
  r <= 0
  /\ (0 <= io_open P path
            (Z.lor (Z.lor (SCE_O_CREAT P) (SCE_O_WRONLY P)) (SCE_O_TRUNC P)) ->
      exists s' before closes,
        receive_file P path s = Some (tt, s')
        /\ w_trace (world s') = w_trace (world s) ++ before ++ ending ++ closes
        /\ Forall (fun e => is_remove e = false
                            /\ step_of e <> Some FinalStatus) before
        /\ forallb is_socket_close closes = true)
  /\ (0 <= io_open P path (Z.lor (SCE_O_WRONLY P) (SCE_O_CREAT P)) ->
      exists s' before closes,
        append_file P path s = Some (tt, s')
        /\ w_trace (world s') = w_trace (world s) ++ before ++ ending ++ closes
        /\ Forall (fun e => is_remove e = false
                            /\ step_of e <> Some FinalStatus) before
        /\ forallb is_socket_close closes = true).
Proof.
  intros r ctrl ending. split; [apply recv_end_not_positive|]. split.
  - intros Hfd. unfold receive_file, sceIoOpen. run.
    apply Z.leb_le in Hfd. rewrite Hfd.
    match goal with
    | |- context [receive_into P path ?fd ?st] =>
        destruct (receive_into_runs P st path fd Hmalloc)
          as [s' [e_open [loop [closes [Hrun [Htr [Ho [Hl [_ [Hc _]]]]]]]]]];
        exists s';
        exists ([IoOpen path
                   (Z.lor (Z.lor (SCE_O_CREAT P) (SCE_O_WRONLY P)) (SCE_O_TRUNC P))
                   fd; Malloc FILE_BUF_SIZE true; e_open;
                 NetSend ctrl ("150 Opening Image mode data transfer." ++ nl)]
                ++ loop ++ [IoClose fd; Free]);
        exists closes
    end.
    simpl in Htr. fold r in Htr. fold ctrl in Htr.
    split; [exact Hrun|]. split; [|split; [|exact Hc]].
    + rewrite Htr. rewrite <- !app_assoc. reflexivity.
    + repeat (apply Forall_app; split); repeat constructor;
        try discriminate; try apply (open_event_clean _ Ho);
        try apply (stream_events_clean _ Hl).
  - intros Hfd. unfold append_file, sceIoOpen. run.
    apply Z.leb_le in Hfd. rewrite Hfd.
    match goal with
    | |- context [receive_into P path ?fd ?st] =>
        destruct (receive_into_runs P st path fd Hmalloc)
          as [s' [e_open [loop [closes [Hrun [Htr [Ho [Hl [_ [Hc _]]]]]]]]]];
        exists s';
        exists ([IoOpen path (Z.lor (SCE_O_WRONLY P) (SCE_O_CREAT P)) fd;
                 IoLseek fd; Malloc FILE_BUF_SIZE true; e_open;
                 NetSend ctrl ("150 Opening Image mode data transfer." ++ nl)]
                ++ loop ++ [IoClose fd; Free]);
        exists closes
    end.
    simpl in Htr. fold r in Htr. fold ctrl in Htr.
    split; [exact Hrun|]. split; [|split; [|exact Hc]].
    + rewrite Htr. rewrite <- !app_assoc. reflexivity.
    + repeat (apply Forall_app; split); repeat constructor;
        try discriminate; try apply (open_event_clean _ Ho);
        try apply (stream_events_clean _ Hl).
Qed.

(** Two blocks arrive, then the connection breaks. *)
Lemma store_end_of_transfer_witness :
  recv_end (w_data_in (world state_stor_abort)) = -1
  /\ exists s' before closes,
       receive_file vita (Some "ux0:/f.bin"%string) state_stor_abort
       = Some (tt, s')
       /\ w_trace (world s')
          = before
            ++ [IoRemove (Some "ux0:/f.bin"%string) 0;
                NetSend 5 ("426 Connection closed; transfer aborted." ++ nl)]
            ++ closes.
Proof.
  split; [reflexivity|].
  destruct (store_end_of_transfer vita state_stor_abort
              (Some "ux0:/f.bin"%string) eq_refl) as [_ [H _]].
  destruct (H ltac:(vm_compute; discriminate))
    as [s' [before [closes [Hrun [Htr _]]]]].
  exists s', before, closes. split; [exact Hrun | exact Htr].
Defined.

Lemma send_file_loop_unfold (fuel : nat) (fd : Z) :
  send_file_loop fuel fd
  = (r <- sceIoRead fd ;;
     let bytes_read := to_uint32 r in
     if 0 <? bytes_read then
       match fuel with
       | O => undefined
       | S k => client_send_data_raw bytes_read ;; send_file_loop k fd
       end
     else ret tt).
Proof. destruct fuel; reflexivity. Qed.

Lemma client_send_data_raw_runs (len : Z) (s : State) :
  client_send_data_raw len s
  = Some (tt, mkState (client s) (globals s)
                (log (NetSendRaw (data_fd (client s)) len) (world s))).
Proof.
  unfold client_send_data_raw, data_fd. run.
  destruct (data_con_type (client s)); reflexivity.
Qed.

Lemma client_send_data_msg_runs (msg : string) (s : State) :
  client_send_data_msg msg s
  = Some (tt, mkState (client s) (globals s)
                (log (NetSend (data_fd (client s)) msg) (world s))).
Proof.
  unfold client_send_data_msg, data_fd. run.
  destruct (data_con_type (client s)); reflexivity.
Qed.

(** The read loop comes to its end on every script, and all it does is
    read and send. *)
Lemma send_file_loop_runs (fd : Z) (script : list Z) :
  forall (fuel : nat) (s : State),
    w_file_in (world s) = script ->
    (List.length script <= fuel)%nat ->
    exists s' evs,
      send_file_loop fuel fd s = Some (tt, s')
      /\ client s' = client s
      /\ w_trace (world s') = w_trace (world s) ++ evs
      /\ Forall (fun e => step_of e = Some Stream) evs.
Proof.
  induction script as [|r rest IH]; intros fuel s Hs Hfuel;
    rewrite send_file_loop_unfold; unfold sceIoRead; run; rewrite Hs; simpl.
  - eexists; eexists; repeat split; simpl; repeat constructor.
  - destruct (0 <? to_uint32 r) eqn:E.
    + destruct fuel as [|k]; [simpl in Hfuel; lia|].
      rewrite client_send_data_raw_runs. simpl.
      match goal with
      | |- context [send_file_loop k fd ?st] =>
          destruct (IH k st eq_refl) as [s' [evs [Hrun [Hc [Htr Hall]]]]];
            [simpl in Hfuel; lia|]
      end.
      simpl in Hc, Htr.
      exists s', (IoRead fd r :: NetSendRaw (data_fd (client s)) (to_uint32 r) :: evs).
      split; [exact Hrun|].
      repeat split; auto.
      rewrite Htr, <- !app_assoc. simpl. reflexivity.
    + eexists; eexists; repeat split; simpl; repeat constructor.
Qed.

(** What a retrieval does once the file is open and the buffer allocated. *)
Lemma send_file_runs (P : Platform) (s : State) (path : option string) :
  let fd := io_open P path (SCE_O_RDONLY P) in
  let ctrl := ctrl_sockfd (client s) in
  0 <= fd -> malloc_ok P FILE_BUF_SIZE = true ->
  exists s' e_open loop closes,
    send_file P path s = Some (tt, s')
    /\ w_trace (world s')
       = w_trace (world s)
         ++ [IoOpen path (SCE_O_RDONLY P) fd; Malloc FILE_BUF_SIZE true; e_open;
             NetSend ctrl ("150 Opening Image mode data transfer." ++ nl)]
         ++ loop
         ++ [IoClose fd; Free; NetSend ctrl ("226 Transfer completed." ++ nl)]
         ++ closes
    /\ step_of e_open = Some OpenData
    /\ Forall (fun e => step_of e = Some Stream) loop
    /\ steps closes = close_steps (data_con_type (client s))
    /\ data_con_type (client s') = FTP_DATA_CONNECTION_NONE.
Proof.
  intros fd ctrl Hfd Hm.
  unfold send_file, sceIoOpen, malloc, client_send_ctrl_msg. run.
  fold fd. apply Z.leb_le in Hfd. rewrite Hfd, Hm. simpl.
  match goal with
  | |- context [client_open_data_connection ?st] =>
      destruct (client_open_data_connection_runs st)
        as [s1 [e_open [Hopen [Hstep [Htr1 [Ht1 [Hc1 [_ [_ [Hf1 _]]]]]]]]]]
  end.
  rewrite Hopen. simpl in Htr1, Ht1, Hc1, Hf1.
  match goal with
  | |- context [send_file_loop ?k fd ?st] =>
      destruct (send_file_loop_runs fd (w_file_in (world s)) k st)
        as [s2 [loop [Hloop [Hc2 [Htr2 Hstream]]]]];
        [simpl; exact Hf1 | simpl; rewrite Hf1; lia |]
  end.
  rewrite Hloop. simpl in Hc2, Htr2.
  match goal with
  | |- context [client_close_data_connection ?st] =>
      destruct (client_close_data_connection_runs st)
        as [s3 [closes [Hclose [Hsteps [_ [Htr3 [Ht3 _]]]]]]]
  end.
  rewrite Hclose. simpl in Hsteps, Htr3.
  exists s3, e_open, loop, closes. split; [reflexivity|].
  rewrite Htr3, Htr2, Htr1, Hc2, Hc1. rewrite Hc2, Ht1 in Hsteps.
  repeat split; auto.
  rewrite <- !app_assoc. reflexivity.
Qed.

(** A line of a listing starts with [d] or [-]: it is no reply line. *)
Lemma list_line_is_stream (P : Platform) (fd : Z) (dir : bool)
  (file_size month_n day_n hour minute : Z) (filename : string) :
  step_of (NetSend fd
             (gen_list_format P 512 dir file_size month_n day_n hour minute
                filename))
  = Some Stream.
Proof.
  unfold gen_list_format. change (512 - 1)%nat with (S 510).
  destruct dir; cbn [String.append substring]; reflexivity.
Qed.

Lemma send_LIST_devices_runs (P : Platform) (dl : list Device) :
  forall s : State,
    exists s' evs,
      send_LIST_devices P dl s = Some (tt, s')
      /\ client s' = client s
      /\ w_trace (world s') = w_trace (world s) ++ evs
      /\ Forall (fun e => step_of e = Some Stream) evs.
Proof.
  induction dl as [|d dl IH]; intros s; simpl.
  - exists s, []. rewrite app_nil_r. repeat split. constructor.
  - destruct (valid d =? 0); simpl.
    + unfold bind at 1. unfold ret at 1.
      destruct (IH s) as [s' [evs H]]. exists s', evs. exact H.
    + unfold sceIoGetstat. run. rewrite client_send_data_msg_runs. simpl.
      match goal with
      | |- context [send_LIST_devices P dl ?st] =>
          destruct (IH st) as [s' [evs [Hrun [Hc [Htr Hall]]]]]
      end.
      simpl in Hc, Htr.
      exists s'. eexists. split; [exact Hrun|]. split; [exact Hc|].
      split.
      * rewrite Htr, <- !app_assoc. simpl. reflexivity.
      * constructor; [reflexivity|].
        constructor; [apply list_line_is_stream | exact Hall].
Qed.

Lemma send_LIST_entries_unfold (P : Platform) (fuel : nat) (dir : Z) :
  send_LIST_entries P fuel dir
  = (r <- sceIoDread dir ;;
     if 0 <? fst r then
       match fuel with
       | O => undefined
       | S k =>
           let st := d_stat (snd r) in
           client_send_data_msg
             (gen_list_format P 512 (SCE_S_ISDIR P (st_mode st))
                (to_uint32 (st_size st))
                (dt_month (st_ctime st)) (dt_day (st_ctime st))
                (dt_hour (st_ctime st)) (dt_minute (st_ctime st))
                (d_name (snd r))) ;;
           send_LIST_entries P k dir
       end
     else ret tt).
Proof. destruct fuel; reflexivity. Qed.

(** The loop over a directory comes to its end on every script, and all it
    does is read entries and send lines. *)
Lemma send_LIST_entries_runs (P : Platform) (dir : Z)
  (script : list (Z * SceIoDirent)) :
  forall (fuel : nat) (s : State),
    w_dirents (world s) = script ->
    (List.length script <= fuel)%nat ->
    exists s' evs,
      send_LIST_entries P fuel dir s = Some (tt, s')
      /\ client s' = client s
      /\ w_trace (world s') = w_trace (world s) ++ evs
      /\ Forall (fun e => step_of e = Some Stream) evs.
Proof.
  induction script as [|r rest IH]; intros fuel s Hs Hfuel;
    rewrite send_LIST_entries_unfold; unfold sceIoDread; run; rewrite Hs; simpl.
  - eexists; eexists; repeat split; simpl; repeat constructor.
  - destruct (0 <? fst r) eqn:E.
    + destruct fuel as [|k]; [simpl in Hfuel; lia|].
      rewrite client_send_data_msg_runs. simpl.
      match goal with
      | |- context [send_LIST_entries P k dir ?st] =>
          destruct (IH k st eq_refl) as [s' [evs [Hrun [Hc [Htr Hall]]]]];
            [simpl in Hfuel; lia|]
      end.
      simpl in Hc, Htr.
      exists s'. eexists. split; [exact Hrun|]. split; [exact Hc|].
      split.
      * rewrite Htr, <- !app_assoc. simpl. reflexivity.
      * constructor; [reflexivity|].
        constructor; [apply list_line_is_stream | exact Hall].
    + eexists; eexists; repeat split; simpl; repeat constructor.
Qed.

(** What a listing does once its target is known to be there. *)
Lemma send_LIST_transfer_runs (P : Platform) (s : State) (devices : bool)
  (dir : Z) :
  let ctrl := ctrl_sockfd (client s) in
  exists s' e_open loop closes,
    send_LIST_transfer P devices dir s = Some (tt, s')
    /\ w_trace (world s')
       = w_trace (world s)
         ++ [NetSend ctrl ("150 Opening ASCII mode data transfer for LIST." ++ nl);
             e_open]
         ++ loop
         ++ (if devices then [] else [IoDclose dir])
         ++ closes
         ++ [NetSend ctrl ("226 Transfer complete." ++ nl)]
    /\ step_of e_open = Some OpenData
    /\ Forall (fun e => step_of e = Some Stream) loop
    /\ steps closes = close_steps (data_con_type (client s))
    /\ data_con_type (client s') = FTP_DATA_CONNECTION_NONE.
Proof.
  intros ctrl. unfold send_LIST_transfer, client_send_ctrl_msg. run.
  match goal with
  | |- context [client_open_data_connection ?st] =>
      destruct (client_open_data_connection_runs st)
        as [s1 [e_open [Hopen [Hstep [Htr1 [Ht1 [Hc1 [Hg1 [_ [_ Hd1]]]]]]]]]]
  end.
  rewrite Hopen. simpl in Htr1, Ht1, Hc1, Hd1.
  destruct devices.
  - match goal with
    | |- context [send_LIST_devices P ?dl s1] =>
        destruct (send_LIST_devices_runs P dl s1)
          as [s2 [loop [Hloop [Hc2 [Htr2 Hstream]]]]]
    end.
    rewrite Hloop.
    destruct (client_close_data_connection_runs s2)
      as [s3 [closes [Hclose [Hsteps [_ [Htr3 [Ht3 Hc3]]]]]]].
    rewrite Hclose. simpl.
    exists (mkState (client s3) (globals s3)
              (log (NetSend (ctrl_sockfd (client s3))
                      ("226 Transfer complete." ++ nl)) (world s3))).
    exists e_open, loop, closes. split; [reflexivity|].
    simpl. rewrite Htr3, Htr2, Htr1, Hc3, Hc2, Hc1.
    rewrite Hc2, Ht1 in Hsteps.
    repeat split; auto.
    rewrite <- !app_assoc. reflexivity.
  - match goal with
    | |- context [send_LIST_entries P ?k dir ?st] =>
        destruct (send_LIST_entries_runs P dir (w_dirents (world s)) k st)
          as [s2 [loop [Hloop [Hc2 [Htr2 Hstream]]]]];
          [exact Hd1 | rewrite Hd1; lia |]
    end.
    rewrite Hloop. simpl.
    match goal with
    | |- context [client_close_data_connection ?st] =>
        destruct (client_close_data_connection_runs st)
          as [s3 [closes [Hclose [Hsteps [_ [Htr3 [Ht3 Hc3]]]]]]]
    end.
    rewrite Hclose. simpl in Hsteps, Htr3, Hc3. simpl.
    eexists. exists e_open, loop, closes. split; [reflexivity|].
    simpl. rewrite Htr3, Htr2, Htr1, Hc3, Hc2, Hc1.
    rewrite Hc2, Ht1 in Hsteps.
    repeat split; auto.
    rewrite <- !app_assoc. reflexivity.
Qed.

(** ** The order of the steps of a transfer *)

Lemma steps_app (a b : list Event) : steps (a ++ b) = steps a ++ steps b.
Proof.
  induction a as [|e a IH]; simpl; [reflexivity|].
  destruct (step_of e); simpl; rewrite IH; reflexivity.
Qed.

Lemma steps_one (e : Event) (st : Step) :
  step_of e = Some st -> steps [e] = [st].
Proof. intros H. simpl. rewrite H. reflexivity. Qed.

Lemma steps_stream (l : list Event) :
  Forall (fun e => step_of e = Some Stream) l ->
  steps l = repeat Stream (List.length l).
Proof.
  intros H. induction H as [|e l He Hl IH]; simpl; [reflexivity|].
  rewrite He, IH. reflexivity.
Qed.

Lemma stream_block_in_order (k : nat) (t : list Step) :
  in_step_order (Stream :: t) = true ->
  in_step_order (Stream :: repeat Stream k ++ t) = true.
Proof.
  intros H. induction k as [|k IH]; [exact H|].
  change (in_step_order (Stream :: Stream :: repeat Stream k ++ t) = true).
  change (in_step_order (Stream :: repeat Stream k ++ t) = true) in IH.
  simpl. simpl in IH. exact IH.
Qed.

(** The order of a listing is the expected one. *)
Lemma list_steps_in_order (root : bool) (k : nat) (t : DataConnectionType) :
  in_step_order
    ((if root then [] else [Validate]) ++ [Reply150; OpenData]
     ++ repeat Stream k ++ (if root then [] else [CloseFile])
     ++ close_steps t ++ [FinalStatus]) = true.
Proof.
  destruct k as [|k].
  - destruct root, t; reflexivity.
  - assert (H : in_step_order
                  (Stream :: repeat Stream k
                   ++ (if root then [] else [CloseFile])
                   ++ close_steps t ++ [FinalStatus]) = true).
    { apply stream_block_in_order. destruct root, t; reflexivity. }
    destruct root; simpl; simpl in H; exact H.
Qed.

(** C2, as stated, fails: the passive session of [state_pasv] retrieves a
    file of one block.  The data connection is accepted before the 150 line
    is sent, and the 226 line is sent before the data sockets are closed. *)
Lemma retr_steps_out_of_order :
  exists s',
    cmd_RETR_func vita state_retr = Some (tt, s')
    /\ steps (new_events state_retr s')
       = [Validate; OpenData; Reply150; Stream; Stream; Stream; CloseFile;
          FinalStatus; CloseData; CloseData]
    /\ in_step_order (steps (new_events state_retr s')) = false.
Proof.
  eexists. split; [vm_compute; reflexivity|].
  split; vm_compute; reflexivity.
Qed.

(** C2, amended: a LIST whose target is there sends the 150 line, opens the
    data connection, streams, closes the directory (when it opened one),
    closes the data connection and then sends the 226 line: the expected
    order.  RETR, STOR and APPE, once the file is open and the buffer
    allocated, open the data connection before they send the 150 line, and
    after the stream close the file, send the final status and only then
    close the data connection.  All four leave the connection type NONE. *)
Theorem transfer_step_order (P : Platform) (s : State)
  (Hmalloc : malloc_ok P FILE_BUF_SIZE = true) :
  let t := data_con_type (client s) in
  (forall path,
      let root := strcmp_eq path "/" in
      root = true \/ 0 <= io_dopen P (get_vita_path path) ->
      exists s' evs k,
        send_LIST P path s = Some (tt, s')
        /\ w_trace (world s') = w_trace (world s) ++ evs
        /\ steps evs
           = (if root then [] else [Validate]) ++ [Reply150; OpenData]
             ++ repeat Stream k ++ (if root then [] else [CloseFile])
             ++ close_steps t ++ [FinalStatus]
        /\ in_step_order (steps evs) = true
        /\ data_con_type (client s') = FTP_DATA_CONNECTION_NONE)
  /\ (forall path,
      0 <= io_open P path (SCE_O_RDONLY P) ->
      exists s' evs k,
        send_file P path s = Some (tt, s')
        /\ w_trace (world s') = w_trace (world s) ++ evs
        /\ steps evs
           = [Validate; OpenData; Reply150] ++ repeat Stream k
             ++ [CloseFile; FinalStatus] ++ close_steps t
        /\ data_con_type (client s') = FTP_DATA_CONNECTION_NONE)
  /\ (forall path,
      0 <= io_open P path
             (Z.lor (Z.lor (SCE_O_CREAT P) (SCE_O_WRONLY P)) (SCE_O_TRUNC P)) ->
      exists s' evs k,
        receive_file P path s = Some (tt, s')
        /\ w_trace (world s') = w_trace (world s) ++ evs
        /\ steps evs
           = [Validate; OpenData; Reply150] ++ repeat Stream k
             ++ [CloseFile; FinalStatus] ++ close_steps t
        /\ data_con_type (client s') = FTP_DATA_CONNECTION_NONE)
  /\ (forall path,
      0 <= io_open P path (Z.lor (SCE_O_WRONLY P) (SCE_O_CREAT P)) ->
      exists s' evs k,
        append_file P path s = Some (tt, s')
        /\ w_trace (world s') = w_trace (world s) ++ evs
        /\ steps evs
           = [Validate; OpenData; Reply150] ++ repeat Stream k
             ++ [CloseFile; FinalStatus] ++ close_steps t
        /\ data_con_type (client s') = FTP_DATA_CONNECTION_NONE).
Proof.
  intros t. split; [|split; [|split]].
  - (* LIST *)
    intros path root Hthere.
    assert (Hshape : forall (s0 : State) (pre : list Event) (dir : Z),
               client s0 = client s ->
               steps pre = (if root then [] else [Validate]) ->
               exists s' evs k,
                 send_LIST_transfer P root dir s0 = Some (tt, s')
                 /\ w_trace (world s') = w_trace (world s0) ++ evs
                 /\ steps (pre ++ evs)
                    = (if root then [] else [Validate]) ++ [Reply150; OpenData]
                      ++ repeat Stream k ++ (if root then [] else [CloseFile])
                      ++ close_steps t ++ [FinalStatus]
                 /\ data_con_type (client s') = FTP_DATA_CONNECTION_NONE).
    { intros s0 pre dir Hc0 Hpre.
      destruct (send_LIST_transfer_runs P s0 root dir)
        as [s' [e_open [loop [closes [Hrun [Htr [Ho [Hl [Hcl Hnone]]]]]]]]].
      exists s'. eexists. exists (List.length loop).
      split; [exact Hrun|]. split; [exact Htr|]. split; [|exact Hnone].
      rewrite !steps_app, Hpre, (steps_stream loop Hl), Hcl, Hc0. fold t.
      change (steps [NetSend (ctrl_sockfd (client s))
                       ("150 Opening ASCII mode data transfer for LIST." ++ nl);
                     e_open])
        with (Reply150 :: steps [e_open]).
      rewrite (steps_one e_open OpenData Ho).
      destruct root; reflexivity. }
    unfold send_LIST. fold root. destruct root eqn:Er.
    + destruct (Hshape s [] 0 eq_refl eq_refl)
        as [s' [evs [k [Hrun [Htr [Hsteps Hnone]]]]]].
      exists s', evs, k. simpl in Hsteps.
      split; [exact Hrun|]. split; [exact Htr|].
      split; [exact Hsteps|]. split; [|exact Hnone].
      rewrite Hsteps. apply (list_steps_in_order true k t).
    + destruct Hthere as [F|Hdir]; [discriminate|].
      unfold sceIoDopen. run.
      apply Z.ltb_ge in Hdir. rewrite Hdir.
      match goal with
      | |- context [send_LIST_transfer P false ?dir ?st] =>
          destruct (Hshape st [IoDopen (get_vita_path path) dir] dir
                      eq_refl eq_refl)
            as [s' [evs [k [Hrun [Htr [Hsteps Hnone]]]]]]
      end.
      simpl in Htr.
      exists s', (IoDopen (get_vita_path path)
                    (io_dopen P (get_vita_path path)) :: evs), k.
      split; [exact Hrun|]. split.
      * rewrite Htr, <- app_assoc. reflexivity.
      * split; [exact Hsteps|]. split; [|exact Hnone].
        change (IoDopen (get_vita_path path) (io_dopen P (get_vita_path path))
                :: evs)
          with ([IoDopen (get_vita_path path) (io_dopen P (get_vita_path path))]
                ++ evs).
        rewrite Hsteps. apply (list_steps_in_order false k t).
  - (* RETR *)
    intros path Hfd.
    destruct (send_file_runs P s path Hfd Hmalloc)
      as [s' [e_open [loop [closes [Hrun [Htr [Ho [Hl [Hcl Hnone]]]]]]]]].
    exists s'. eexists. exists (List.length loop).
    split; [exact Hrun|]. split; [exact Htr|]. split; [|exact Hnone].
    rewrite !steps_app, (steps_stream loop Hl), Hcl. fold t.
    change (steps [IoOpen path (SCE_O_RDONLY P) (io_open P path (SCE_O_RDONLY P));
                   Malloc FILE_BUF_SIZE true; e_open;
                   NetSend (ctrl_sockfd (client s))
                     ("150 Opening Image mode data transfer." ++ nl)])
      with (Validate :: steps ([e_open] ++ [NetSend (ctrl_sockfd (client s))
                     ("150 Opening Image mode data transfer." ++ nl)])).
    rewrite steps_app, (steps_one e_open OpenData Ho). reflexivity.
  - (* STOR *)
    intros path Hfd. unfold receive_file, sceIoOpen. run.
    apply Z.leb_le in Hfd. rewrite Hfd.
    match goal with
    | |- context [receive_into P path ?fd ?st] =>
        destruct (receive_into_runs P st path fd Hmalloc)
          as [s' [e_open [loop [closes [Hrun [Htr [Ho [Hl [Hcl [_ Hnone]]]]]]]]]]
    end.
    cbn [w_trace world client] in Htr, Hcl. rewrite <- app_assoc in Htr.
    exists s'. eexists. exists (List.length loop).
    split; [exact Hrun|]. split; [exact Htr|]. split; [|exact Hnone].
    rewrite !steps_app, (steps_stream loop Hl), Hcl. fold t.
    simpl. rewrite Ho.
    destruct (recv_end (w_data_in (world s)) =? 0); reflexivity.
  - (* APPE *)
    intros path Hfd. unfold append_file, sceIoOpen. run.
    apply Z.leb_le in Hfd. rewrite Hfd.
    match goal with
    | |- context [receive_into P path ?fd ?st] =>
        destruct (receive_into_runs P st path fd Hmalloc)
          as [s' [e_open [loop [closes [Hrun [Htr [Ho [Hl [Hcl [_ Hnone]]]]]]]]]]
    end.
    cbn [w_trace world client] in Htr, Hcl. rewrite <- !app_assoc in Htr.
    exists s'. eexists. exists (List.length loop).
    split; [exact Hrun|]. split; [exact Htr|]. split; [|exact Hnone].
    rewrite !steps_app, (steps_stream loop Hl), Hcl. fold t.
    simpl. rewrite Ho.
    destruct (recv_end (w_data_in (world s)) =? 0); reflexivity.
Qed.

(** The passive session of [state_pasv] retrieves a file. *)
Lemma transfer_step_order_witness :
  exists s' evs k,
    send_file vita (Some "ux0:/a.bin"%string) state_pasv = Some (tt, s')
    /\ w_trace (world s') = w_trace (world state_pasv) ++ evs
    /\ steps evs
       = [Validate; OpenData; Reply150] ++ repeat Stream k
         ++ [CloseFile; FinalStatus] ++ [CloseData; CloseData]
    /\ data_con_type (client s') = FTP_DATA_CONNECTION_NONE.
Proof.
  destruct (transfer_step_order vita state_pasv eq_refl) as [_ [H _]].
  apply (H (Some "ux0:/a.bin"%string)). vm_compute. discriminate.
Defined.

(** ** The bare root *)

Lemma get_vita_path_spec (p : string) :
  get_vita_path p
  = match p with
    | String _ (String _ _ as rest) => Some rest
    | _ => None
    end.
Proof.
  unfold get_vita_path. destruct p as [|c [|d r]]; reflexivity.
Qed.

(** A retrieval starts with the open of the path it is given, whatever
    follows. *)
Lemma send_file_starts (P : Platform) (path : option string) (s : State) :
  exists s' rest,
    send_file P path s = Some (tt, s')
    /\ w_trace (world s')
       = w_trace (world s)
         ++ IoOpen path (SCE_O_RDONLY P) (io_open P path (SCE_O_RDONLY P))
            :: rest.
Proof.
  destruct (0 <=? io_open P path (SCE_O_RDONLY P)) eqn:Efd.
  - destruct (malloc_ok P FILE_BUF_SIZE) eqn:Em.
    + apply Z.leb_le in Efd.
      destruct (send_file_runs P s path Efd Em)
        as [s' [e_open [loop [closes [Hrun [Htr _]]]]]].
      exists s'. eexists. split; [exact Hrun|]. rewrite Htr. reflexivity.
    + unfold send_file, sceIoOpen, malloc, client_send_ctrl_msg. run.
      rewrite Efd, Em. simpl. eexists. eexists. split; [reflexivity|].
      simpl. rewrite <- !app_assoc. reflexivity.
  - unfold send_file, sceIoOpen, client_send_ctrl_msg. run.
    rewrite Efd. simpl. eexists. eexists. split; [reflexivity|].
    simpl. rewrite <- !app_assoc. reflexivity.
Qed.

Lemma receive_into_returns (P : Platform) (path : option string) (fd : Z)
  (s : State) :
  exists s' rest,
    receive_into P path fd s = Some (tt, s')
    /\ w_trace (world s') = w_trace (world s) ++ rest.
Proof.
  destruct (malloc_ok P FILE_BUF_SIZE) eqn:Em.
  - destruct (receive_into_runs P s path fd Em)
      as [s' [e_open [loop [closes [Hrun [Htr _]]]]]].
    exists s'. eexists. split; [exact Hrun | exact Htr].
  - unfold receive_into, malloc, client_send_ctrl_msg. run.
    rewrite Em. simpl. eexists. eexists. split; [reflexivity|].
    simpl. rewrite <- !app_assoc. reflexivity.
Qed.

Lemma receive_file_starts (P : Platform) (path : option string) (s : State) :
  let flags := Z.lor (Z.lor (SCE_O_CREAT P) (SCE_O_WRONLY P)) (SCE_O_TRUNC P) in
  exists s' rest,
    receive_file P path s = Some (tt, s')
    /\ w_trace (world s')
       = w_trace (world s) ++ IoOpen path flags (io_open P path flags) :: rest.
Proof.
  intros flags. unfold receive_file, sceIoOpen. run. fold flags.
  destruct (0 <=? io_open P path flags) eqn:Efd.
  - match goal with
    | |- context [receive_into P path ?fd ?st] =>
        destruct (receive_into_returns P path fd st) as [s' [rest [Hrun Htr]]]
    end.
    exists s', rest. split; [exact Hrun|]. rewrite Htr. simpl.
    rewrite <- app_assoc. reflexivity.
  - unfold client_send_ctrl_msg. run. eexists. eexists.
    split; [reflexivity|]. simpl. rewrite <- !app_assoc. reflexivity.
Qed.

Lemma append_file_starts (P : Platform) (path : option string) (s : State) :
  let flags := Z.lor (SCE_O_WRONLY P) (SCE_O_CREAT P) in
  exists s' rest,
    append_file P path s = Some (tt, s')
    /\ w_trace (world s')
       = w_trace (world s) ++ IoOpen path flags (io_open P path flags) :: rest.
Proof.
  intros flags. unfold append_file, sceIoOpen. run. fold flags.
  destruct (0 <=? io_open P path flags) eqn:Efd.
  - match goal with
    | |- context [receive_into P path ?fd ?st] =>
        destruct (receive_into_returns P path fd st) as [s' [rest [Hrun Htr]]]
    end.
    exists s', (IoLseek (io_open P path flags) :: rest).
    split; [exact Hrun|]. rewrite Htr. simpl.
    rewrite <- !app_assoc. reflexivity.
  - unfold client_send_ctrl_msg. run. eexists. eexists.
    split; [reflexivity|]. simpl. rewrite <- !app_assoc. reflexivity.
Qed.

(** C6, as stated, fails: the session of [state0] sends [DELE /].  The
    resolved path is the bare root, and [sceIoRemove] is called all the
    same, with the null path. *)
Lemma dele_root_calls_storage :
  gen_filepath state_dele_root = Some ("/"%string, state_dele_root)
  /\ new_events state_dele_root
       (state_after (cmd_DELE_func vita) state_dele_root)
     = [IoRemove None (-1); NetSend 5 ("550 Could not delete the file." ++ nl)]
  /\ ~ bare_root_kept_from_storage vita state_dele_root.
Proof.
  split; [reflexivity|]. split; [reflexivity|].
  intros H.
  specialize (H "/"%string (state_after (cmd_DELE_func vita) state_dele_root)
                eq_refl ltac:(simpl; lia) eq_refl).
  vm_compute in H. discriminate.
Qed.

(** C6, amended: for a line that carries an argument, the nine handlers
    behind [gen_filepath] translate the resolved path with [get_vita_path],
    which strips the first character of a path of two characters or more
    and gives no path (NULL) for a shorter one, and their first call is the
    storage operation on whatever the translation gave, a null path
    included.  (RNFR with a null path that the platform reports as existing
    copies from NULL, which is not defined.) *)
Theorem resolved_path_reaches_storage (P : Platform) (s : State) (arg : string)
  (Harg : sscanf_nonblank_line (recv_buffer (client s)) = Some arg) :
  let dest := dest_path_of (cur_path (client s)) arg in
  let native := get_vita_path dest in
  let starts_with (m : M unit) (e : Event) :=
    exists s' rest,
      m s = Some (tt, s') /\ w_trace (world s') = w_trace (world s) ++ e :: rest in
  native = match dest with
           | String _ (String _ _ as rest) => Some rest
           | _ => None
           end
  /\ ((strlen dest <= 1)%nat -> native = None)
  /\ starts_with (cmd_RETR_func P)
       (IoOpen native (SCE_O_RDONLY P) (io_open P native (SCE_O_RDONLY P)))
  /\ starts_with (cmd_STOR_func P)
       (IoOpen native
          (Z.lor (Z.lor (SCE_O_CREAT P) (SCE_O_WRONLY P)) (SCE_O_TRUNC P))
          (io_open P native
             (Z.lor (Z.lor (SCE_O_CREAT P) (SCE_O_WRONLY P)) (SCE_O_TRUNC P))))
  /\ starts_with (cmd_APPE_func P)
       (IoOpen native (Z.lor (SCE_O_WRONLY P) (SCE_O_CREAT P))
          (io_open P native (Z.lor (SCE_O_WRONLY P) (SCE_O_CREAT P))))
  /\ starts_with (cmd_DELE_func P) (IoRemove native (io_remove P native))
  /\ starts_with (cmd_RMD_func P) (IoRmdir native (io_rmdir P native))
  /\ starts_with (cmd_MKD_func P) (IoMkdir native (io_mkdir P native))
  /\ (fst (io_getstat P native) < 0 \/ native <> None ->
      starts_with (cmd_RNFR_func P)
        (IoGetstat native (fst (io_getstat P native))))
  /\ starts_with (cmd_RNTO_func P)
       (IoRename (rename_path (client s)) native
          (io_rename P (rename_path (client s)) native))
  /\ starts_with (cmd_SIZE_func P)
       (IoGetstat native (fst (io_getstat P native))).
Proof.
  intros dest native starts_with.
  pose proof (gen_filepath_runs s arg Harg) as Hgen. fold dest in Hgen.
  split; [apply get_vita_path_spec|]. split.
  { intros Hlen. unfold native. rewrite get_vita_path_spec.
    destruct dest as [|c [|d r]]; try reflexivity. simpl in Hlen. lia. }
  unfold starts_with.
  split; [|split; [|split; [|split; [|split; [|split; [|split; [|split]]]]]]].
  - unfold cmd_RETR_func. rewrite (bind_runs _ _ _ _ _ Hgen).
    apply send_file_starts.
  - unfold cmd_STOR_func. rewrite (bind_runs _ _ _ _ _ Hgen).
    apply receive_file_starts.
  - unfold cmd_APPE_func. rewrite (bind_runs _ _ _ _ _ Hgen).
    apply append_file_starts.
  - unfold cmd_DELE_func. rewrite (bind_runs _ _ _ _ _ Hgen).
    unfold delete_file, sceIoRemove, client_send_ctrl_msg. run. fold native.
    destruct (0 <=? io_remove P native); simpl;
      eexists; eexists; (split; [reflexivity|]); simpl;
      rewrite <- !app_assoc; reflexivity.
  - unfold cmd_RMD_func. rewrite (bind_runs _ _ _ _ _ Hgen).
    unfold delete_dir, sceIoRmdir, client_send_ctrl_msg. run. fold native.
    destruct (0 <=? io_rmdir P native); simpl;
      [|destruct (to_uint32 (io_rmdir P native) =? 2147549274); simpl];
      eexists; eexists; (split; [reflexivity|]); simpl;
      rewrite <- !app_assoc; reflexivity.
  - unfold cmd_MKD_func. rewrite (bind_runs _ _ _ _ _ Hgen).
    unfold create_dir, sceIoMkdir, client_send_ctrl_msg. run. fold native.
    destruct (0 <=? io_mkdir P native); simpl;
      eexists; eexists; (split; [reflexivity|]); simpl;
      rewrite <- !app_assoc; reflexivity.
  - intros Hside.
    unfold cmd_RNFR_func. rewrite (bind_runs _ _ _ _ _ Hgen).
    unfold file_exists, sceIoGetstat, client_send_ctrl_msg. run. fold native.
    destruct (0 <=? fst (io_getstat P native)) eqn:E; simpl.
    + destruct native as [p|] eqn:En.
      * run. eexists. eexists. split; [reflexivity|]. simpl.
        rewrite <- !app_assoc. reflexivity.
      * apply Z.leb_le in E. destruct Hside as [Hneg|Hnn]; [lia|].
        contradiction.
    + eexists. eexists. split; [reflexivity|]. simpl.
      rewrite <- !app_assoc. reflexivity.
  - unfold cmd_RNTO_func. rewrite (bind_runs _ _ _ _ _ Hgen).
    unfold sceIoRename, client_send_ctrl_msg. run. fold native.
    destruct (io_rename P (rename_path (client s)) native <? 0); simpl;
      eexists; eexists; (split; [reflexivity|]); simpl;
      rewrite <- !app_assoc; reflexivity.
  - unfold cmd_SIZE_func. rewrite (bind_runs _ _ _ _ _ Hgen).
    unfold sceIoGetstat, client_send_ctrl_msg. run. fold native.
    destruct (fst (io_getstat P native) <? 0); simpl;
      eexists; eexists; (split; [reflexivity|]); simpl;
      rewrite <- !app_assoc; reflexivity.
Qed.

(** The session of [state0] asks for the size of [/ux0:/a.bin]: the stat is
    on [ux0:/a.bin]. *)
Lemma resolved_path_reaches_storage_witness :
  exists s' rest,
    cmd_SIZE_func vita (with_line ("SIZE /ux0:/a.bin" ++ cr ++ nl) state0)
    = Some (tt, s')
    /\ w_trace (world s') = IoGetstat (Some "ux0:/a.bin"%string) 0 :: rest.
Proof.
  destruct (resolved_path_reaches_storage vita
              (with_line ("SIZE /ux0:/a.bin" ++ cr ++ nl) state0)
              "/ux0:/a.bin" eq_refl)
    as [_ [_ [_ [_ [_ [_ [_ [_ [_ [_ H]]]]]]]]]].
  exact H.
Defined.

(** ** Shutdown *)

Lemma remove_Z_not_in (x : Z) (l : list Z) : ~ In x (remove_Z x l).
Proof.
  unfold remove_Z. intros H. apply filter_In in H. destruct H as [_ H].
  rewrite Z.eqb_refl in H. discriminate.
Qed.

Lemma remove_Z_incl (x y : Z) (l : list Z) : In y (remove_Z x l) -> In y l.
Proof.
  unfold remove_Z. intros H. apply filter_In in H. tauto.
Qed.

(** One turn of the walk: the aborts, then the wait, after which the thread
    of the session is over. *)
Lemma client_abort_and_wait_runs (P : Platform) (it : ClientInfo) (s : State) :
  exists s',
    client_abort_and_wait P it s = Some (tt, s')
    /\ client s' = client s
    /\ globals s' = globals s
    /\ w_trace (world s') = w_trace (world s) ++ session_shutdown P it
    /\ w_threads (world s') = remove_Z (thid it) (w_threads (world s)).
Proof.
  unfold client_abort_and_wait, session_shutdown. run.
  destruct (data_con_type it); run; eexists; repeat split; simpl;
    rewrite <- ?app_assoc; reflexivity.
Qed.

(** The walk over the registry: every session is aborted and waited for, in
    the order of the list, and no thread that was over comes back. *)
Lemma client_list_walk_runs (P : Platform) (l : list ClientInfo) :
  forall s : State,
    exists s',
      client_list_walk P l s = Some (tt, s')
      /\ client s' = client s
      /\ globals s' = globals s
      /\ w_trace (world s') = w_trace (world s) ++ flat_map (session_shutdown P) l
      /\ (forall c, In c l -> ~ In (thid c) (w_threads (world s')))
      /\ (forall x, In x (w_threads (world s')) -> In x (w_threads (world s))).
Proof.
  induction l as [|it l IH]; intros s.
  - exists s. simpl. rewrite app_nil_r. repeat split; auto.
  - destruct (client_abort_and_wait_runs P it s)
      as [s1 [Hrun1 [Hc1 [Hg1 [Htr1 Hth1]]]]].
    destruct (IH s1) as [s2 [Hrun2 [Hc2 [Hg2 [Htr2 [Hdone Hmono]]]]]].
    exists s2. split.
    + simpl. rewrite (bind_runs _ _ s s1 tt Hrun1). exact Hrun2.
    + split; [congruence|]. split; [congruence|]. split.
      * rewrite Htr2, Htr1. simpl. rewrite <- app_assoc. reflexivity.
      * split.
        -- intros c [Hc|Hc].
           ++ subst c. intros Hin. apply Hmono in Hin. rewrite Hth1 in Hin.
              exact (remove_Z_not_in _ _ Hin).
           ++ apply Hdone. exact Hc.
        -- intros x Hx. apply Hmono in Hx. rewrite Hth1 in Hx.
           exact (remove_Z_incl _ _ _ Hx).
Qed.

(** C1: [ftpvita_fini] on an initialised server closes the listening
    socket, waits for the server thread and then, for each session of the
    registry in turn, aborts the receive direction of its control socket,
    aborts both directions of its data socket when a data connection is
    open (and of the accepted socket when that connection is passive) and
    waits for the end of its thread.  When it returns, the thread of every
    session that was registered is over and the registry is empty. *)
Theorem shutdown_waits_for_every_session (P : Platform) (s : State)
  (Hinit : ftp_initialized (globals s) <> 0) :
  let g := globals s in
  exists s' teardown,
    ftpvita_fini P s = Some (tt, s')
    /\ w_trace (world s')
       = w_trace (world s)
         ++ [NetSocketClose (server_sockfd g);
             KernelWaitThreadEnd (server_thid g); KernelLockMutex]
         ++ flat_map (session_shutdown P) (client_list g)
         ++ [KernelUnlockMutex; KernelDeleteMutex]
         ++ teardown
    /\ Forall (fun e => e = NetCtlTerm \/ e = NetTerm \/ e = Free) teardown
    /\ (forall c, In c (client_list g) ->
                  ~ In (thid c) (w_threads (world s')))
    /\ client_list (globals s') = []
    /\ ftp_initialized (globals s') = 0.
Proof.
  intros g. unfold ftpvita_fini, client_list_thread_end. run. fold g.
  apply Z.eqb_neq in Hinit. fold g in Hinit. rewrite Hinit. simpl.
  match goal with
  | |- context [client_list_walk P ?l ?st] =>
      destruct (client_list_walk_runs P l st)
        as [s1 [Hrun [Hc [Hg [Htr [Hdone _]]]]]]
  end.
  rewrite Hrun. cbn [w_trace world globals client] in Hc, Hg, Htr.
  exists (state_after (ftpvita_fini P) s).
  exists ((if netctl_init g =? 0 then [NetCtlTerm] else [])
          ++ (if net_init g =? 0 then [NetTerm] else [])
          ++ (if net_memory g then [Free] else [])).
  unfold state_after, ftpvita_fini, client_list_thread_end. run. fold g.
  rewrite Hinit. simpl. rewrite Hrun.
  destruct (netctl_init g =? 0), (net_init g =? 0), (net_memory g); simpl;
    (split; [reflexivity|]);
    (split; [rewrite Htr, <- !app_assoc; reflexivity|]);
    (split; [repeat constructor; auto|]);
    (split; [exact Hdone|]); split; reflexivity.
Qed.

(** The server of [state0] with its two sessions, one of them with a
    passive data connection. *)
Lemma shutdown_waits_for_every_session_witness :
  exists s',
    ftpvita_fini vita state0 = Some (tt, s')
    /\ w_threads (world s') = []
    /\ w_trace (world s')
       = [NetSocketClose 4; KernelWaitThreadEnd 50; KernelLockMutex;
          NetSocketAbort 6 1; NetSocketAbort 9 3; NetSocketAbort 10 3;
          KernelWaitThreadEnd 101;
          NetSocketAbort 5 1; KernelWaitThreadEnd 100;
          KernelUnlockMutex; KernelDeleteMutex; NetCtlTerm; NetTerm; Free].
Proof.
  destruct (shutdown_waits_for_every_session vita state0
              ltac:(vm_compute; discriminate)) as [s' [td [Hrun _]]].
  exists s'. split; [exact Hrun|].
  vm_compute in Hrun. injection Hrun as <-. split; reflexivity.
Defined.

(** * Further properties *)

(** ** The mount table, counted *)

(** The first slot that satisfies a test, when there is one. *)
Lemma first_slot (p : Device -> bool) (l : list Device) :
  (forall d, In d l -> p d = false)
  \/ exists i d,
       nth_error l i = Some d /\ p d = true
       /\ forall j dj, (j < i)%nat -> nth_error l j = Some dj -> p dj = false.
Proof.
  induction l as [|h t IH].
  - left. intros d [].
  - destruct (p h) eqn:Eh.
    + right. exists O, h. repeat split; auto. intros j dj Hj. lia.
    + destruct IH as [Hall | [i [d [Hd [Hp Hb]]]]].
      * left. intros d [<-|Hd]; auto.
      * right. exists (S i), d. repeat split; auto.
        intros [|j] dj Hj Hdj; simpl in Hdj.
        -- inversion Hdj; subst. exact Eh.
        -- apply (Hb j); [lia | exact Hdj].
Qed.

Lemma count_valid_set (l : list Device) :
  forall i d x,
    nth_error l i = Some d ->
    (count_valid (array_set i x l) + (if is_valid d then 1 else 0)
     = count_valid l + (if is_valid x then 1 else 0))%nat.
Proof.
  unfold count_valid.
  induction l as [|h t IH]; intros [|i] d x Hd; simpl in Hd; try discriminate.
  - inversion Hd; subst. simpl.
    destruct (is_valid d), (is_valid x); simpl; lia.
  - simpl. specialize (IH i d x Hd).
    destruct (is_valid h); simpl; lia.
Qed.

(** X1: [ftpvita_add_device] returns 0 exactly when every one of the 16
    slots is valid, and then changes nothing; otherwise it returns 1, the
    number of valid slots grows by one and every slot but one is as it
    was. *)
Theorem add_device_counts (devname : string) (dl : list Device)
  (Hlen : List.length dl = MAX_DEVICES) :
  let r := fst (ftpvita_add_device devname dl) in
  let dl' := snd (ftpvita_add_device devname dl) in
  (r = 0 \/ r = 1)
  /\ (r = 0 <-> count_valid dl = MAX_DEVICES)
  /\ (r = 0 -> dl' = dl)
  /\ (r = 1 ->
      count_valid dl' = S (count_valid dl)
      /\ exists i,
           nth_error dl' i = Some (mkDevice devname 1)
           /\ forall j, j <> i -> nth_error dl' j = nth_error dl j).
Proof.
  intros r dl'. subst r dl'.
  destruct (first_slot (fun d => valid d =? 0) dl)
    as [Hall | [i [d [Hd [Hp Hb]]]]].
  - assert (E : ftpvita_add_device devname dl = (0, dl)).
    { apply add_device_from_full. intros j dj _ Hj.
      apply Z.eqb_neq. apply Hall. eapply nth_error_In; eauto. }
    rewrite E. simpl.
    assert (C : count_valid dl = MAX_DEVICES).
    { unfold count_valid. rewrite <- Hlen. f_equal.
      apply forallb_filter_id. apply forallb_forall. intros x Hx.
      unfold is_valid. rewrite (Hall x Hx). reflexivity. }
    split; [left; reflexivity|]. split; [tauto|].
    split; [reflexivity|]. intros F. discriminate.
  - apply Z.eqb_eq in Hp.
    assert (Hi : (i < List.length dl)%nat)
      by (apply nth_error_Some; congruence).
    assert (E : ftpvita_add_device devname dl
                = (1, array_set i (mkDevice devname 1) dl)).
    { apply (add_device_from_hit devname dl MAX_DEVICES 0 i d); auto; [lia|].
      intros j dj Hj Hdj. apply Z.eqb_neq. apply (Hb j dj); [lia | exact Hdj]. }
    rewrite E. simpl.
    pose proof (count_valid_set dl i d (mkDevice devname 1) Hd) as C.
    unfold is_valid in C at 1 2. rewrite Hp in C. simpl in C.
    split; [right; reflexivity|]. split.
    + split; [discriminate|]. intros F. exfalso.
      assert (L : (count_valid dl < List.length dl)%nat).
      { unfold count_valid. clear - Hd Hp.
        revert i Hd. induction dl as [|h t IH]; intros [|i] Hd; simpl in Hd;
          try discriminate.
        - inversion Hd; subst. simpl. unfold is_valid at 1. rewrite Hp. simpl.
          pose proof (filter_length_le is_valid t). lia.
        - simpl. specialize (IH i Hd). destruct (is_valid h); simpl; lia. }
      lia.
    + split; [discriminate|]. intros _. split; [lia|].
      exists i. split.
      * apply nth_error_array_set_same. exact Hi.
      * intros j Hj. apply nth_error_array_set_other. auto.
Qed.

(** The table after [ftpvita_init] takes a first mount. *)
Lemma add_device_counts_witness :
  fst (ftpvita_add_device "ux0:" device_list_init) = 1
  /\ count_valid (snd (ftpvita_add_device "ux0:" device_list_init)) = 1%nat.
Proof.
  destruct (add_device_counts "ux0:" device_list_init eq_refl)
    as [_ [_ [_ H]]].
  split; [reflexivity|]. destruct (H eq_refl) as [C _]. exact C.
Defined.

Lemma names_array_set (l : list Device) :
  forall i d v,
    nth_error l i = Some d ->
    map name (array_set i (mkDevice (name d) v) l) = map name l.
Proof.
  induction l as [|h t IH]; intros [|i] d v Hd; simpl in Hd; try discriminate.
  - inversion Hd; subst. reflexivity.
  - simpl. rewrite (IH i d v Hd). reflexivity.
Qed.

(** What [ftpvita_del_device] does, by cases on the first slot that holds
    the name. *)
Lemma del_device_cases (devname : string) (dl : list Device) :
  List.length dl = MAX_DEVICES ->
  (ftpvita_del_device devname dl = (0, dl)
   /\ forall d, In d dl -> name d <> devname)
  \/ exists i d,
       nth_error dl i = Some d /\ name d = devname
       /\ (forall j dj, (j < i)%nat -> nth_error dl j = Some dj ->
                        name dj <> devname)
       /\ ftpvita_del_device devname dl
          = (1, array_set i (mkDevice (name d) 0) dl).
Proof.
  intros Hlen.
  destruct (first_slot (fun d => String.eqb devname (name d)) dl)
    as [Hall | [i [d [Hd [Hp Hb]]]]].
  - left. split.
    + apply del_device_from_miss. intros j dj _ Hj F.
      assert (In dj dl) by (eapply nth_error_In; eauto).
      specialize (Hall dj H). rewrite F, String.eqb_refl in Hall. discriminate.
    + intros d Hin F. specialize (Hall d Hin).
      rewrite F, String.eqb_refl in Hall. discriminate.
  - right. apply String.eqb_eq in Hp. exists i, d.
    assert (Hbefore : forall j dj, (j < i)%nat -> nth_error dl j = Some dj ->
                                   name dj <> devname).
    { intros j dj Hj Hdj F. specialize (Hb j dj Hj Hdj).
      rewrite F, String.eqb_refl in Hb. discriminate. }
    repeat split; auto.
    apply (del_device_from_hit devname dl MAX_DEVICES 0 i d); auto.
    + assert (i < List.length dl)%nat by (apply nth_error_Some; congruence). lia.
    + intros j dj Hj. apply Hbefore. lia.
Qed.

(** X2: [ftpvita_del_device] returns 0 exactly when no slot holds the name,
    and then changes nothing.  In every case it leaves the names of all
    slots as they are and makes no slot valid: the number of valid slots
    stays or drops by one. *)
Theorem del_device_effect (devname : string) (dl : list Device)
  (Hlen : List.length dl = MAX_DEVICES) :
  let r := fst (ftpvita_del_device devname dl) in
  let dl' := snd (ftpvita_del_device devname dl) in
  (r = 0 \/ r = 1)
  /\ (r = 0 <-> forall d, In d dl -> name d <> devname)
  /\ (r = 0 -> dl' = dl)
  /\ map name dl' = map name dl
  /\ (count_valid dl' <= count_valid dl <= S (count_valid dl'))%nat.
Proof.
  intros r dl'. subst r dl'.
  destruct (del_device_cases devname dl Hlen)
    as [[E Hall] | [i [d [Hd [Hn [Hb E]]]]]]; rewrite E; simpl.
  - split; [left; reflexivity|]. split; [tauto|].
    split; [reflexivity|]. split; [reflexivity|]. lia.
  - pose proof (count_valid_set dl i d (mkDevice (name d) 0) Hd) as C.
    change (is_valid (mkDevice (name d) 0)) with false in C.
    split; [right; reflexivity|]. split.
    + split; [discriminate|]. intros Hall. exfalso.
      apply (Hall d); [eapply nth_error_In; eauto | exact Hn].
    + split; [discriminate|]. split; [apply names_array_set; exact Hd|].
      destruct (is_valid d); lia.
Qed.

(** A table with one mount, asked to drop another. *)
Lemma del_device_effect_witness :
  ftpvita_del_device "ur0:" (snd (ftpvita_add_device "ux0:" device_list_init))
  = (0, snd (ftpvita_add_device "ux0:" device_list_init)).
Proof.
  pose proof (del_device_effect "ur0:"
                (snd (ftpvita_add_device "ux0:" device_list_init)) eq_refl)
    as [_ [_ [H _]]].
  rewrite <- (H eq_refl) at 2. reflexivity.
Defined.

(** X3: a mount that was added can be dropped again: after an
    [ftpvita_add_device] that returned 1, [ftpvita_del_device] with the same
    name returns 1 and the number of valid slots is what it was before the
    two calls (the slot that is cleared is the first that holds the name,
    which need not be the one that was filled). *)
Theorem add_then_del_device (devname : string) (dl : list Device)
  (Hlen : List.length dl = MAX_DEVICES)
  (Hadd : fst (ftpvita_add_device devname dl) = 1) :
  let dl1 := snd (ftpvita_add_device devname dl) in
  fst (ftpvita_del_device devname dl1) = 1
  /\ count_valid (snd (ftpvita_del_device devname dl1)) = count_valid dl.
Proof.
  intros dl1.
  destruct (first_slot (fun d => valid d =? 0) dl)
    as [Hall | [i [d [Hd [Hp Hb]]]]].
  - exfalso.
    assert (E : ftpvita_add_device devname dl = (0, dl)).
    { apply add_device_from_full. intros j dj _ Hj.
      apply Z.eqb_neq. apply Hall. eapply nth_error_In; eauto. }
    rewrite E in Hadd. discriminate.
  - apply Z.eqb_eq in Hp.
    assert (Hi : (i < List.length dl)%nat)
      by (apply nth_error_Some; congruence).
    assert (E : ftpvita_add_device devname dl
                = (1, array_set i (mkDevice devname 1) dl)).
    { apply (add_device_from_hit devname dl MAX_DEVICES 0 i d); auto; [lia|].
      intros j dj Hj Hdj. apply Z.eqb_neq. apply (Hb j dj); [lia | exact Hdj]. }
    assert (E1 : dl1 = array_set i (mkDevice devname 1) dl)
      by (unfold dl1; rewrite E; reflexivity).
    assert (Hlen1 : List.length dl1 = MAX_DEVICES)
      by (rewrite E1, array_set_length; exact Hlen).
    pose proof (count_valid_set dl i d (mkDevice devname 1) Hd) as C1.
    unfold is_valid in C1 at 1 2. rewrite Hp in C1. simpl in C1.
    rewrite <- E1 in C1.
    destruct (del_device_cases devname dl1 Hlen1)
      as [[_ Hall] | [k [dk [Hk [Hn [Hbk E2]]]]]].
    + exfalso. apply (Hall (mkDevice devname 1)); [|reflexivity].
      apply (nth_error_In dl1 i). rewrite E1.
      apply nth_error_array_set_same. exact Hi.
    + rewrite E2. simpl. split; [reflexivity|].
      pose proof (count_valid_set dl1 k dk (mkDevice (name dk) 0) Hk) as C2.
      change (is_valid (mkDevice (name dk) 0)) with false in C2.
      assert (Vk : is_valid dk = true).
      { destruct (Nat.eq_dec k i) as [->|Hne].
        - rewrite E1, nth_error_array_set_same in Hk by exact Hi.
          inversion Hk; subst. reflexivity.
        - assert (Hlt : (k < i)%nat).
          { destruct (Nat.lt_ge_cases k i) as [L|G]; [exact L|].
            exfalso. apply (Hbk i (mkDevice devname 1)); [lia| |reflexivity].
            rewrite E1. apply nth_error_array_set_same. exact Hi. }
          rewrite E1, nth_error_array_set_other in Hk by lia.
          unfold is_valid. rewrite (Hb k dk Hlt Hk). reflexivity. }
      rewrite Vk in C2. lia.
Qed.

(** A mount added to the table of [ftpvita_init] and dropped again. *)
Lemma add_then_del_device_witness :
  count_valid
    (snd (ftpvita_del_device "ux0:"
            (snd (ftpvita_add_device "ux0:" device_list_init))))
  = count_valid device_list_init.
Proof.
  exact (proj2 (add_then_del_device "ux0:" device_list_init eq_refl eq_refl)).
Defined.

(** ** The listing of the mounts *)

Lemma sent_lines_app (a b : list Event) :
  sent_lines (a ++ b) = sent_lines a ++ sent_lines b.
Proof.
  induction a as [|e a IH]; simpl; [reflexivity|].
  destruct e; simpl; rewrite ?IH; reflexivity.
Qed.

Lemma open_event_sends_nothing (e : Event) :
  step_of e = Some OpenData -> sent_lines [e] = [].
Proof.
  destruct e; simpl; intros H; try reflexivity.
  destruct (prefix "150 " msg); [discriminate|].
  destruct (prefix "226 " msg || prefix "426 " msg || prefix "550 " msg)%bool;
    discriminate.
Qed.

Lemma closes_send_nothing (evs : list Event) :
  forallb is_socket_close evs = true -> sent_lines evs = [].
Proof.
  induction evs as [|e evs IH]; simpl; [reflexivity|].
  intros H. apply andb_true_iff in H. destruct H as [He Hr].
  destruct e; simpl in He; try discriminate. apply IH. exact Hr.
Qed.

(** The loop over the mount table sends one line for every valid slot, in
    the order of the slots. *)
Lemma send_LIST_devices_lines (P : Platform) (dl : list Device) :
  forall s : State,
    exists s' evs,
      send_LIST_devices P dl s = Some (tt, s')
      /\ client s' = client s
      /\ w_trace (world s') = w_trace (world s) ++ evs
      /\ sent_lines evs = map (device_line P) (filter is_valid dl).
Proof.
  induction dl as [|d dl IH]; intros s; simpl.
  - exists s, []. rewrite app_nil_r. repeat split.
  - unfold is_valid at 1. destruct (valid d =? 0); simpl.
    + unfold bind at 1. unfold ret at 1.
      destruct (IH s) as [s' [evs H]]. exists s', evs. exact H.
    + unfold sceIoGetstat. run. rewrite client_send_data_msg_runs. simpl.
      match goal with
      | |- context [send_LIST_devices P dl ?st] =>
          destruct (IH st) as [s' [evs [Hrun [Hc [Htr Hlines]]]]]
      end.
      simpl in Hc, Htr.
      exists s'. eexists. split; [exact Hrun|]. split; [exact Hc|].
      split.
      * rewrite Htr, <- !app_assoc. simpl. reflexivity.
      * simpl. rewrite Hlines. reflexivity.
Qed.

(** The lines of a LIST of [/]. *)
Lemma send_LIST_root_lines (P : Platform) (s : State) :
  exists s' evs,
    send_LIST P "/" s = Some (tt, s')
    /\ w_trace (world s') = w_trace (world s) ++ evs
    /\ sent_lines evs
       = [("150 Opening ASCII mode data transfer for LIST." ++ nl)%string]
         ++ map (device_line P)
              (filter is_valid (firstn MAX_DEVICES (device_list (globals s))))
         ++ [("226 Transfer complete." ++ nl)%string].
Proof.
  unfold send_LIST. change (strcmp_eq "/" "/") with true. cbv iota.
  unfold send_LIST_transfer, client_send_ctrl_msg. run.
  match goal with
  | |- context [client_open_data_connection ?st] =>
      destruct (client_open_data_connection_runs st)
        as [s1 [e_open [Hopen [Hstep [Htr1 [Ht1 [Hc1 [Hg1 _]]]]]]]]
  end.
  rewrite Hopen. simpl in Htr1, Ht1, Hc1, Hg1.
  match goal with
  | |- context [send_LIST_devices P ?dl s1] =>
      destruct (send_LIST_devices_lines P dl s1)
        as [s2 [loop [Hloop [Hc2 [Htr2 Hlines]]]]]
  end.
  rewrite Hloop.
  destruct (client_close_data_connection_runs s2)
    as [s3 [closes [Hclose [_ [Hcl [Htr3 _]]]]]].
  rewrite Hclose. simpl.
  eexists.
  exists ([NetSend (ctrl_sockfd (client s))
             ("150 Opening ASCII mode data transfer for LIST." ++ nl)]
          ++ [e_open] ++ loop ++ closes
          ++ [NetSend (ctrl_sockfd (client s3)) ("226 Transfer complete." ++ nl)]).
  split; [reflexivity|]. split.
  - simpl. rewrite Htr3, Htr2, Htr1. rewrite <- !app_assoc. reflexivity.
  - rewrite !sent_lines_app, (open_event_sends_nothing e_open Hstep),
      (closes_send_nothing closes Hcl), Hlines, Hg1.
    reflexivity.
Qed.


(** ** Lines of a listing *)

Lemma substring_length_le (m : nat) :
  forall (n : nat) (s : string), (String.length (substring n m s) <= m)%nat.
Proof.
  induction m as [|m IH]; intros n s.
  - revert n. induction s as [|c s IHs]; intros [|n]; simpl; auto.
  - revert n. induction s as [|c s IHs]; intros [|n]; simpl; auto; try lia.
    specialize (IH O s). lia.
Qed.

(** X5: a line of a listing never has more than [n - 1] characters (511
    in [send_LIST]), whatever the name of the entry, and, when there is room
    for a character at all, starts with [d] for a directory and [-] for a
    file. *)
Theorem list_line_bounded (P : Platform) (n : nat) (dir : bool)
  (file_size month_n day_n hour minute : Z) (filename : string) :
  let line := gen_list_format P n dir file_size month_n day_n hour minute
                filename in
  (String.length line <= n - 1)%nat
  /\ ((2 <= n)%nat ->
      exists rest, line = String (if dir then "d"%char else "-"%char) rest).
Proof.
  intros line. subst line. unfold gen_list_format. split.
  - apply substring_length_le.
  - intros Hn. destruct n as [|[|k]]; try lia.
    change (S (S k) - 1)%nat with (S k).
    destruct dir; cbn [String.append substring]; eexists; reflexivity.
Qed.

(** X6: the month of a timestamp is an unsigned 16-bit value.  For 1 and
    above the name is an entry of [num_to_month], taken modulo 12 (13 is
    [Jan] again); for 0 the index is -1 and the name is read from before
    the table. *)
Theorem month_name_range (P : Platform) (month_n : Z)
  (Hrange : 0 <= month_n < 2 ^ 16) :
  (month_n = 0 /\ month_name P month_n = month_out_of_range P (-1))
  \/ (1 <= month_n
      /\ month_name P month_n
         = nth (Z.to_nat ((month_n - 1) mod 12)) num_to_month EmptyString
      /\ In (month_name P month_n) num_to_month).
Proof.
  destruct (Z.eq_dec month_n 0) as [->|Hne].
  - left. split; reflexivity.
  - right. assert (H1 : 1 <= month_n) by lia. split; [exact H1|].
    unfold month_name. rewrite Z.rem_mod_nonneg by lia.
    pose proof (Z.mod_pos_bound (month_n - 1) 12 ltac:(lia)) as Hb.
    assert (E : (0 <=? (month_n - 1) mod 12) && ((month_n - 1) mod 12 <? 12)
                = true).
    { apply andb_true_iff. split; [apply Z.leb_le | apply Z.ltb_lt]; lia. }
    rewrite E. split; [reflexivity|].
    apply nth_In. change (List.length num_to_month) with 12%nat. lia.
Qed.

(** An entry stamped in December. *)
Lemma month_name_range_witness : month_name vita 12 = "Dec"%string.
Proof.
  destruct (month_name_range vita 12 ltac:(lia)) as [[F _] | [_ [E _]]].
  - discriminate.
  - rewrite E. reflexivity.
Defined.

(** ** The shape of paths *)

Lemma strrchr_split (c : ascii) (p : string) :
  forall i,
    strrchr p c = Some i ->
    exists a b,
      p = (a ++ String c b)%string /\ String.length a = i
      /\ strrchr b c = None.
Proof.
  induction p as [|x r IH]; intros i H; simpl in H; [discriminate|].
  destruct (strrchr r c) as [j|] eqn:Er.
  - inversion H; subst. destruct (IH j eq_refl) as [a [b [E [L N]]]].
    exists (String x a), b. rewrite E. simpl. rewrite L. auto.
  - destruct (Ascii.eqb x c) eqn:Ex; [|discriminate].
    inversion H; subst. apply Ascii.eqb_eq in Ex. subst x.
    exists EmptyString, r. auto.
Qed.

(** X7: [path_is_at_root] holds exactly of the paths that end with a
    slash; the empty path and a path without a slash are not at a root. *)
Theorem path_is_at_root_iff (p : string) :
  path_is_at_root p = true <-> exists q, p = (q ++ "/")%string.
Proof.
  split.
  - unfold path_is_at_root. destruct (strrchr p "/") as [i|] eqn:E;
      [|discriminate].
    intros H. apply Nat.eqb_eq in H.
    destruct (strrchr_split "/" p i E) as [a [b [Ep [La _]]]].
    exists a. rewrite Ep. f_equal. f_equal.
    rewrite Ep in H. unfold strlen in H. rewrite string_app_length in H.
    simpl in H. destruct b; [reflexivity|]. simpl in H. lia.
  - intros [q ->]. apply at_root_slash_end.
Qed.

Lemma cut_at_length (i : nat) (s : string) :
  (String.length (cut_at i s) <= i)%nat.
Proof. unfold cut_at. apply substring_length_le. Qed.


(** ** The shape the current path keeps *)

Lemma nav_ok_inv (p : string) :
  nav_ok p = true ->
  p = "/"%string
  \/ exists c r i, p = String "/" (String c r)
                   /\ strrchr p "/" = Some (S i).
Proof.
  destruct p as [|x [|c r]]; intros H.
  - discriminate.
  - destruct x as [[] [] [] [] [] [] [] []]; try discriminate. auto.
  - destruct x as [[] [] [] [] [] [] [] []]; try discriminate.
    right. exists c, r.
    change (match strrchr (String "/" (String c r)) "/" with
            | Some (S _) => true
            | _ => false
            end = true) in H.
    destruct (strrchr (String "/" (String c r)) "/") as [[|i]|] eqn:E;
      try discriminate.
    exists i. auto.
Qed.

Lemma nav_ok_intro (r : string) (i : nat) :
  strrchr (String "/" r) "/" = Some (S i) -> nav_ok (String "/" r) = true.
Proof.
  intros H. destruct r as [|c r]; [simpl in H; discriminate|].
  change (match strrchr (String "/" (String c r)) "/" with
          | Some (S _) => true
          | _ => false
          end = true).
  rewrite H. reflexivity.
Qed.

Lemma strrchr_leading_slash (r : string) :
  exists i, strrchr (String "/" r) "/" = Some i.
Proof.
  simpl. destruct (strrchr r "/"); eexists; reflexivity.
Qed.

(** A path that starts with a slash has the shape once the slash after a
    bare [/foo:] is added. *)
Lemma normalised_nav_ok (r : string) :
  nav_ok (match strrchr (String "/" r) "/" with
          | Some O => strcat (String "/" r) "/"
          | _ => String "/" r
          end) = true.
Proof.
  destruct (strrchr_leading_slash r) as [[|i] E]; rewrite E.
  - unfold strcat. change (String "/" r ++ "/")%string
      with (String "/" (r ++ "/")).
    apply (nav_ok_intro (r ++ "/") (String.length r)).
    change (String "/" (r ++ "/"))%string
      with (String "/" r ++ String "/" EmptyString)%string.
    rewrite strrchr_app_slash by reflexivity. reflexivity.
  - apply (nav_ok_intro r i E).
Qed.

Lemma cwd_tmp_path_nav_ok (cur arg : string) :
  nav_ok cur = true -> arg <> EmptyString ->
  nav_ok (cwd_tmp_path cur arg) = true.
Proof.
  intros Hcur Harg. destruct arg as [|c r]; [contradiction|].
  assert (Hs : exists t, cur = String "/" t).
  { destruct (nav_ok_inv cur Hcur) as [-> | [x [t [i [-> _]]]]];
      eexists; reflexivity. }
  destruct Hs as [t ->].
  destruct (ascii_dec c "/") as [->|Hc].
  - change (cwd_tmp_path (String "/" t) (String "/" r))
      with (match strrchr (String "/" r) "/" with
            | Some O => strcat (String "/" r) "/"
            | _ => String "/" r
            end).
    apply normalised_nav_ok.
  - rewrite (cwd_tmp_path_relative _ c r Hc). cbv zeta.
    destruct (path_is_at_root (String "/" t)).
    + change (String "/" t ++ String c r)%string
        with (String "/" (t ++ String c r)).
      apply normalised_nav_ok.
    + change (String "/" t ++ "/" ++ String c r)%string
        with (String "/" (t ++ "/" ++ String c r)).
      apply normalised_nav_ok.
Qed.

Lemma dir_up_nav_ok (p : string) :
  nav_ok p = true -> exists q, dir_up p = Some q /\ nav_ok q = true.
Proof.
  intros Hp.
  destruct (nav_ok_inv p Hp) as [-> | [c [r [i [Ep E]]]]].
  - exists "/"%string. split; reflexivity.
  - unfold dir_up.
    assert (L : Nat.eqb (strlen p) 1 = false) by (rewrite Ep; reflexivity).
    rewrite L.
    destruct (path_is_at_root p); [exists "/"%string; split; reflexivity|].
    rewrite E.
    assert (Ec : cut_at (S i) p = String "/" (cut_at i (String c r))).
    { rewrite Ep. reflexivity. }
    rewrite Ec.
    pose proof (normalised_nav_ok (cut_at i (String c r))) as N.
    destruct (strrchr (String "/" (cut_at i (String c r))) "/") as [[|k]|] eqn:Ek.
    + eexists. split; [reflexivity | exact N].
    + eexists. split; [reflexivity | exact N].
    + destruct (strrchr_leading_slash (cut_at i (String c r))) as [j Ej].
      rewrite Ej in Ek. discriminate.
Qed.

Lemma scan_line_arg_not_empty (s a : string) :
  scan_line_arg s = Some a -> a <> EmptyString.
Proof.
  unfold scan_line_arg. destruct (span in_line_set (skip_space s)) as [x y].
  destruct x; simpl; intros H; inversion H; subst. discriminate.
Qed.

Lemma sscanf_word_line_not_empty (buf a : string) :
  sscanf_word_line buf = Some a -> a <> EmptyString.
Proof.
  unfold sscanf_word_line.
  destruct (span (fun c => negb (isspace c)) (skip_space buf)) as [w r].
  destruct (is_empty w); [discriminate|]. apply scan_line_arg_not_empty.
Qed.

(** A CDUP and a CWD on a session whose path has the shape: both are
    defined and keep the shape. *)
Lemma cmd_CDUP_func_nav_ok (s : State) :
  nav_ok (cur_path (client s)) = true ->
  exists s',
    cmd_CDUP_func s = Some (tt, s') /\ nav_ok (cur_path (client s')) = true.
Proof.
  intros Hp. destruct (dir_up_nav_ok _ Hp) as [q [Eq Hq]].
  unfold cmd_CDUP_func, client_dir_up, client_send_ctrl_msg. run.
  rewrite Eq. eexists. split; [reflexivity | exact Hq].
Qed.

Lemma cmd_CWD_func_nav_ok (P : Platform) (s : State) :
  nav_ok (cur_path (client s)) = true ->
  exists s',
    cmd_CWD_func P s = Some (tt, s') /\ nav_ok (cur_path (client s')) = true.
Proof.
  intros Hp. unfold cmd_CWD_func, client_dir_up, client_send_ctrl_msg. run.
  destruct (sscanf_word_line (recv_buffer (client s))) as [arg|] eqn:Ea.
  - destruct (strcmp_eq arg "/") eqn:E1.
    + apply String.eqb_eq in E1. subst arg.
      eexists. split; reflexivity.
    + destruct (strcmp_eq arg "..") eqn:E2.
      * destruct (dir_up_nav_ok _ Hp) as [q [Eq Hq]]. rewrite Eq.
        eexists. split; [reflexivity | exact Hq].
      * pose proof (cwd_tmp_path_nav_ok _ arg Hp
                      (sscanf_word_line_not_empty _ _ Ea)) as Ht.
        destruct (strcmp_eq (cwd_tmp_path (cur_path (client s)) arg) "/");
          simpl.
        -- eexists. split; [reflexivity | exact Ht].
        -- destruct (io_dopen P
                       (get_vita_path (cwd_tmp_path (cur_path (client s)) arg))
                     <? 0); eexists; (split; [reflexivity|]); simpl; auto.
  - eexists. split; [reflexivity | exact Hp].
Qed.

(** X9: the current path of a session is [/] or starts with a slash and has
    another slash further on, and CWD and CDUP keep it so: on a session
    whose path has that shape, every sequence of CWD and CDUP lines,
    whatever their arguments and whatever the probes answer, runs without
    [dir_up] meeting a path it is not defined on, and leaves a path of the
    same shape. *)
Theorem navigation_keeps_shape (P : Platform) (lines : list string) :
  forall s : State,
    nav_ok (cur_path (client s)) = true ->
    Forall (fun l => sscanf_word l = Some "CWD"%string
                     \/ sscanf_word l = Some "CDUP"%string) lines ->
    exists s',
      client_commands P lines s = Some (tt, s')
      /\ nav_ok (cur_path (client s')) = true.
Proof.
  induction lines as [|l lines IH]; intros s Hp Hl.
  - exists s. split; [reflexivity | exact Hp].
  - inversion Hl as [|? ? Hhead Hrest]; subst.
    assert (H1 : exists s1, client_command P l s = Some (tt, s1)
                            /\ nav_ok (cur_path (client s1)) = true).
    { unfold client_command. run.
      destruct Hhead as [E|E]; rewrite E; simpl.
      - apply cmd_CWD_func_nav_ok. exact Hp.
      - apply cmd_CDUP_func_nav_ok. exact Hp. }
    destruct H1 as [s1 [Hrun1 Hp1]].
    destruct (IH s1 Hp1 Hrest) as [s' [Hrun Hp']].
    exists s'. split; [|exact Hp'].
    simpl. rewrite (bind_runs _ _ s s1 tt Hrun1). exact Hrun.
Qed.

(** Down into a mount with a path of two components, up three times. *)
Lemma navigation_keeps_shape_witness :
  exists s',
    client_commands vita
      [CWD_line "ux0:/data"; CDUP_line; CWD_line ".."; CDUP_line] state0
    = Some (tt, s')
    /\ nav_ok (cur_path (client s')) = true.
Proof.
  apply navigation_keeps_shape.
  - reflexivity.
  - repeat (apply Forall_cons || apply Forall_nil);
      first [left; reflexivity | right; reflexivity].
Defined.

(** ** Dispatch *)





Lemma fixed_reply_runs (P : Platform) (s : State) (line w msg : string) :
  sscanf_word line = Some w -> fixed_reply w = Some msg ->
  client_command P line s = Some (tt, replied line msg s).
Proof.
  intros Hword Hmsg. unfold fixed_reply in Hmsg.
  unfold client_command, replied. unfold bind at 1.
  unfold modify_client at 1. cbv beta iota. rewrite Hword.
  repeat match type of Hmsg with
         | (if String.eqb w ?v then _ else _) = _ =>
             destruct (String.eqb w v) eqn:E;
               [apply String.eqb_eq in E; subst w; inversion Hmsg; subst msg;
                reflexivity | clear E]
         end.
  discriminate.
Qed.

(** X11: NOOP, USER, PASS, QUIT and SYST answer with their fixed line
    whatever follows the verb on the line, so every user name and every
    password is accepted, and they change nothing of the session but the
    receive buffer; QUIT in particular closes nothing. *)
Theorem fixed_reply_commands (P : Platform) (s : State) (line w msg : string)
  (Hword : sscanf_word line = Some w) (Hmsg : fixed_reply w = Some msg) :
  client_command P line s = Some (tt, replied line msg s).
Proof. exact (fixed_reply_runs P s line w msg Hword Hmsg). Qed.

(** A QUIT: the reply goes out, the sockets of the session stay open. *)
Lemma fixed_reply_commands_witness :
  exists s',
    client_command vita ("QUIT" ++ cr ++ nl) state0 = Some (tt, s')
    /\ w_socks (world s') = w_socks (world state0)
    /\ new_events state0 s' = [NetSend 5 ("221 Goodbye senpai :'(" ++ nl)].
Proof.
  eexists. split.
  - apply (fixed_reply_commands vita state0 ("QUIT" ++ cr ++ nl) "QUIT");
      reflexivity.
  - split; reflexivity.
Defined.



Lemma pwd_runs (P : Platform) (s : State) :
  client_command P ("PWD" ++ cr ++ nl) s
  = Some (tt, replied ("PWD" ++ cr ++ nl)
                ("257 " ++ dquote ++ cur_path (client s) ++ dquote
                 ++ " is the current directory." ++ nl) s).
Proof. reflexivity. Qed.

Lemma cwd_tmp_path_from_root (m : string) :
  simple_name m = true -> cwd_tmp_path "/" m = ("/" ++ m ++ "/")%string.
Proof.
  intros Hm.
  destruct (simple_name_inv m Hm) as [c [r [Em [_ [Hc [Hns _]]]]]].
  rewrite Em at 1. rewrite (cwd_tmp_path_relative "/" c r Hc). rewrite <- Em.
  cbv zeta. change (path_is_at_root "/") with true. cbv iota.
  change ("/" ++ m)%string with (String "/" m).
  assert (E : strrchr (String "/" m) "/" = Some O).
  { simpl. unfold no_slash in Hns. rewrite Hns. reflexivity. }
  rewrite E. reflexivity.
Qed.

(** X13: a session in [/] logs in and enters a mount: after USER and PASS
    with any name and password, PWD reports [/]; a CWD with the bare name of
    a mount whose directory opens answers 250, and PWD then reports the
    mount with a slash on both sides.  These five replies are all that is
    sent. *)
Theorem login_and_enter_mount (P : Platform) (s : State) (u pw m : string)
  (Hroot : cur_path (client s) = "/"%string)
  (Hname : simple_name m = true)
  (Hdir : 0 <= io_dopen P (Some (m ++ "/")%string)) :
  exists s' evs,
    client_commands P
      [("USER " ++ u)%string; ("PASS " ++ pw)%string; ("PWD" ++ cr ++ nl)%string;
       CWD_line m; ("PWD" ++ cr ++ nl)%string] s
    = Some (tt, s')
    /\ cur_path (client s') = ("/" ++ m ++ "/")%string
    /\ w_trace (world s') = w_trace (world s) ++ evs
    /\ sent_lines evs
       = [("331 Username OK, need password b0ss." ++ nl)%string;
          ("230 User logged in!" ++ nl)%string;
          ("257 " ++ dquote ++ "/" ++ dquote ++ " is the current directory." ++ nl)%string;
          ("250 Requested file action okay, completed." ++ nl)%string;
          ("257 " ++ dquote ++ ("/" ++ m ++ "/") ++ dquote
           ++ " is the current directory." ++ nl)%string].
Proof.
  pose proof (cwd_tmp_path_from_root m Hname) as Etmp.
  destruct (simple_name_inv m Hname) as [c [r [Em [_ [Hc _]]]]].
  set (l1 := ("USER " ++ u)%string). set (l2 := ("PASS " ++ pw)%string).
  set (l3 := ("PWD" ++ cr ++ nl)%string).
  set (s1 := replied l1 ("331 Username OK, need password b0ss." ++ nl) s).
  set (s2 := replied l2 ("230 User logged in!" ++ nl) s1).
  set (s3 := replied l3
               ("257 " ++ dquote ++ cur_path (client s2) ++ dquote
                ++ " is the current directory." ++ nl) s2).
  assert (R1 : client_command P l1 s = Some (tt, s1))
    by (apply (fixed_reply_runs P s l1 "USER"); reflexivity).
  assert (R2 : client_command P l2 s1 = Some (tt, s2))
    by (apply (fixed_reply_runs P s1 l2 "PASS"); reflexivity).
  assert (R3 : client_command P l3 s2 = Some (tt, s3)) by apply pwd_runs.
  assert (C3 : cur_path (client s3) = "/"%string) by exact Hroot.
  destruct (cmd_CWD_func_runs P (with_line (CWD_line m) s3) m)
    as [s4 [R4 [_ Hok]]].
  { simpl. apply sscanf_CWD_line. exact Hname. }
  { rewrite Em. intros F. inversion F. contradiction. }
  { intros F. rewrite F in Hname. vm_compute in Hname. discriminate. }
  { simpl. rewrite Hroot, Etmp. destruct m; discriminate. }
  cbn [client with_line cur_path set_recv_buffer] in Hok.
  change (cur_path (client s)) with (cur_path (client s)) in Hok.
  assert (Ecur : cur_path (set_recv_buffer (CWD_line m) (client s3)) = "/"%string)
    by exact Hroot.
  destruct Hok as [C4 T4].
  { simpl. rewrite Hroot, Etmp.
    change (get_vita_path ("/" ++ m ++ "/"))
      with (get_vita_path (String "/" (m ++ "/"))).
    rewrite get_vita_path_spec. rewrite Em. simpl. rewrite Em in Hdir.
    exact Hdir. }
  simpl in C4, T4. rewrite Hroot, Etmp in C4, T4.
  assert (R4' : client_command P (CWD_line m) s3 = Some (tt, s4))
    by (rewrite client_command_CWD; exact R4).
  exists (replied l3
            ("257 " ++ dquote ++ cur_path (client s4) ++ dquote
             ++ " is the current directory." ++ nl) s4).
  eexists.
  split.
  - simpl. rewrite (bind_runs _ _ _ _ _ R1), (bind_runs _ _ _ _ _ R2),
      (bind_runs _ _ _ _ _ R3), (bind_runs _ _ _ _ _ R4').
    unfold bind. fold l3. rewrite pwd_runs. reflexivity.
  - split; [simpl; rewrite C4; reflexivity|]. split.
    + simpl. rewrite T4. simpl. rewrite <- !app_assoc. simpl. reflexivity.
    + simpl. rewrite ?C4, ?Hroot. reflexivity.
Qed.

(** The mount [ux0:] of the example platform. *)
Lemma login_and_enter_mount_witness :
  exists s',
    client_commands vita
      [("USER " ++ "a")%string; ("PASS " ++ "b")%string;
       ("PWD" ++ cr ++ nl)%string; CWD_line "ux0:";
       ("PWD" ++ cr ++ nl)%string] state0
    = Some (tt, s')
    /\ cur_path (client s') = "/ux0:/"%string.
Proof.
  destruct (login_and_enter_mount vita state0 "a" "b" "ux0:" eq_refl eq_refl
              ltac:(vm_compute; discriminate))
    as [s' [evs [Hrun [Hcur _]]]].
  exists s'. split; [exact Hrun | exact Hcur].
Defined.

(** ** Transfers, call by call *)

Lemma client_open_data_connection_total (s : State) :
  client_open_data_connection s
  = Some (tt, state_after client_open_data_connection s).
Proof.
  unfold state_after, client_open_data_connection. run.
  destruct (data_con_type (client s)); run;
    try destruct (w_new_fds (world s)); reflexivity.
Qed.

Lemma client_close_data_connection_total (s : State) :
  client_close_data_connection s
  = Some (tt, state_after client_close_data_connection s).
Proof.
  unfold state_after, client_close_data_connection. run.
  destruct (data_con_type (client s)); reflexivity.
Qed.

(** The read loop, call by call. *)
Lemma send_file_loop_exact (fd : Z) (script : list Z) :
  forall (fuel : nat) (s : State),
    w_file_in (world s) = script ->
    (List.length script <= fuel)%nat ->
    send_file_loop fuel fd s = Some (tt, after_read_loop fd s).
Proof.
  induction script as [|r rest IH]; intros fuel s Hs Hfuel;
    rewrite send_file_loop_unfold; unfold sceIoRead, after_read_loop,
      read_events; run; rewrite Hs; simpl.
  - reflexivity.
  - unfold read_positive. destruct (0 <? to_uint32 r) eqn:E.
    + destruct fuel as [|k]; [simpl in Hfuel; lia|].
      rewrite client_send_data_raw_runs. simpl.
      rewrite (IH k); [|reflexivity|simpl in Hfuel; simpl; lia].
      unfold after_read_loop, read_events. simpl.
      rewrite <- !app_assoc. reflexivity.
    + reflexivity.
Qed.

(** The receive loop, call by call. *)
Lemma receive_loop_exact (fd : Z) (script : list Z) :
  forall (fuel : nat) (s : State),
    w_data_in (world s) = script ->
    (List.length script <= fuel)%nat ->
    receive_loop fuel fd s
    = Some (loop_last recv_positive script, after_recv_loop fd s).
Proof.
  induction script as [|r rest IH]; intros fuel s Hs Hfuel;
    rewrite receive_loop_unfold; unfold bind at 1;
    rewrite client_recv_data_raw_runs, Hs; unfold after_recv_loop,
      recv_events; rewrite Hs; simpl.
  - reflexivity.
  - unfold recv_positive. destruct (0 <? r) eqn:E.
    + destruct fuel as [|k]; [simpl in Hfuel; lia|].
      run.
      rewrite (IH k); [|reflexivity|simpl in Hfuel; simpl; lia].
      unfold after_recv_loop, recv_events. simpl.
      rewrite <- !app_assoc. reflexivity.
    + reflexivity.
Qed.

Lemma state_after_open_scripts (s : State) :
  let s' := state_after client_open_data_connection s in
  w_file_in (world s') = w_file_in (world s)
  /\ w_data_in (world s') = w_data_in (world s)
  /\ ctrl_sockfd (client s') = ctrl_sockfd (client s)
  /\ data_con_type (client s') = data_con_type (client s)
  /\ data_sockfd (client s') = data_sockfd (client s).
Proof.
  unfold state_after, client_open_data_connection. run.
  destruct (data_con_type (client s)) eqn:T; run;
    try destruct (w_new_fds (world s)); simpl; rewrite ?T; repeat split.
Qed.

(** A retrieval of a file that opens, with a buffer: the state it ends
    in. *)
Lemma send_file_exact (P : Platform) (s : State) (path : option string) :
  0 <= io_open P path (SCE_O_RDONLY P) ->
  malloc_ok P FILE_BUF_SIZE = true ->
  send_file P path s = Some (tt, after_send_file P path s).
Proof.
  intros Hfd Hm. unfold send_file, after_send_file, sceIoOpen, malloc,
    client_send_ctrl_msg.
  run. apply Z.leb_le in Hfd. rewrite Hfd, Hm. simpl.
  unfold logged at 1. simpl.
  rewrite client_open_data_connection_total.
  rewrite <- app_assoc. simpl.
  match goal with
  | |- context [send_file_loop ?k ?fd ?st] =>
      rewrite (send_file_loop_exact fd (w_file_in (world st)) k st eq_refl)
        by (simpl; lia)
  end.
  rewrite client_close_data_connection_total.
  do 3 f_equal. unfold logged, after_read_loop. simpl.
  rewrite <- !app_assoc. simpl. reflexivity.
Qed.

Lemma receive_into_exact (P : Platform) (s : State) (path : option string)
  (fd : Z) :
  malloc_ok P FILE_BUF_SIZE = true ->
  receive_into P path fd s = Some (tt, after_receive_into P path fd s).
Proof.
  intros Hm. unfold receive_into, after_receive_into, malloc,
    client_send_ctrl_msg.
  run. rewrite Hm. simpl.
  unfold logged at 1. simpl.
  rewrite client_open_data_connection_total.
  match goal with
  | |- context [receive_loop ?k ?fd ?st] =>
      rewrite (receive_loop_exact fd (w_data_in (world st)) k st eq_refl)
        by (simpl; lia)
  end.
  simpl.
  destruct (loop_last recv_positive _ =? 0); simpl;
    rewrite client_close_data_connection_total;
    do 3 f_equal; unfold logged, after_recv_loop; simpl;
    rewrite <- !app_assoc; simpl; reflexivity.
Qed.

(** X14: a transfer whose target does not open answers 550 and does
    nothing else: RETR, STOR and APPE after a failed [sceIoOpen], LIST of a
    path other than [/] after a failed [sceIoDopen].  The data connection
    is neither opened nor closed, so a channel that PORT or PASV set up
    stays as it is. *)
Theorem transfer_target_missing (P : Platform) (s : State)
  (path : option string) :
  let ctrl := ctrl_sockfd (client s) in
  let stor := Z.lor (Z.lor (SCE_O_CREAT P) (SCE_O_WRONLY P)) (SCE_O_TRUNC P) in
  let appe := Z.lor (SCE_O_WRONLY P) (SCE_O_CREAT P) in
  (io_open P path (SCE_O_RDONLY P) < 0 ->
   send_file P path s
   = Some (tt, logged [IoOpen path (SCE_O_RDONLY P)
                         (io_open P path (SCE_O_RDONLY P));
                       NetSend ctrl ("550 File not found." ++ nl)] s))
  /\ (io_open P path stor < 0 ->
      receive_file P path s
      = Some (tt, logged [IoOpen path stor (io_open P path stor);
                          NetSend ctrl ("550 File not found." ++ nl)] s))
  /\ (io_open P path appe < 0 ->
      append_file P path s
      = Some (tt, logged [IoOpen path appe (io_open P path appe);
                          NetSend ctrl ("550 File not found." ++ nl)] s))
  /\ (forall dir : string,
      dir <> "/"%string -> io_dopen P (get_vita_path dir) < 0 ->
      send_LIST P dir s
      = Some (tt, logged [IoDopen (get_vita_path dir)
                            (io_dopen P (get_vita_path dir));
                          NetSend ctrl ("550 Invalid directory." ++ nl)] s)).
Proof.
  intros ctrl stor appe. split; [|split; [|split]].
  - intros H. unfold send_file, sceIoOpen, client_send_ctrl_msg, logged. run.
    assert (E : (0 <=? io_open P path (SCE_O_RDONLY P)) = false)
      by (apply Z.leb_gt; exact H).
    rewrite E. simpl. rewrite <- app_assoc. reflexivity.
  - intros H. unfold receive_file, sceIoOpen, client_send_ctrl_msg, logged. run.
    fold stor. assert (E : (0 <=? io_open P path stor) = false)
      by (apply Z.leb_gt; exact H).
    rewrite E. simpl. rewrite <- app_assoc. reflexivity.
  - intros H. unfold append_file, sceIoOpen, client_send_ctrl_msg, logged. run.
    fold appe. assert (E : (0 <=? io_open P path appe) = false)
      by (apply Z.leb_gt; exact H).
    rewrite E. simpl. rewrite <- app_assoc. reflexivity.
  - intros dir Hdir H.
    unfold send_LIST, sceIoDopen, client_send_ctrl_msg, logged.
    rewrite (strcmp_eq_false _ _ Hdir). run.
    apply Z.ltb_lt in H. rewrite H. simpl. rewrite <- app_assoc. reflexivity.
Qed.

(** X15: when no transfer buffer can be allocated, RETR, STOR and APPE
    answer 550 and return at once: the file that was just opened (created
    and truncated by STOR) is never closed, and the data connection is
    neither opened nor closed. *)
Theorem transfer_without_buffer (P : Platform) (s : State)
  (path : option string) (Hmalloc : malloc_ok P FILE_BUF_SIZE = false) :
  let ctrl := ctrl_sockfd (client s) in
  let stor := Z.lor (Z.lor (SCE_O_CREAT P) (SCE_O_WRONLY P)) (SCE_O_TRUNC P) in
  let appe := Z.lor (SCE_O_WRONLY P) (SCE_O_CREAT P) in
  let no_memory := NetSend ctrl ("550 Could not allocate memory." ++ nl) in
  (0 <= io_open P path (SCE_O_RDONLY P) ->
   send_file P path s
   = Some (tt, logged [IoOpen path (SCE_O_RDONLY P)
                         (io_open P path (SCE_O_RDONLY P));
                       Malloc FILE_BUF_SIZE false; no_memory] s))
  /\ (0 <= io_open P path stor ->
      receive_file P path s
      = Some (tt, logged [IoOpen path stor (io_open P path stor);
                          Malloc FILE_BUF_SIZE false; no_memory] s))
  /\ (0 <= io_open P path appe ->
      append_file P path s
      = Some (tt, logged [IoOpen path appe (io_open P path appe);
                          IoLseek (io_open P path appe);
                          Malloc FILE_BUF_SIZE false; no_memory] s)).
Proof.
  intros ctrl stor appe no_memory. split; [|split].
  - intros H. unfold send_file, sceIoOpen, malloc, client_send_ctrl_msg, logged.
    run. apply Z.leb_le in H. rewrite H, Hmalloc. simpl.
    rewrite <- !app_assoc. reflexivity.
  - intros H. unfold receive_file, receive_into, sceIoOpen, malloc,
      client_send_ctrl_msg, logged.
    run. fold stor. apply Z.leb_le in H. rewrite H, Hmalloc. simpl.
    rewrite <- !app_assoc. reflexivity.
  - intros H. unfold append_file, receive_into, sceIoOpen, malloc,
      client_send_ctrl_msg, logged.
    run. fold appe. apply Z.leb_le in H. rewrite H, Hmalloc. simpl.
    rewrite <- !app_assoc. reflexivity.
Qed.

(** A store when the allocation fails: the file stays open. *)
Lemma transfer_without_buffer_witness :
  receive_file vita_no_memory (Some "ux0:/f.bin"%string) state0
  = Some (tt, logged [IoOpen (Some "ux0:/f.bin"%string) 1538 3;
                      Malloc FILE_BUF_SIZE false;
                      NetSend 5 ("550 Could not allocate memory." ++ nl)]
                state0).
Proof.
  destruct (transfer_without_buffer vita_no_memory state0
              (Some "ux0:/f.bin"%string) eq_refl) as [_ [H _]].
  apply H. vm_compute. discriminate.
Defined.

Lemma written_app (a b : list Event) : written (a ++ b) = written a ++ written b.
Proof.
  induction a as [|e a IH]; simpl; [reflexivity|].
  destruct e; simpl; rewrite ?IH; reflexivity.
Qed.

Lemma sent_raw_app (a b : list Event) :
  sent_raw (a ++ b) = sent_raw a ++ sent_raw b.
Proof.
  induction a as [|e a IH]; simpl; [reflexivity|].
  destruct e; simpl; rewrite ?IH; reflexivity.
Qed.

Lemma closes_only (evs : list Event) :
  forallb is_socket_close evs = true ->
  written evs = [] /\ sent_raw evs = [] /\ sent_lines evs = [].
Proof.
  induction evs as [|e evs IH]; simpl; [auto|].
  intros H. apply andb_true_iff in H. destruct H as [He Hr].
  destruct e; simpl in He; try discriminate. apply IH. exact Hr.
Qed.

Lemma data_open_only (e : Event) :
  is_data_open e = true ->
  written [e] = [] /\ sent_raw [e] = [] /\ sent_lines [e] = [].
Proof. destruct e; simpl; intros H; try discriminate; auto. Qed.

Lemma read_events_project (fd dfd : Z) (script : list Z) :
  sent_raw (read_events fd dfd script)
  = map to_uint32 (loop_taken read_positive script)
  /\ sent_lines (read_events fd dfd script) = [].
Proof.
  unfold read_events. rewrite sent_raw_app, sent_lines_app. simpl.
  rewrite !app_nil_r.
  induction (loop_taken read_positive script) as [|r l [IH1 IH2]]; simpl; auto.
  rewrite IH1, IH2. auto.
Qed.

Lemma recv_events_project (fd dfd : Z) (script : list Z) :
  written (recv_events fd dfd script) = loop_taken recv_positive script
  /\ sent_lines (recv_events fd dfd script) = [].
Proof.
  unfold recv_events. rewrite written_app, sent_lines_app. simpl.
  rewrite !app_nil_r.
  induction (loop_taken recv_positive script) as [|r l [IH1 IH2]]; simpl; auto.
  rewrite IH1, IH2. auto.
Qed.

(** The calls of a retrieval, in order. *)
Lemma after_send_file_trace (P : Platform) (path : option string) (s : State) :
  let fd := io_open P path (SCE_O_RDONLY P) in
  let ctrl := ctrl_sockfd (client s) in
  exists e_open closes,
    w_trace (world (after_send_file P path s))
    = w_trace (world s)
      ++ [IoOpen path (SCE_O_RDONLY P) fd; Malloc FILE_BUF_SIZE true; e_open;
          NetSend ctrl ("150 Opening Image mode data transfer." ++ nl)]
      ++ read_events fd (transfer_fd s) (w_file_in (world s))
      ++ [IoClose fd; Free; NetSend ctrl ("226 Transfer completed." ++ nl)]
      ++ closes
    /\ is_data_open e_open = true
    /\ forallb is_socket_close closes = true.
Proof.
  intros fd ctrl. unfold after_send_file, transfer_fd, state_after,
    client_open_data_connection, client_close_data_connection, logged,
    after_read_loop, data_fd.
  run. fold fd.
  destruct (data_con_type (client s)) eqn:T; run;
    try destruct (w_new_fds (world s)); simpl; rewrite ?T; simpl;
    eexists; eexists; (split; [rewrite <- !app_assoc; simpl; reflexivity|]);
    split; reflexivity.
Qed.

Lemma after_send_file_rest (P : Platform) (path : option string) (s : State) :
  let a := fst (pop_Z (-1) (w_new_fds (world s))) in
  let c := client s in
  w_file_in (world (after_send_file P path s))
  = loop_left read_positive (w_file_in (world s))
  /\ data_con_type (client (after_send_file P path s))
     = FTP_DATA_CONNECTION_NONE
  /\ w_socks (world (after_send_file P path s))
     = match data_con_type c with
       | FTP_DATA_CONNECTION_ACTIVE => remove_Z (data_sockfd c) (w_socks (world s))
       | FTP_DATA_CONNECTION_PASSIVE =>
           remove_Z a (remove_Z (data_sockfd c) (open_sock a (w_socks (world s))))
       | FTP_DATA_CONNECTION_NONE =>
           remove_Z (data_sockfd c) (open_sock a (w_socks (world s)))
       end.
Proof.
  unfold after_send_file, state_after, client_open_data_connection,
    client_close_data_connection, logged, after_read_loop.
  run.
  destruct (data_con_type (client s)) eqn:T; run;
    try destruct (w_new_fds (world s)); simpl; rewrite ?T; simpl;
    repeat split; reflexivity.
Qed.

Lemma to_uint32_negative (r : Z) :
  - 2 ^ 32 < r < 0 -> to_uint32 r = r + 2 ^ 32 /\ read_positive r = true.
Proof.
  intros H. unfold read_positive, to_uint32.
  assert (E : r mod 2 ^ 32 = r + 2 ^ 32).
  { symmetry. apply (Z.mod_unique r (2 ^ 32) (-1)); lia. }
  rewrite E. split; [reflexivity|]. apply Z.ltb_lt. lia.
Qed.

(** X16: a retrieval of a file that opens, with a buffer, sends every block
    with the length the read returned, taken as an [unsigned int], and goes
    on until a read returns 0.  A read that fails with a negative result
    [r] is therefore not an end: it counts as a block of [r + 2^32] bytes,
    which is sent, and the loop reads again.  Whatever the reads return,
    the only lines sent are the 150 and then the 226 line. *)
Theorem retrieval_sends_what_it_reads (P : Platform) (s : State)
  (path : option string)
  (Hfd : 0 <= io_open P path (SCE_O_RDONLY P))
  (Hmalloc : malloc_ok P FILE_BUF_SIZE = true) :
  (exists s' evs,
      send_file P path s = Some (tt, s')
      /\ w_trace (world s') = w_trace (world s) ++ evs
      /\ sent_raw evs
         = map to_uint32 (loop_taken read_positive (w_file_in (world s)))
      /\ sent_lines evs
         = [("150 Opening Image mode data transfer." ++ nl)%string;
            ("226 Transfer completed." ++ nl)%string]
      /\ w_file_in (world s') = loop_left read_positive (w_file_in (world s)))
  /\ (forall r, - 2 ^ 32 < r < 0 ->
                read_positive r = true /\ to_uint32 r = r + 2 ^ 32).
Proof.
  split.
  - destruct (after_send_file_trace P path s) as [e_open [closes [Htr [Ho Hc]]]].
    destruct (after_send_file_rest P path s) as [Hrest _].
    destruct (read_events_project (io_open P path (SCE_O_RDONLY P))
                (transfer_fd s) (w_file_in (world s))) as [R1 R2].
    destruct (closes_only closes Hc) as [_ [C1 C2]].
    destruct (data_open_only e_open Ho) as [_ [O1 O2]].
    exists (after_send_file P path s). eexists.
    split; [apply send_file_exact; assumption|].
    split; [exact Htr|]. split; [|split; [|exact Hrest]].
    + change (?a :: ?b :: e_open :: ?c :: nil) with ([a; b] ++ [e_open] ++ [c]).
      rewrite !sent_raw_app, R1, C1, O1. simpl. rewrite app_nil_r. reflexivity.
    + change (?a :: ?b :: e_open :: ?c :: nil) with ([a; b] ++ [e_open] ++ [c]).
      rewrite !sent_lines_app, R2, C2, O2. reflexivity.
  - intros r Hr. destruct (to_uint32_negative r Hr). auto.
Qed.

(** A file whose first read fails with -1 and whose second returns 0. *)
Lemma retrieval_sends_what_it_reads_witness :
  exists s' evs,
    send_file vita (Some "ux0:/a.bin"%string) (with_file_in [-1; 0] state_pasv)
    = Some (tt, s')
    /\ w_trace (world s')
       = w_trace (world (with_file_in [-1; 0] state_pasv)) ++ evs
    /\ sent_raw evs = [4294967295].
Proof.
  destruct (retrieval_sends_what_it_reads vita
              (with_file_in [-1; 0] state_pasv) (Some "ux0:/a.bin"%string)
              ltac:(vm_compute; discriminate) eq_refl)
    as [[s' [evs [Hrun [Htr [Hraw _]]]]] _].
  exists s', evs. split; [exact Hrun|]. split; [exact Htr | exact Hraw].
Defined.

Lemma in_remove_Z (x y : Z) (l : list Z) :
  In x (remove_Z y l) <-> x <> y /\ In x l.
Proof.
  unfold remove_Z. rewrite filter_In. split.
  - intros [H1 H2]. apply negb_true_iff in H2. apply Z.eqb_neq in H2. auto.
  - intros [H1 H2]. split; [exact H2|].
    apply negb_true_iff. apply Z.eqb_neq. exact H1.
Qed.

(** X17: the sockets a retrieval leaves open.  On an active channel the
    data socket is closed.  On a passive channel both the listening socket
    and the accepted socket are closed.  With no channel set up (no PORT or
    PASV since the last transfer) the transfer still accepts on the old data
    descriptor, sends through the accepted socket and closes the data
    descriptor only: an accepted socket stays open.  In all three cases the
    channel is NONE afterwards and no other socket is touched. *)
Theorem retrieval_sockets (P : Platform) (s : State) (path : option string)
  (Hfd : 0 <= io_open P path (SCE_O_RDONLY P))
  (Hmalloc : malloc_ok P FILE_BUF_SIZE = true) :
  let a := fst (pop_Z (-1) (w_new_fds (world s))) in
  let c := client s in
  exists s',
    send_file P path s = Some (tt, s')
    /\ data_con_type (client s') = FTP_DATA_CONNECTION_NONE
    /\ (forall x, x <> data_sockfd c -> x <> a ->
                  (In x (w_socks (world s')) <-> In x (w_socks (world s))))
    /\ ~ In (data_sockfd c) (w_socks (world s'))
    /\ (data_con_type c = FTP_DATA_CONNECTION_ACTIVE ->
        forall x, In x (w_socks (world s'))
                  <-> x <> data_sockfd c /\ In x (w_socks (world s)))
    /\ (data_con_type c = FTP_DATA_CONNECTION_PASSIVE ->
        ~ In a (w_socks (world s')))
    /\ (data_con_type c = FTP_DATA_CONNECTION_NONE ->
        0 <= a -> a <> data_sockfd c -> In a (w_socks (world s'))).
Proof.
  intros a c.
  destruct (after_send_file_rest P path s) as [_ [Hnone Hsocks]].
  fold a in Hsocks. fold c in Hsocks.
  exists (after_send_file P path s).
  split; [apply send_file_exact; assumption|].
  split; [exact Hnone|].
  assert (Hopen : forall x, x <> a ->
            (In x (open_sock a (w_socks (world s))) <-> In x (w_socks (world s)))).
  { intros x Hx. unfold open_sock. destruct (0 <=? a); simpl; [|tauto].
    split; [intros [F|F]; [congruence | exact F] | auto]. }
  rewrite Hsocks. split; [|split; [|split; [|split]]].
  - intros x Hd Ha. destruct (data_con_type c);
      rewrite ?in_remove_Z; rewrite ?Hopen by exact Ha; tauto.
  - destruct (data_con_type c); rewrite ?in_remove_Z; tauto.
  - intros T. rewrite T. intros x. apply in_remove_Z.
  - intros T. rewrite T. rewrite in_remove_Z. tauto.
  - intros T Ha Hne. rewrite T. rewrite in_remove_Z. split; [exact Hne|].
    unfold open_sock. apply Z.leb_le in Ha. rewrite Ha. left. reflexivity.
Qed.

(** The passive session of [state_pasv]: listening socket 7 and accepted
    socket 8 are both closed after the retrieval. *)
Lemma retrieval_sockets_witness :
  exists s',
    send_file vita (Some "ux0:/a.bin"%string) state_pasv = Some (tt, s')
    /\ ~ In 7 (w_socks (world s')) /\ ~ In 8 (w_socks (world s')).
Proof.
  destruct (retrieval_sockets vita state_pasv (Some "ux0:/a.bin"%string)
              ltac:(vm_compute; discriminate) eq_refl)
    as [s' [Hrun [_ [_ [Hd [_ [Hp _]]]]]]].
  exists s'. split; [exact Hrun|]. split; [exact Hd | exact (Hp eq_refl)].
Defined.

(** What a store into an open file writes, and the script it leaves. *)
Lemma after_receive_into_written (P : Platform) (path : option string)
  (fd : Z) (s : State) :
  exists evs,
    w_trace (world (after_receive_into P path fd s)) = w_trace (world s) ++ evs
    /\ written evs = loop_taken recv_positive (w_data_in (world s))
    /\ w_data_in (world (after_receive_into P path fd s))
       = loop_left recv_positive (w_data_in (world s)).
Proof.
  pose proof (recv_events_project fd (transfer_fd s) (w_data_in (world s)))
    as [R _].
  unfold transfer_fd in R.
  unfold after_receive_into, state_after, client_open_data_connection,
    client_close_data_connection, logged, after_recv_loop, data_fd.
  unfold state_after, client_open_data_connection, data_fd in R.
  revert R. run.
  destruct (data_con_type (client s)) eqn:T; run;
    try destruct (w_new_fds (world s)); simpl; rewrite ?T; simpl; intros R;
    destruct (loop_last recv_positive (w_data_in (world s)) =? 0); simpl;
    eexists; (split; [rewrite <- !app_assoc; simpl; reflexivity|]);
    (split; [|reflexivity]);
    repeat (rewrite written_app || simpl); rewrite R;
    rewrite ?app_nil_r; reflexivity.
Qed.

(** X18: a store into a file that opens, with a buffer, writes every block
    it receives with the length received, in the order received and once
    each, up to the first receive that does not return a positive length;
    what the peer sent after that is not read.  This holds for STOR and for
    APPE. *)
Theorem store_writes_what_it_receives (P : Platform) (s : State)
  (path : option string) (Hmalloc : malloc_ok P FILE_BUF_SIZE = true) :
  let script := w_data_in (world s) in
  let stor := Z.lor (Z.lor (SCE_O_CREAT P) (SCE_O_WRONLY P)) (SCE_O_TRUNC P) in
  let appe := Z.lor (SCE_O_WRONLY P) (SCE_O_CREAT P) in
  (0 <= io_open P path stor ->
   exists s' evs,
     receive_file P path s = Some (tt, s')
     /\ w_trace (world s') = w_trace (world s) ++ evs
     /\ written evs = loop_taken recv_positive script
     /\ w_data_in (world s') = loop_left recv_positive script)
  /\ (0 <= io_open P path appe ->
      exists s' evs,
        append_file P path s = Some (tt, s')
        /\ w_trace (world s') = w_trace (world s) ++ evs
        /\ written evs = loop_taken recv_positive script
        /\ w_data_in (world s') = loop_left recv_positive script).
Proof.
  intros script stor appe. split.
  - intros Hfd. unfold receive_file, sceIoOpen. run. fold stor.
    apply Z.leb_le in Hfd. rewrite Hfd.
    match goal with
    | |- context [receive_into P path ?fd ?st] =>
        rewrite (receive_into_exact P st path fd Hmalloc);
        destruct (after_receive_into_written P path fd st)
          as [evs [Htr [Hw Hleft]]]
    end.
    simpl in Hw, Hleft.
    eexists. exists (IoOpen path stor (io_open P path stor) :: evs).
    split; [reflexivity|]. split; [|split; [exact Hw | exact Hleft]].
    refine (eq_trans Htr _). simpl. rewrite <- !app_assoc. reflexivity.
  - intros Hfd. unfold append_file, sceIoOpen. run. fold appe.
    apply Z.leb_le in Hfd. rewrite Hfd.
    match goal with
    | |- context [receive_into P path ?fd ?st] =>
        rewrite (receive_into_exact P st path fd Hmalloc);
        destruct (after_receive_into_written P path fd st)
          as [evs [Htr [Hw Hleft]]]
    end.
    simpl in Hw, Hleft.
    eexists.
    exists (IoOpen path appe (io_open P path appe)
            :: IoLseek (io_open P path appe) :: evs).
    split; [reflexivity|]. split; [|split; [exact Hw | exact Hleft]].
    refine (eq_trans Htr _). simpl. rewrite <- !app_assoc. reflexivity.
Qed.

(** Two blocks of 5 and 3 bytes, then the connection breaks. *)
Lemma store_writes_what_it_receives_witness :
  exists s' evs,
    receive_file vita (Some "ux0:/f.bin"%string) state_stor_abort
    = Some (tt, s')
    /\ w_trace (world s') = w_trace (world state_stor_abort) ++ evs
    /\ written evs = [5; 3].
Proof.
  destruct (store_writes_what_it_receives vita state_stor_abort
              (Some "ux0:/f.bin"%string) eq_refl) as [H _].
  destruct (H ltac:(vm_compute; discriminate))
    as [s' [evs [Hrun [Htr [Hw _]]]]].
  exists s', evs. split; [exact Hrun|]. split; [exact Htr | exact Hw].
Defined.

(** ** Renaming, removing a directory, PORT *)

(** X19: RNFR stages a source only when it exists.  When [sceIoGetstat] of
    the resolved path fails the reply is 550 and the session is as it was,
    so a source staged by an earlier RNFR stays staged; when it succeeds
    the resolved path becomes the staged source and the reply is 250.
    Nothing else is called, and nothing but the staged source changes. *)
Theorem rnfr_stages_existing_only (P : Platform) (s : State) (arg : string)
  (Harg : sscanf_nonblank_line (recv_buffer (client s)) = Some arg) :
  let src := get_vita_path (dest_path_of (cur_path (client s)) arg) in
  let r := fst (io_getstat P src) in
  let ctrl := ctrl_sockfd (client s) in
  (r < 0 ->
   cmd_RNFR_func P s
   = Some (tt, logged [IoGetstat src r;
                       NetSend ctrl ("550 The file doesn't exist." ++ nl)] s))
  /\ (forall p : string,
        0 <= r -> src = Some p ->
        cmd_RNFR_func P s
        = Some (tt, mkState (set_rename_path p (client s)) (globals s)
                      (world
                         (logged
                            [IoGetstat src r;
                             NetSend ctrl
                               ("250 I need the destination name b0ss." ++ nl)]
                            s)))).
Proof.
  intros src r ctrl. split.
  - intros Hr. unfold cmd_RNFR_func. unfold bind at 1.
    rewrite (gen_filepath_runs s arg Harg).
    unfold file_exists, client_send_ctrl_msg, logged. run.
    fold src. fold r. apply Z.ltb_lt in Hr. rewrite Z.leb_antisym, Hr. simpl.
    rewrite <- app_assoc. reflexivity.
  - intros p Hr Hsrc. unfold cmd_RNFR_func. unfold bind at 1.
    rewrite (gen_filepath_runs s arg Harg).
    unfold file_exists, client_send_ctrl_msg, logged. run.
    fold src. fold r. apply Z.leb_le in Hr. rewrite Hr. simpl.
    rewrite Hsrc. simpl. rewrite <- app_assoc. reflexivity.
Qed.

(** A source below a mount, on a storage where it exists; the current
    path ends with a slash and [gen_filepath] puts another one in. *)
Lemma rnfr_stages_existing_only_witness :
  exists s',
    cmd_RNFR_func vita
      (with_line ("RNFR a.txt" ++ cr ++ nl) (with_cur_path "/ux0:/" state0))
    = Some (tt, s')
    /\ rename_path (client s') = "ux0://a.txt"%string.
Proof.
  destruct (rnfr_stages_existing_only vita
              (with_line ("RNFR a.txt" ++ cr ++ nl)
                 (with_cur_path "/ux0:/" state0))
              "a.txt" eq_refl) as [_ H].
  eexists. split.
  - apply (H "ux0://a.txt"%string); [vm_compute; discriminate | reflexivity].
  - reflexivity.
Defined.

Lemma client_command_dispatch (P : Platform) (s : State) (line w : string)
  (f : M unit) :
  sscanf_word line = Some w -> get_dispatch_func P w = Some f ->
  client_command P line s = f (with_line line s).
Proof.
  intros Hw Hf. unfold client_command, with_line. run. rewrite Hw, Hf.
  reflexivity.
Qed.

(** X20: RNTO does not ask whether a source is staged.  After an RNFR that
    was refused because its source does not exist, the RNTO that follows
    still calls [sceIoRename], with whatever source the session held before
    the refused RNFR, and ends with the 226 line. *)
Theorem rnto_after_refused_rnfr (P : Platform) (s : State)
  (l1 l2 a b : string)
  (Hw1 : sscanf_word l1 = Some "RNFR"%string)
  (Ha : sscanf_nonblank_line l1 = Some a)
  (Hw2 : sscanf_word l2 = Some "RNTO"%string)
  (Hb : sscanf_nonblank_line l2 = Some b)
  (Hmissing :
     fst (io_getstat P (get_vita_path (dest_path_of (cur_path (client s)) a)))
     < 0) :
  let src := get_vita_path (dest_path_of (cur_path (client s)) a) in
  let dst := get_vita_path (dest_path_of (cur_path (client s)) b) in
  let r := io_rename P (rename_path (client s)) dst in
  let ctrl := ctrl_sockfd (client s) in
  exists s',
    client_commands P [l1; l2] s = Some (tt, s')
    /\ rename_path (client s') = rename_path (client s)
    /\ w_trace (world s')
       = w_trace (world s)
         ++ [IoGetstat src (fst (io_getstat P src));
             NetSend ctrl ("550 The file doesn't exist." ++ nl);
             IoRename (rename_path (client s)) dst r]
         ++ (if r <? 0
             then [NetSend ctrl ("550 Error renaming the file." ++ nl)]
             else [])
         ++ [NetSend ctrl ("226 Rename completed." ++ nl)].
Proof.
  intros src dst r ctrl.
  unfold client_commands.
  unfold bind at 1.
  rewrite (client_command_dispatch P s l1 "RNFR" (cmd_RNFR_func P) Hw1 eq_refl).
  unfold cmd_RNFR_func. unfold bind at 1.
  rewrite (gen_filepath_runs (with_line l1 s) a Ha).
  unfold file_exists, client_send_ctrl_msg. run. fold src.
  apply Z.ltb_lt in Hmissing. fold src in Hmissing.
  rewrite Z.leb_antisym, Hmissing. simpl.
  match goal with
  | |- context [client_command P l2 ?st] =>
      rewrite (client_command_dispatch P st l2 "RNTO" (cmd_RNTO_func P)
                 Hw2 eq_refl)
  end.
  unfold cmd_RNTO_func. unfold bind at 1.
  match goal with
  | |- context [gen_filepath ?st] =>
      rewrite (gen_filepath_runs st b Hb)
  end.
  unfold client_send_ctrl_msg. run. fold dst. fold r.
  destruct (r <? 0); simpl; eexists; repeat split;
    simpl; rewrite <- ?app_assoc; reflexivity.
Qed.

(** A session that staged nothing: the rename is called with the empty
    source the session record holds. *)
Lemma rnto_after_refused_rnfr_witness :
  exists s',
    client_commands vita
      [("RNFR /" ++ cr ++ nl)%string; ("RNTO /ux0:/b.txt" ++ cr ++ nl)%string]
      state0
    = Some (tt, s')
    /\ new_events state0 s'
       = [IoGetstat None (-1);
          NetSend 5 ("550 The file doesn't exist." ++ nl);
          IoRename "" (Some "ux0:/b.txt"%string) 0;
          NetSend 5 ("226 Rename completed." ++ nl)].
Proof.
  destruct (rnto_after_refused_rnfr vita state0
              ("RNFR /" ++ cr ++ nl) ("RNTO /ux0:/b.txt" ++ cr ++ nl)
              "/" "/ux0:/b.txt" eq_refl eq_refl eq_refl eq_refl)
    as [s' [Hrun [_ Htr]]].
  - vm_compute. reflexivity.
  - exists s'. split; [exact Hrun|].
    unfold new_events. rewrite Htr. vm_compute. reflexivity.
Defined.

(** X21: RMD makes one call, [sceIoRmdir] on the resolved path, and sends
    one line.  The line is 226 exactly when the call returns 0 or more; it
    is the line for a directory that is not empty exactly when the [int]
    returned is -2147418022, the value whose unsigned reading is
    0x8001005A; every other negative result gives the general 550 line. *)
Theorem rmd_replies (P : Platform) (s : State) (arg : string)
  (Harg : sscanf_nonblank_line (recv_buffer (client s)) = Some arg)
  (Hint :
     - 2 ^ 31
     <= io_rmdir P (get_vita_path (dest_path_of (cur_path (client s)) arg))
     < 2 ^ 31) :
  let path := get_vita_path (dest_path_of (cur_path (client s)) arg) in
  let r := io_rmdir P path in
  exists reply,
    cmd_RMD_func P s
    = Some (tt, logged [IoRmdir path r;
                        NetSend (ctrl_sockfd (client s)) reply] s)
    /\ (0 <= r -> reply = ("226 Directory deleted." ++ nl)%string)
    /\ (r = -2147418022 ->
        reply = ("550 Directory is not empty." ++ nl)%string)
    /\ (r < 0 -> r <> -2147418022 ->
        reply = ("550 Could not delete the directory." ++ nl)%string).
Proof.
  intros path r. fold path in Hint. fold r in Hint.
  unfold cmd_RMD_func. unfold bind at 1.
  rewrite (gen_filepath_runs s arg Harg).
  unfold delete_dir, client_send_ctrl_msg, logged. run. fold path. fold r.
  destruct (0 <=? r) eqn:E0.
  - apply Z.leb_le in E0. eexists. split.
    + simpl. rewrite <- app_assoc. reflexivity.
    + repeat split; intros; try reflexivity; lia.
  - apply Z.leb_gt in E0.
    destruct (to_uint32 r =? 2147549274) eqn:E1.
    + apply Z.eqb_eq in E1. unfold to_uint32 in E1.
      assert (Er : r = -2147418022).
      { change (2 ^ 32) with 4294967296 in E1.
        change (2 ^ 31) with 2147483648 in Hint.
        replace r with (r + 4294967296 + (-1) * 4294967296) in E1 by lia.
        rewrite Z.mod_add in E1 by lia.
        rewrite Z.mod_small in E1 by lia. lia. }
      eexists. split.
      * simpl. rewrite <- app_assoc. reflexivity.
      * repeat split; intros; try reflexivity; lia.
    + apply Z.eqb_neq in E1.
      eexists. split.
      * simpl. rewrite <- app_assoc. reflexivity.
      * repeat split; intros; try reflexivity; try lia.
        subst r. exfalso. apply E1.
        match goal with H : io_rmdir P path = _ |- _ => rewrite H end.
        reflexivity.
Qed.

(** The bare root has no native path: the null path is what is removed. *)
Lemma rmd_replies_witness :
  exists reply,
    cmd_RMD_func vita (with_line ("RMD /" ++ cr ++ nl) state0)
    = Some (tt, logged [IoRmdir None (-1); NetSend 5 reply]
                  (with_line ("RMD /" ++ cr ++ nl) state0))
    /\ reply = ("550 Could not delete the directory." ++ nl)%string.
Proof.
  destruct (rmd_replies vita (with_line ("RMD /" ++ cr ++ nl) state0) "/"
              eq_refl ltac:(vm_compute; split; [discriminate | reflexivity]))
    as [reply [Hrun [_ [_ H]]]].
  exists reply. split; [exact Hrun|].
  apply H; vm_compute; [reflexivity | discriminate].
Defined.



(** ** Start-up and shutdown *)

Lemma acquired_app (a b : list InitCall) :
  acquired (a ++ b) = acquired a ++ acquired b.
Proof. unfold acquired. apply flat_map_app. Qed.

Lemma undone_app (a b : list InitCall) :
  undone (a ++ b) = undone a ++ undone b.
Proof. unfold undone. apply filter_app. Qed.

Lemma released_app (a b : list Event) :
  released (a ++ b) = released a ++ released b.
Proof. unfold released. apply flat_map_app. Qed.

(** X23: [ftpvita_init] returns 0 exactly when it started the server.  It
    returns 0 only from a server that was not initialised, which is
    initialised afterwards, with the address and port 1337 written through
    its two arguments and the server thread started last.  Every other
    return leaves [ftp_initialized], the mount table and the registry as
    they were, writes nothing through the arguments and starts no thread;
    on a server that is initialised already it returns -1 and makes no
    call at all. *)
Theorem init_returns_zero_iff_started (P : Platform) (A : InitAnswers)
  (g : Globals) :
  let r := ftpvita_init P A g in
  (init_ret r = 0 ->
   ftp_initialized g = 0
   /\ ftp_initialized (init_globals r) = 1
   /\ init_out r = Some (info_ip_address A, 1337)
   /\ exists before,
        init_calls r
        = before ++ [CallKernelStartThread (create_thread_ret A)])
  /\ (init_ret r <> 0 ->
      ftp_initialized (init_globals r) = ftp_initialized g
      /\ device_list (init_globals r) = device_list g
      /\ client_list (init_globals r) = client_list g
      /\ init_out r = None
      /\ forall th, ~ In (CallKernelStartThread th) (init_calls r))
  /\ (ftp_initialized g <> 0 ->
      r = mkInitResult (-1) None g []).
Proof.
  intros r. subst r. unfold ftpvita_init.
  destruct (ftp_initialized g =? 0) eqn:E0; simpl.
  2:{ apply Z.eqb_neq in E0. split; [discriminate|].
      split; [|reflexivity]. intros _. repeat split; auto. }
  apply Z.eqb_eq in E0.
  assert (Hnetctl : forall g0 calls,
    ftp_initialized g0 = 0 -> device_list g0 = device_list g ->
    client_list g0 = client_list g ->
    (forall th, ~ In (CallKernelStartThread th) calls) ->
    let r := init_netctl P A g0 calls in
    (init_ret r = 0 ->
     ftp_initialized (init_globals r) = 1
     /\ init_out r = Some (info_ip_address A, 1337)
     /\ exists before,
          init_calls r = before ++ [CallKernelStartThread (create_thread_ret A)])
    /\ (init_ret r <> 0 ->
        ftp_initialized (init_globals r) = 0
        /\ device_list (init_globals r) = device_list g
        /\ client_list (init_globals r) = client_list g
        /\ init_out r = None
        /\ forall th, ~ In (CallKernelStartThread th) (init_calls r))).
  { intros g0 calls H0 Hd Hc Hth. unfold init_netctl.
    destruct ((netctl_init_ret A <? 0)
              && negb (to_uint32 (netctl_init_ret A)
                       =? NET_CTL_ERROR_NOT_TERMINATED))%bool eqn:E1.
    - apply andb_true_iff in E1. destruct E1 as [E1 _].
      apply Z.ltb_lt in E1.
      unfold error_netctlinit, error_netinit, error_netstat. simpl.
      destruct (net_init g0 =? 0), (net_memory g0); simpl;
        (split; [intros F; lia|]); intros _;
        repeat split; auto; intros th Hin;
        repeat (apply in_app_or in Hin; destruct Hin as [Hin|Hin]);
        try (apply (Hth th); exact Hin);
        simpl in Hin; intuition discriminate.
    - destruct (netctl_getinfo_ret A <? 0) eqn:E2.
      + apply Z.ltb_lt in E2.
        unfold error_netctlgetinfo, error_netctlinit, error_netinit,
          error_netstat. simpl.
        destruct (netctl_init_ret A =? 0), (net_init g0 =? 0),
          (net_memory g0); simpl;
          (split; [intros F; lia|]); intros _;
          repeat split; auto; intros th Hin;
          repeat (apply in_app_or in Hin; destruct Hin as [Hin|Hin]);
          try (apply (Hth th); exact Hin);
          simpl in Hin; intuition discriminate.
      + simpl. split; [|intros F; exfalso; apply F; reflexivity].
        intros _. split; [reflexivity|]. split; [reflexivity|].
        exists (((calls ++ [CallNetCtlInit (netctl_init_ret A)])
                 ++ [CallNetCtlInetGetInfo (netctl_getinfo_ret A)])
                ++ [CallNetInetPton (info_ip_address A);
                    CallKernelCreateThread "FTPVita_server_thread"
                      (create_thread_ret A);
                    CallKernelCreateMutex "FTPVita_client_list_mutex"]).
        rewrite <- !app_assoc. reflexivity. }
  split; [|split; [|intros F; contradiction]].
  - intros Hr. split; [exact E0|].
    destruct (net_show_netstat A =? 0) eqn:E1.
    + apply (Hnetctl (set_net_init (-1) g)
               [CallNetShowNetstat (net_show_netstat A)]); auto.
      intros th [F|[]]. discriminate.
    + destruct (to_uint32 (net_show_netstat A)
                =? to_uint32 (SCE_NET_ERROR_ENOTINIT A)) eqn:E2.
      * destruct (net_init_ret A <? 0) eqn:E3.
        -- apply Z.ltb_lt in E3. exfalso. revert Hr.
           unfold error_netinit, error_netstat. simpl.
           destruct (net_malloc A); simpl; lia.
        -- apply (Hnetctl
                    (set_net_init (net_init_ret A)
                       (set_net_memory (net_malloc A) g))); auto.
           intros th Hin. simpl in Hin. intuition discriminate.
      * exfalso. apply Z.eqb_neq in E1. simpl in Hr. contradiction.
  - intros Hr. rewrite E0.
    destruct (net_show_netstat A =? 0) eqn:E1.
    + apply (Hnetctl (set_net_init (-1) g)
               [CallNetShowNetstat (net_show_netstat A)]); auto.
      intros th [F|[]]. discriminate.
    + destruct (to_uint32 (net_show_netstat A)
                =? to_uint32 (SCE_NET_ERROR_ENOTINIT A)) eqn:E2.
      * destruct (net_init_ret A <? 0) eqn:E3.
        -- unfold error_netinit, error_netstat. simpl.
           destruct (net_malloc A); simpl; repeat split; auto;
             intros th Hin; simpl in Hin; intuition discriminate.
        -- apply (Hnetctl
                    (set_net_init (net_init_ret A)
                       (set_net_memory (net_malloc A) g))); auto.
           intros th Hin. simpl in Hin. intuition discriminate.
      * simpl. repeat split; auto. intros th Hin. simpl in Hin.
        intuition discriminate.
Qed.

(** A start-up that succeeds, and a second call on the server it left. *)
Lemma init_returns_zero_iff_started_witness :
  let r := ftpvita_init vita answers_ok (globals_static device_list_init) in
  init_ret r = 0
  /\ init_out r = Some ("192.168.1.5"%string, 1337)
  /\ ftpvita_init vita answers_ok (init_globals r)
     = mkInitResult (-1) None (init_globals r) [].
Proof.
  pose proof (init_returns_zero_iff_started vita answers_ok
                (globals_static device_list_init)) as [H1 _].
  destruct (H1 eq_refl) as [_ [Hi [Ho _]]].
  split; [reflexivity|]. split; [exact Ho|].
  apply (init_returns_zero_iff_started vita answers_ok).
  rewrite Hi. discriminate.
Defined.

(** X24: a start-up that fails undoes what it did.  From a server that
    holds nothing, an [ftpvita_init] that does not return 0 has called, in
    the reverse order, exactly one release for every acquisition that
    succeeded before the failure ([free] for the memory that was allocated,
    [sceNetTerm] for a [sceNetInit] that returned 0, [sceNetCtlTerm] for a
    [sceNetCtlInit] that returned 0), and leaves a server that holds
    nothing again. *)
Theorem failed_init_is_undone (P : Platform) (A : InitAnswers) (g : Globals)
  (Hidle : idle g) :
  let r := ftpvita_init P A g in
  init_ret r <> 0 ->
  undone (init_calls r) = rev (acquired (init_calls r))
  /\ idle (init_globals r).
Proof.
  intros r Hr. subst r. destruct Hidle as [H0 [Hm [Hn Hc]]].
  destruct g as [fi va st ss nc cl dl nci ni nm]. simpl in H0, Hm, Hn, Hc.
  subst fi nm. revert Hr.
  unfold ftpvita_init, init_netctl, error_netctlgetinfo, error_netctlinit,
    error_netinit, error_netstat, idle.
  cbn -[Z.ltb Z.eqb to_uint32].
  repeat match goal with
         | |- context [if (?a && _)%bool then _ else _] =>
             destruct a eqn:?; cbn -[Z.ltb Z.eqb to_uint32]
         | |- context [if negb ?a then _ else _] =>
             destruct a eqn:?; cbn -[Z.ltb Z.eqb to_uint32]
         | |- context [if ?c then _ else _] =>
             destruct c eqn:?; cbn -[Z.ltb Z.eqb to_uint32]
         end;
    repeat match goal with
           | H : (_ <? _) = true |- _ => apply Z.ltb_lt in H
           | H : (_ <? _) = false |- _ => apply Z.ltb_ge in H
           | H : (_ =? _) = true |- _ => apply Z.eqb_eq in H
           | H : (_ =? _) = false |- _ => apply Z.eqb_neq in H
           end;
    intros Hr; try (exfalso; lia);
    repeat split; auto; try lia; try discriminate.
Qed.

(** The address cannot be read: the three acquisitions are undone. *)
Lemma failed_init_is_undone_witness :
  let r := ftpvita_init vita answers_no_address
             (globals_static device_list_init) in
  init_ret r = -1
  /\ undone (init_calls r) = [CallNetCtlTerm; CallNetTerm; CallFree]
  /\ idle (init_globals r).
Proof.
  assert (Hidle : idle (globals_static device_list_init))
    by (unfold idle; simpl; repeat split; discriminate).
  destruct (failed_init_is_undone vita answers_no_address
              (globals_static device_list_init) Hidle
              ltac:(vm_compute; discriminate)) as [Hu Hi].
  split; [reflexivity|]. split; [|exact Hi].
  rewrite Hu. reflexivity.
Defined.

Lemma array_set_middle {A : Type} (pre : list A) (d x : A) (post : list A) :
  array_set (List.length pre) x (pre ++ d :: post) = pre ++ x :: post.
Proof.
  induction pre as [|h t IH]; simpl; [reflexivity|]. rewrite IH. reflexivity.
Qed.

Lemma nth_error_middle {A : Type} (pre : list A) (d : A) (post : list A) :
  nth_error (pre ++ d :: post) (List.length pre) = Some d.
Proof.
  induction pre as [|h t IH]; simpl; [reflexivity|]. exact IH.
Qed.

Lemma nth_error_end {A : Type} (pre : list A) :
  nth_error (pre ++ []) (List.length pre) = None.
Proof.
  induction pre as [|h t IH]; simpl; [reflexivity|]. exact IH.
Qed.

(** The loop of [ftpvita_init] over the mount table. *)
Lemma clear_devices_from_spec (n : nat) :
  forall pre post : list Device,
    clear_devices_from n (List.length pre) (pre ++ post)
    = pre ++ map (fun d => mkDevice (name d) 0) (firstn n post) ++ skipn n post.
Proof.
  induction n as [|n IH]; intros pre post; [reflexivity|].
  destruct post as [|d post].
  - simpl. rewrite nth_error_end. reflexivity.
  - cbn [clear_devices_from]. rewrite nth_error_middle, array_set_middle.
    replace (pre ++ mkDevice (name d) 0 :: post)
      with ((pre ++ [mkDevice (name d) 0]) ++ post)
      by (rewrite <- app_assoc; reflexivity).
    replace (S (List.length pre))
      with (List.length (pre ++ [mkDevice (name d) 0]))
      by (rewrite length_app; simpl; lia).
    rewrite IH. simpl. rewrite <- app_assoc. reflexivity.
Qed.

Lemma init_success_devices (P : Platform) (A : InitAnswers) (g : Globals) :
  init_ret (ftpvita_init P A g) = 0 ->
  device_list (init_globals (ftpvita_init P A g))
  = clear_devices_from MAX_DEVICES 0 (device_list g).
Proof.
  destruct g as [fi va st ss nc cl dl nci ni nm].
  unfold ftpvita_init, init_netctl, error_netctlgetinfo, error_netctlinit,
    error_netinit, error_netstat.
  cbn -[Z.ltb Z.eqb to_uint32 clear_devices_from].
  repeat match goal with
         | |- context [if (?a && _)%bool then _ else _] =>
             destruct a eqn:?; cbn -[Z.ltb Z.eqb to_uint32 clear_devices_from]
         | |- context [if negb ?a then _ else _] =>
             destruct a eqn:?; cbn -[Z.ltb Z.eqb to_uint32 clear_devices_from]
         | |- context [if ?c then _ else _] =>
             destruct c eqn:?; cbn -[Z.ltb Z.eqb to_uint32 clear_devices_from]
         end;
    repeat match goal with
           | H : (_ <? _) = true |- _ => apply Z.ltb_lt in H
           | H : (_ <? _) = false |- _ => apply Z.ltb_ge in H
           | H : (_ =? _) = true |- _ => apply Z.eqb_eq in H
           | H : (_ =? _) = false |- _ => apply Z.eqb_neq in H
           end;
    intros Hr; try (exfalso; lia); try reflexivity.
Qed.

Lemma filter_valid_cleared (dl : list Device) :
  filter is_valid (map (fun d => mkDevice (name d) 0) dl) = [].
Proof. induction dl as [|d dl IH]; simpl; auto. Qed.

(** X25: a start-up that succeeds drops every mount.  It clears the valid
    flag of all 16 slots and leaves their names, so the mounts that were
    added before [ftpvita_init] are gone: no slot is valid, and a LIST of
    [/] on the server it started sends the 150 and the 226 line with
    nothing between them. *)
Theorem init_drops_mounts (P : Platform) (A : InitAnswers) (g : Globals)
  (Hlen : List.length (device_list g) = MAX_DEVICES)
  (Hok : init_ret (ftpvita_init P A g) = 0) :
  let g' := init_globals (ftpvita_init P A g) in
  map name (device_list g') = map name (device_list g)
  /\ count_valid (device_list g') = O
  /\ forall s : State,
       globals s = g' ->
       exists s' evs,
         send_LIST P "/" s = Some (tt, s')
         /\ w_trace (world s') = w_trace (world s) ++ evs
         /\ sent_lines evs
            = [("150 Opening ASCII mode data transfer for LIST." ++ nl)%string;
               ("226 Transfer complete." ++ nl)%string].
Proof.
  intros g'.
  assert (E : device_list g'
              = map (fun d => mkDevice (name d) 0) (device_list g)).
  { subst g'. rewrite (init_success_devices P A g Hok).
    pose proof (clear_devices_from_spec MAX_DEVICES [] (device_list g)) as H.
    change (clear_devices_from MAX_DEVICES 0 (device_list g)
            = map (fun d => mkDevice (name d) 0)
                (firstn MAX_DEVICES (device_list g))
              ++ skipn MAX_DEVICES (device_list g)) in H.
    rewrite H.
    rewrite firstn_all2, skipn_all2 by lia. apply app_nil_r. }
  split; [|split].
  - rewrite E, map_map. reflexivity.
  - unfold count_valid. rewrite E, filter_valid_cleared. reflexivity.
  - intros s Hs.
    destruct (send_LIST_root_lines P s) as [s' [evs [Hrun [Htr Hlines]]]].
    exists s', evs. split; [exact Hrun|]. split; [exact Htr|].
    rewrite Hlines, Hs, E.
    rewrite firstn_all2 by (rewrite length_map; lia).
    rewrite filter_valid_cleared. reflexivity.
Qed.

(** A table with the mount [ux0:] in its first slot, started up. *)
Lemma init_drops_mounts_witness :
  let dl := snd (ftpvita_add_device "ux0:" device_list_init) in
  count_valid dl = 1%nat
  /\ count_valid
       (device_list (init_globals
                       (ftpvita_init vita answers_ok (globals_static dl))))
     = O.
Proof.
  split; [reflexivity|].
  apply (init_drops_mounts vita answers_ok
           (globals_static (snd (ftpvita_add_device "ux0:" device_list_init)))
           eq_refl eq_refl).
Defined.

(** What [ftpvita_fini] does on a server that is initialised: the calls, in
    order, and the globals it leaves. *)
Lemma ftpvita_fini_runs (P : Platform) (s : State) :
  ftp_initialized (globals s) <> 0 ->
  let g := globals s in
  exists s',
    ftpvita_fini P s = Some (tt, s')
    /\ client s' = client s
    /\ globals s'
       = mkGlobals 0 (vita_addr g) (server_thid g) (server_sockfd g) 0 []
           (device_list g) (-1) (-1) false
    /\ w_trace (world s')
       = w_trace (world s)
         ++ [NetSocketClose (server_sockfd g);
             KernelWaitThreadEnd (server_thid g); KernelLockMutex]
         ++ flat_map (session_shutdown P) (client_list g)
         ++ [KernelUnlockMutex; KernelDeleteMutex]
         ++ (if netctl_init g =? 0 then [NetCtlTerm] else [])
         ++ (if net_init g =? 0 then [NetTerm] else [])
         ++ (if net_memory g then [Free] else []).
Proof.
  intros Hinit g. unfold ftpvita_fini, client_list_thread_end. run. fold g.
  apply Z.eqb_neq in Hinit. fold g in Hinit. rewrite Hinit. simpl.
  match goal with
  | |- context [client_list_walk P ?l ?st] =>
      destruct (client_list_walk_runs P l st)
        as [s1 [Hrun [Hc [Hg [Htr _]]]]]
  end.
  rewrite Hrun. cbn [w_trace world globals client] in Hc, Hg, Htr.
  destruct s1 as [c1 g1 w1]. simpl in Hc, Hg, Htr. subst c1 g1.
  destruct (netctl_init g =? 0), (net_init g =? 0), (net_memory g); simpl;
    eexists; (split; [reflexivity|]); simpl;
    (split; [reflexivity|]); (split; [reflexivity|]);
    rewrite Htr, <- !app_assoc; reflexivity.
Qed.

Lemma released_session_shutdown (P : Platform) (l : list ClientInfo) :
  released (flat_map (session_shutdown P) l) = [].
Proof.
  induction l as [|c l IH]; simpl; [reflexivity|].
  rewrite released_app, IH, app_nil_r.
  unfold session_shutdown. destruct (data_con_type c); reflexivity.
Qed.

(** X26: a shutdown releases what the start-up acquired, and nothing
    else.  On the server that an [ftpvita_init] started from a state that
    held nothing, [ftpvita_fini] calls [sceNetCtlTerm], [sceNetTerm] and
    [free] exactly for the acquisitions of that start-up that succeeded, in
    the reverse order: a network that was initialised already is left
    initialised.  Afterwards the server holds nothing, so it can be started
    again, and the mount table is as the shutdown found it. *)
Theorem fini_releases_what_init_acquired (P : Platform) (A : InitAnswers)
  (g : Globals) (s : State)
  (Hidle : idle g)
  (Hok : init_ret (ftpvita_init P A g) = 0)
  (Hinit : ftp_initialized (globals s) <> 0)
  (Hnetctl : netctl_init (globals s)
             = netctl_init (init_globals (ftpvita_init P A g)))
  (Hnet : net_init (globals s) = net_init (init_globals (ftpvita_init P A g)))
  (Hmem : net_memory (globals s)
          = net_memory (init_globals (ftpvita_init P A g))) :
  exists s',
    ftpvita_fini P s = Some (tt, s')
    /\ released (new_events s s')
       = rev (acquired (init_calls (ftpvita_init P A g)))
    /\ idle (globals s')
    /\ device_list (globals s') = device_list (globals s).
Proof.
  destruct (ftpvita_fini_runs P s Hinit) as [s' [Hrun [_ [Hg Htr]]]].
  exists s'. split; [exact Hrun|].
  rewrite (new_events_app s s' _ Htr). rewrite Hg.
  split; [|split; [unfold idle; simpl; repeat split; discriminate
                  | reflexivity]].
  rewrite !released_app, released_session_shutdown.
  rewrite Hnetctl, Hnet, Hmem. clear Hnetctl Hnet Hmem Hrun Hg Htr Hinit.
  destruct Hidle as [H0 [Hm [Hn Hc]]].
  destruct g as [fi va st ss nc cl dl nci ni nm]. simpl in H0, Hm, Hn, Hc.
  subst fi nm. revert Hok.
  unfold ftpvita_init, init_netctl, error_netctlgetinfo, error_netctlinit,
    error_netinit, error_netstat.
  cbn -[Z.ltb Z.eqb to_uint32 clear_devices_from].
  repeat match goal with
         | |- context [if (?a && _)%bool then _ else _] =>
             destruct a eqn:?; cbn -[Z.ltb Z.eqb to_uint32 clear_devices_from]
         | |- context [if negb ?a then _ else _] =>
             destruct a eqn:?; cbn -[Z.ltb Z.eqb to_uint32 clear_devices_from]
         | |- context [if ?c then _ else _] =>
             destruct c eqn:?; cbn -[Z.ltb Z.eqb to_uint32 clear_devices_from]
         end;
    repeat match goal with
           | H : (_ <? _) = true |- _ => apply Z.ltb_lt in H
           | H : (_ <? _) = false |- _ => apply Z.ltb_ge in H
           | H : (_ =? _) = true |- _ => apply Z.eqb_eq in H
           | H : (_ =? _) = false |- _ => apply Z.eqb_neq in H
           end;
    intros Hok; try (exfalso; lia); try reflexivity.
Qed.

(** The server of [answers_ok], shut down with no session: the three
    releases, the last acquisition first. *)
Lemma fini_releases_what_init_acquired_witness :
  let r := ftpvita_init vita answers_ok (globals_static device_list_init) in
  let s := mkState client0 (init_globals r) world0 in
  acquired (init_calls r) = [CallFree; CallNetTerm; CallNetCtlTerm]
  /\ exists s',
       ftpvita_fini vita s = Some (tt, s')
       /\ released (new_events s s')
          = [CallNetCtlTerm; CallNetTerm; CallFree].
Proof.
  intros r s. split; [reflexivity|].
  assert (Hidle : idle (globals_static device_list_init))
    by (unfold idle; simpl; repeat split; discriminate).
  destruct (fini_releases_what_init_acquired vita answers_ok
              (globals_static device_list_init) s Hidle eq_refl
              ltac:(vm_compute; discriminate) eq_refl eq_refl eq_refl)
    as [s' [Hrun [Hrel _]]].
  exists s'. split; [exact Hrun|]. exact Hrel.
Defined.

(** X27: [ftpvita_fini] on a server that is not initialised does nothing
    at all, so a second shutdown is harmless: after any [ftpvita_fini] the
    server is not initialised and another [ftpvita_fini] changes nothing
    and makes no call.  A shutdown keeps the mount table with its valid
    flags. *)
Theorem fini_twice_is_fini_once (P : Platform) (s : State) :
  (ftp_initialized (globals s) = 0 -> ftpvita_fini P s = Some (tt, s))
  /\ exists s',
       ftpvita_fini P s = Some (tt, s')
       /\ ftp_initialized (globals s') = 0
       /\ device_list (globals s') = device_list (globals s)
       /\ ftpvita_fini P s' = Some (tt, s').
Proof.
  assert (Hnop : forall st, ftp_initialized (globals st) = 0 ->
                            ftpvita_fini P st = Some (tt, st)).
  { intros st H0. unfold ftpvita_fini. run. rewrite H0. reflexivity. }
  split; [apply Hnop|].
  destruct (Z.eq_dec (ftp_initialized (globals s)) 0) as [H0|H1].
  - exists s. repeat split; auto.
  - destruct (ftpvita_fini_runs P s H1) as [s' [Hrun [_ [Hg _]]]].
    exists s'. split; [exact Hrun|].
    rewrite Hg. simpl. repeat split. apply Hnop. rewrite Hg. reflexivity.
Qed.

(** ** The registry, link by link *)

Lemma store_same (a : Z) (l : Linked.Links) (m : Z -> Linked.Links) :
  Linked.store a l m a = l.
Proof. unfold Linked.store. rewrite Z.eqb_refl. reflexivity. Qed.

Lemma store_other (a b : Z) (l : Linked.Links) (m : Z -> Linked.Links) :
  b <> a -> Linked.store a l m b = m b.
Proof.
  intros H. unfold Linked.store. apply Z.eqb_neq in H. rewrite H. reflexivity.
Qed.

(** A chain only depends on the links of its own records. *)
Lemma chain_frame (m m' : Z -> Linked.Links) (l : list Z) :
  forall from first,
    (forall a, In a l -> m' a = m a) ->
    Linked.chain m from l first -> Linked.chain m' from l first.
Proof.
  induction l as [|a rest IH]; intros from first Hsame H; simpl in *; auto.
  destruct H as [Hf [Hp Hc]].
  rewrite (Hsame a (or_introl eq_refl)).
  split; [exact Hf|]. split; [exact Hp|].
  apply IH; auto.
Qed.

Lemma chain_walk (m : Z -> Linked.Links) (l : list Z) :
  forall from first,
    Linked.chain m from l first ->
    Linked.walk (List.length l) m first = Some l.
Proof.
  induction l as [|a rest IH]; intros from first H; simpl in *.
  - rewrite H. reflexivity.
  - destruct H as [Hf [_ Hc]]. rewrite Hf, (IH _ _ Hc). reflexivity.
Qed.

(** X28: [client_list_add] puts a session that is not registered at the
    front of the registry.  When the registry holds the sessions [l],
    linked both ways, with [number_clients] their number, it holds
    [client :: l] afterwards, linked both ways again, and the walk of
    [client_list_thread_end] from the head visits the new session first and
    then those of [l] in their order.  The two calls made are the lock and
    the unlock of the mutex. *)
Theorem registry_add (client : Z) (r : Linked.Registry) (l : list Z)
  (Hholds : Linked.holds r l) (Hnew : ~ In client l) :
  let r' := snd (Linked.client_list_add client r) in
  Linked.holds r' (client :: l)
  /\ Linked.walk (S (List.length l)) (Linked.links r') (Linked.client_list r')
     = Some (client :: l)
  /\ fst (Linked.client_list_add client r)
     = [KernelLockMutex; KernelUnlockMutex].
Proof.
  intros r'.
  assert (H : Linked.holds r' (client :: l)).
  { destruct Hholds as [Hnd [Hch Hn]]. subst r'.
    unfold Linked.holds, Linked.client_list_add.
    destruct l as [|h rest].
    - simpl in Hch. rewrite Hch. simpl.
      split; [constructor; [exact Hnew | constructor]|].
      rewrite !store_same. simpl. rewrite Hn. repeat split; reflexivity.
    - simpl in Hch. destruct Hch as [Hh [Hp Hc]]. rewrite Hh.
      assert (Hne : h <> client)
        by (intros E; apply Hnew; left; exact E).
      inversion Hnd as [|? ? Hh_rest Hnd_rest]; subst.
      assert (Hne' : client <> h) by congruence.
      cbn [snd Linked.links Linked.client_list Linked.number_clients].
      split; [constructor; [exact Hnew | exact Hnd]|].
      split.
      + cbn [Linked.chain].
        repeat (rewrite store_same
                || (rewrite store_other by assumption)
                || cbn [Linked.next Linked.prev]).
        split; [reflexivity|]. split; [reflexivity|].
        split; [reflexivity|]. split; [reflexivity|].
        apply (chain_frame (Linked.links r)); [|exact Hc].
        intros a Ha.
        assert (a <> client) by (intros E; subst a; apply Hnew; right; exact Ha).
        assert (a <> h) by (intros E; subst a; contradiction).
        rewrite !store_other by assumption. reflexivity.
      + rewrite Hn. cbn [List.length]. lia. }
  split; [exact H|]. split; [|reflexivity].
  destruct H as [_ [Hch _]].
  apply (chain_walk _ (client :: l) None). exact Hch.
Qed.

(** Two sessions, registered one after the other in an empty registry. *)
Lemma registry_add_witness :
  let r1 := snd (Linked.client_list_add 100
                   (Linked.empty (fun _ => Linked.mkLinks None None))) in
  let r2 := snd (Linked.client_list_add 200 r1) in
  Linked.holds r2 [200; 100]
  /\ Linked.client_list r2 = Some 200
  /\ Linked.next (Linked.links r2 200) = Some 100
  /\ Linked.prev (Linked.links r2 100) = Some 200
  /\ Linked.number_clients r2 = 2.
Proof.
  intros r1 r2.
  assert (H0 : Linked.holds (Linked.empty (fun _ => Linked.mkLinks None None)) [])
    by (repeat split; constructor).
  assert (H1 : Linked.holds r1 [100])
    by (apply (registry_add 100 _ [] H0); intros []).
  assert (H2 : Linked.holds r2 [200; 100]).
  { apply (registry_add 200 r1 [100] H1).
    intros [E|[]]. discriminate. }
  split; [exact H2|]. repeat split; reflexivity.
Defined.

Lemma chain_first_in (m : Z -> Linked.Links) (l : list Z) :
  forall from first n,
    Linked.chain m from l first -> first = Some n -> In n l.
Proof.
  destruct l as [|a rest]; intros from first n H E; simpl in H.
  - congruence.
  - destruct H as [Hf _]. left. congruence.
Qed.

Lemma chain_next_in (m : Z -> Linked.Links) (c : Z) (l : list Z) :
  forall from first n,
    Linked.chain m from l first -> In c l ->
    Linked.next (m c) = Some n -> In n l.
Proof.
  induction l as [|a rest IH]; intros from first n H Hin E; [contradiction|].
  simpl in H. destruct H as [_ [_ Hc]]. destruct Hin as [->|Hin].
  - right. exact (chain_first_in m rest _ _ n Hc E).
  - right. exact (IH _ _ n Hc Hin E).
Qed.

Lemma chain_prev_in (m : Z -> Linked.Links) (c : Z) (rest : list Z) :
  forall x from first,
    Linked.chain m from (x :: rest) first -> In c rest ->
    exists p, Linked.prev (m c) = Some p /\ In p (x :: rest).
Proof.
  induction rest as [|y rest IH]; intros x from first H Hin; [contradiction|].
  simpl in H. destruct H as [_ [_ [Hn [Hp Hc]]]].
  destruct Hin as [->|Hin].
  - exists x. split; [exact Hp | left; reflexivity].
  - destruct (IH y (Some x) (Linked.next (m x))) as [p [E Hpin]].
    + simpl. split; [exact Hn|]. split; [exact Hp | exact Hc].
    + exact Hin.
    + exists p. split; [exact E | right; exact Hpin].
Qed.

(** The links after [client_list_delete], along the chain. *)
Lemma delete_chain (c : Z) (m : Z -> Linked.Links) :
  let m1 :=
    match Linked.prev (m c) with
    | Some p =>
        Linked.store p
          (Linked.mkLinks (Linked.next (m c)) (Linked.prev (m p))) m
    | None => m
    end in
  let m2 :=
    match Linked.next (m1 c) with
    | Some n =>
        Linked.store n
          (Linked.mkLinks (Linked.next (m1 n)) (Linked.prev (m1 c))) m1
    | None => m1
    end in
  forall l from first,
    Linked.chain m from l first -> NoDup l -> In c l ->
    (forall p, from = Some p -> ~ In p l) ->
    Linked.chain m2 from (List.remove Z.eq_dec c l)
      (match first with
       | Some h => if h =? c then Linked.next (m c) else Some h
       | None => None
       end).
Proof.
  intros m1 m2.
  assert (Hnext1 : Linked.next (m1 c) = Linked.next (m c)).
  { subst m1. destruct (Linked.prev (m c)) as [p|]; [|reflexivity].
    destruct (Z.eq_dec c p) as [->|Hne].
    - rewrite store_same. reflexivity.
    - rewrite store_other by exact Hne. reflexivity. }
  induction l as [|a rest IH]; intros from first H Hnd Hin Hfrom;
    [contradiction|].
  simpl in H. destruct H as [Hf [Hp Hc]]. rewrite Hf.
  apply NoDup_cons_iff in Hnd. destruct Hnd as [Ha_rest Hnd_rest].
  destruct (Z.eq_dec a c) as [->|Hac].
  - (* the session is the first of the chain *)
    rewrite Z.eqb_refl. rewrite List.remove_cons.
    rewrite (List.notin_remove Z.eq_dec rest c Ha_rest).
    subst from.
    assert (Hm1c : m1 c = m c).
    { subst m1. destruct (Linked.prev (m c)) as [p|] eqn:Epc; [|reflexivity].
      apply store_other. intros E. subst p.
      apply (Hfrom c eq_refl). left. reflexivity. }
    assert (Hm1 : forall x, In x rest -> m1 x = m x).
    { intros x Hx. subst m1.
      destruct (Linked.prev (m c)) as [p|] eqn:Epc; [|reflexivity].
      apply store_other. intros E. subst p.
      apply (Hfrom x eq_refl). right. exact Hx. }
    destruct rest as [|n rest'].
    + simpl in Hc. rewrite Hc. simpl. reflexivity.
    + simpl in Hc. destruct Hc as [Hn [Hpn Hc']].
      apply NoDup_cons_iff in Hnd_rest.
      destruct Hnd_rest as [Hn_rest Hnd_rest'].
      rewrite Hn.
      assert (Em2 : m2 = Linked.store n
                           (Linked.mkLinks (Linked.next (m n))
                              (Linked.prev (m c))) m1).
      { subst m2. rewrite Hnext1, Hn, Hm1c.
        rewrite (Hm1 n (or_introl eq_refl)). reflexivity. }
      rewrite Em2. cbn [Linked.chain]. rewrite store_same.
      cbn [Linked.next Linked.prev].
      split; [reflexivity|]. split; [reflexivity|].
      apply (chain_frame m); [|exact Hc'].
      intros x Hx.
      assert (x <> n) by (intros E; subst x; contradiction).
      rewrite store_other by assumption.
      apply Hm1. right. exact Hx.
  - (* the session is further on *)
    destruct Hin as [E|Hin]; [contradiction|].
    apply Z.eqb_neq in Hac. rewrite Hac. apply Z.eqb_neq in Hac.
    cbn [List.remove].
    destruct (Z.eq_dec c a) as [E|_]; [congruence|].
    assert (IH' := IH (Some a) (Linked.next (m a)) Hc Hnd_rest Hin).
    assert (Hfrom' : forall p, Some a = Some p -> ~ In p rest).
    { intros p E. inversion E; subst. exact Ha_rest. }
    specialize (IH' Hfrom').
    (* the successor of the session is not [a] *)
    assert (Hn_a : forall n, Linked.next (m c) = Some n -> n <> a).
    { intros n E F. subst n.
      apply Ha_rest. exact (chain_next_in m c rest _ _ a Hc Hin E). }
    assert (Em2a : m2 a = m1 a).
    { subst m2. rewrite Hnext1.
      destruct (Linked.next (m c)) as [n|] eqn:En; [|reflexivity].
      apply store_other. intros E. exact (Hn_a n eq_refl (eq_sym E)). }
    destruct rest as [|x rest']; [contradiction|].
    simpl in Hc. destruct Hc as [Hx [Hpx Hc']].
    cbn [Linked.chain]. split; [reflexivity|].
    destruct (Z.eq_dec x c) as [->|Hxc].
    + (* [a] is the predecessor of the session *)
      assert (Em1a : m1 a
                     = Linked.mkLinks (Linked.next (m c)) (Linked.prev (m a))).
      { subst m1. rewrite Hpx. apply store_same. }
      rewrite Em2a, Em1a. cbn [Linked.next Linked.prev].
      split; [exact Hp|].
      rewrite Hx, Z.eqb_refl in IH'. exact IH'.
    + (* the predecessor of the session is further on *)
      destruct Hin as [E|Hin']; [contradiction|].
      destruct (chain_prev_in m c rest' x (Some a) (Linked.next (m a)))
        as [p [Epc Hpin]].
      { simpl. split; [exact Hx|]. split; [exact Hpx | exact Hc']. }
      { exact Hin'. }
      assert (Hpa : a <> p) by (intros E; subst p; contradiction).
      assert (Em1a : m1 a = m a).
      { subst m1. rewrite Epc. apply store_other. exact Hpa. }
      rewrite Em2a, Em1a. split; [exact Hp|].
      rewrite Hx in IH'. apply Z.eqb_neq in Hxc. rewrite Hxc in IH'.
      rewrite Hx. exact IH'.
Qed.
